(** * Fill-in recommendation engine of the Coach tool: model and properties

    The engine exists twice in the repository: in the edge function
    [get-optimal-fill-ins] (module [Server] below) and in the browser
    modules [js/utils.js], [js/logViewer.js], [js/schedule.js] and
    [js/api.js] (module [Client]).  Both are embedded function by
    function; the theorems of the second and fourth parts relate them to
    the written specification, those of the third part describe the
    engine further.

    Modelling conventions.
    - A JavaScript string is a [string] whose characters stand for the
      UTF-16 code units below 256.
    - A JavaScript number is an integer ([Z]) that a double holds
      exactly, as the ids and counts read from JSON are, or [infinity];
      [parseInt] rounds what it reads to such a number ([roundToDouble])
      and gives [None] for [NaN]. A capacity handed to a checker may
      also be the number [NaN] ([JsArg]). The text of a number is its
      decimal digits: the numbers from 10^21 on, which JavaScript writes
      with an exponent, are outside the model.
    - A record field that the code tests against [undefined] or [null]
      has type [field A]. Values tested with [typeof] are [JsVal]s.
    - A call that can throw returns a [completion].
    - An object literal used as a map is a [gmap]; reading a key that is
      not its own reaches [Object.prototype] ([getProperty]). *)

From Stdlib Require Import ZArith Ascii String List Bool Lia Sorted.
From stdpp Require Import base option list gmap strings pretty.

Local Open Scope string_scope.
Local Open Scope list_scope.
Local Open Scope Z_scope.

(* ================================================================== *)
(** * Part I: the embedding *)
(* ================================================================== *)

(** ** The JavaScript values and string operations the engine uses *)

Module Js.

Inductive JsVal : Type :=
  | VUndef
  | VNull
  | VBool (b : bool)
  | VNum (n : Z)
  | VStr (s : string).

(** A property of a row: absent ([undefined]), [null], or a value. *)
Inductive field (A : Type) : Type :=
  | Undefined
  | Null
  | Val (a : A).
Arguments Undefined {A}.
Arguments Null {A}.
Arguments Val {A} a.

(** Outcome of a call: a returned value or a thrown error. *)
Inductive completion (A : Type) : Type :=
  | Normal (a : A)
  | Throw (msg : string).
Arguments Normal {A} a.
Arguments Throw {A} msg.

(** [try { return body } catch (e) { return handler }] *)
Definition tryCatch {A : Type} (body : completion A) (handler : A) : A :=
  match body with
  | Normal a => a
  | Throw _ => handler
  end.

Definition isNumber (v : JsVal) : bool :=
  match v with VNum _ => true | _ => false end.

(** An argument that is a value or the number [NaN], for which [typeof]
    is ['number'] and every comparison is false. *)
Inductive JsArg : Type :=
  | NaN
  | Value (v : JsVal).
Coercion Value : JsVal >-> JsArg.

(** [typeof a === 'number'] *)
Definition isNumberArg (a : JsArg) : bool :=
  match a with
  | NaN => true
  | Value v => isNumber v
  end.

(** [a < n], which is also [n > a], for an argument whose [typeof] is
    ['number']: false when [a] is [NaN]. *)
Definition lessThan (a : JsArg) (n : Z) : bool :=
  match a with
  | Value (VNum x) => x <? n
  | _ => false
  end.

(** [`${a}`] *)
Definition argToString (a : JsArg) : string :=
  match a with
  | NaN => "NaN"
  | Value VUndef => "undefined"
  | Value VNull => "null"
  | Value (VBool true) => "true"
  | Value (VBool false) => "false"
  | Value (VNum n) => pretty n
  | Value (VStr s) => s
  end.

(** Truthiness of a string-valued field: [undefined], [null] and the
    empty string are falsy. *)
Definition truthyStr (f : field string) : option string :=
  match f with
  | Val s => if String.eqb s "" then None else Some s
  | _ => None
  end.

(** [a || b] on string-valued fields. *)
Definition orField (a b : field string) : field string :=
  match truthyStr a with
  | Some _ => a
  | None => b
  end.

Definition code (c : ascii) : nat := nat_of_ascii c.

Definition between (lo hi n : nat) : bool := Nat.leb lo n && Nat.leb n hi.

(** White space and line terminators, as [trim] and the regular
    expression class [\s] see them. *)
Definition isWhiteSpace (c : ascii) : bool :=
  let n := code c in
  between 9 13 n || Nat.eqb n 32 || Nat.eqb n 160.

(** The characters the regular expression [.] does not match. *)
Definition isLineTerminator (c : ascii) : bool :=
  let n := code c in Nat.eqb n 10 || Nat.eqb n 13.

Definition isDigit (c : ascii) : bool := between 48 57 (code c).

Definition isHexDigit (c : ascii) : bool :=
  let n := code c in between 48 57 n || between 65 70 n || between 97 102 n.

(** [[A-Za-z]] *)
Definition isLetter (c : ascii) : bool :=
  let n := code c in between 65 90 n || between 97 122 n.

Definition digitValue (c : ascii) : Z := Z.of_nat (code c) - 48.

Definition hexValue (c : ascii) : Z :=
  let n := code c in
  if between 48 57 n then Z.of_nat n - 48
  else if between 65 70 n then Z.of_nat n - 55
  else Z.of_nat n - 87.

Definition toLowerChar (c : ascii) : ascii :=
  let n := code c in
  if between 65 90 n || (between 192 222 n && negb (Nat.eqb n 215))
  then ascii_of_nat (n + 32) else c.

Fixpoint toLowerCase (s : string) : string :=
  match s with
  | EmptyString => EmptyString
  | String c r => String (toLowerChar c) (toLowerCase r)
  end.

Fixpoint trimStart (s : string) : string :=
  match s with
  | EmptyString => EmptyString
  | String c r => if isWhiteSpace c then trimStart r else s
  end.

Fixpoint trimEnd (s : string) : string :=
  match s with
  | EmptyString => EmptyString
  | String c r =>
      let r' := trimEnd r in
      if isWhiteSpace c && String.eqb r' "" then EmptyString else String c r'
  end.

Definition trim (s : string) : string := trimEnd (trimStart s).

(** [s.substring(0, n)] and [s.substring(n)] *)
Fixpoint take (n : nat) (s : string) : string :=
  match n, s with
  | S k, String c r => String c (take k r)
  | _, _ => EmptyString
  end.

Fixpoint drop (n : nat) (s : string) : string :=
  match n, s with
  | S k, String _ r => drop k r
  | _, _ => s
  end.

Definition startsWith (s p : string) : bool := String.prefix p s.

Fixpoint includesChar (c : ascii) (s : string) : bool :=
  match s with
  | EmptyString => false
  | String d r => Ascii.eqb c d || includesChar c r
  end.

(** Adds a character to the first piece of a split. *)
Definition consHead (c : ascii) (pieces : list string) : list string :=
  match pieces with
  | h :: t => String c h :: t
  | [] => [String c EmptyString]
  end.

(** [s.split(sep)] for a separator of one character. *)
Fixpoint split (sep : ascii) (s : string) : list string :=
  match s with
  | EmptyString => [EmptyString]
  | String c r =>
      if Ascii.eqb c sep then EmptyString :: split sep r
      else consHead c (split sep r)
  end.

(** [l.includes(x)] on an array of strings *)
Definition includes (l : list string) (x : string) : bool :=
  existsb (String.eqb x) l.

(** The digits [parseInt] reads in a radix, most significant first. *)
Fixpoint readDigits (isD : ascii -> bool) (s : string) : list ascii :=
  match s with
  | EmptyString => []
  | String c r => if isD c then c :: readDigits isD r else []
  end.

Definition digitsValue (radix : Z) (val : ascii -> Z) (ds : list ascii) : Z :=
  fold_left (fun acc d => acc * radix + val d) ds 0.

(** The integer that stands for [Infinity]: the least power of two that
    is beyond the doubles. *)
Definition infinity : Z := Z.shiftl 1 1024.

(** The double nearest to an integer, ties to the even significand: an
    integer of more than 53 bits loses its low bits, and one that rounds
    beyond the largest double becomes [Infinity]. *)
Definition roundToDouble (z : Z) : Z :=
  let magnitude := Z.abs z in
  let dropped := Z.log2 magnitude - 52 in
  if dropped <=? 0 then z
  else
    let significand := Z.shiftr magnitude dropped in
    let rest := Z.land magnitude (Z.ones dropped) in
    let half := Z.shiftl 1 (dropped - 1) in
    let significand :=
      if (half <? rest) || ((rest =? half) && Z.odd significand)
      then significand + 1 else significand in
    let rounded := Z.shiftl significand dropped in
    Z.sgn z * (if infinity <=? rounded then infinity else rounded).

Definition parseUnsigned (s : string) : option Z :=
  let hex :=
    match s with
    | String "0" (String x r) =>
        if Ascii.eqb x "x" || Ascii.eqb x "X" then Some r else None
    | _ => None
    end in
  match hex with
  | Some r =>
      match readDigits isHexDigit r with
      | [] => None
      | ds => Some (roundToDouble (digitsValue 16 hexValue ds))
      end
  | None =>
      match readDigits isDigit s with
      | [] => None
      | ds => Some (roundToDouble (digitsValue 10 digitValue ds))
      end
  end.

(** [parseInt(s)] without a radix: leading white space, a sign, a [0x]
    prefix, then the longest run of digits, read as a double; [None] is
    [NaN]. *)
Definition parseInt (s : string) : option Z :=
  match trimStart s with
  | String "-" r => Z.opp <$> parseUnsigned r
  | String "+" r => parseUnsigned r
  | t => parseUnsigned t
  end.

(** [parseInt(v)] on a value: the argument is converted to a string first. *)
Definition parseIntVal (v : JsVal) : option Z :=
  match v with
  | VNum n => Some n
  | VStr s => parseInt s
  | _ => None
  end.

(** The members every object literal inherits from [Object.prototype]. *)
Definition objectPrototypeKeys : list string :=
  [ "constructor"; "__proto__"; "hasOwnProperty"; "isPrototypeOf";
    "propertyIsEnumerable"; "toLocaleString"; "toString"; "valueOf";
    "__defineGetter__"; "__defineSetter__"; "__lookupGetter__";
    "__lookupSetter__" ].

(** What [obj[key]] yields on an object literal used as a map. *)
Inductive lookupResult (A : Type) : Type :=
  | Own (a : A)
  | Inherited
  | Missing.
Arguments Own {A} a.
Arguments Inherited {A}.
Arguments Missing {A}.

Definition getProperty {A : Type} (obj : gmap string A) (key : string) : lookupResult A :=
  match obj !! key with
  | Some a => Own a
  | None => if includes objectPrototypeKeys key then Inherited else Missing
  end.

End Js.

Export Js.


(** ** The rows the edge function selects from the [students] table *)

Module Roster.

(** [lessons_owed] is the column the code reads as
    [student["lessons owed"]]; [name] is read as a fallback for [Name]. *)
Record Student : Type := {
  id : Z;
  Name : field string;
  name : field string;
  groupOf : JsVal;
  sub_group : field string;
  lessons_owed : field Z;
  availability_string : field string;
  class_name : field string
}.

End Roster.

(** A row of the [daily_blocks] table. *)
Record DailyBlock : Type := {
  block_date : string;
  block_type : string;
  identifier : option string
}.

(** ** The edge function [get-optimal-fill-ins] *)

Module Server.

Record StudentDetails : Type := {
  id : Z;
  name : string;
  groupOf : JsVal;
  subGroup : option string;
  lessons_owed : Z;
  availability_string : field string;
  class_name : field string
}.

Record SlotInfo : Type := {
  schedule_id : Z;
  day_of_week : string;
  start_time : string;
  capacity : Z;
  coach_id : Z;
  coach_name : string;
  original_student_ids : option (list Z);
  current_occupants : Z;
  slot_date : field string
}.

Record RecommendedGroupMember : Type := {
  student_id : Z;
  member_name : string;
  member_lessons_owed : Z;
  member_groupOf : JsVal;
  member_subGroup : option string
}.

Record ResultSlot : Type := {
  slot_info : SlotInfo;
  result_start_time : string;
  recommended_group : list RecommendedGroupMember
}.

Record Verdict : Type := {
  violation : bool;
  reason : string
}.

(** The [groupOf] a member of the potential occupants counts with:
    [(details && typeof details.groupOf === 'number') ? details.groupOf : 1] *)
Definition groupSize (details : option StudentDetails) : Z :=
  match details with
  | Some d => match groupOf d with VNum n => n | _ => 1 end
  | None => 1
  end.

(** The body of the [forEach] that counts solo and paired members. *)
Definition countStep (counts : nat * nat) (details : option StudentDetails) : nat * nat :=
  let '(potentialSoloCount, potentialPairedCount) := counts in
  if groupSize details =? 1 then (S potentialSoloCount, potentialPairedCount)
  else if groupSize details =? 2 then (potentialSoloCount, S potentialPairedCount)
  else counts.

Definition checkPairingRuleViolation
    (candidateDetails : option StudentDetails)
    (currentOccupantsDetails : option (list (option StudentDetails)))
    (capacity : JsArg) : Verdict :=
  match candidateDetails with
  | None => {| violation := true; reason := "Invalid candidate data." |}
  | Some cand =>
    if negb (isNumber (groupOf cand))
    then {| violation := true; reason := "Invalid candidate data." |}
    else
    match currentOccupantsDetails with
    | None => {| violation := true; reason := "Invalid current occupants data." |}
    | Some occupants =>
      if negb (isNumberArg capacity) || lessThan capacity 1
      then {| violation := true; reason := "Invalid slot capacity." |}
      else
        let potentialOccupantsDetails := occupants ++ [Some cand] in
        let potentialOccupantCount := length potentialOccupantsDetails in
        if lessThan capacity (Z.of_nat potentialOccupantCount)
        then {| violation := true;
                reason := "Slot capacity (" +:+ argToString capacity
                          +:+ ") would be exceeded" |}
        else
          let '(potentialSoloCount, potentialPairedCount) :=
            fold_left countStep potentialOccupantsDetails (0%nat, 0%nat) in
          if Nat.ltb 0 potentialSoloCount && Nat.ltb 1 potentialOccupantCount
          then {| violation := true; reason := "Solo lessons cannot have other students" |}
          else if Nat.eqb potentialSoloCount 0 && Nat.ltb 0 potentialPairedCount
                  && Nat.ltb 2 potentialOccupantCount
          then {| violation := true; reason := "Paired lessons cannot exceed 2 students" |}
          else {| violation := false; reason := "" |}
    end
  end.

(** [student.Name || student.name || 'Unknown Student'] *)
Definition displayName (student : Roster.Student) : string :=
  match truthyStr (Roster.Name student) with
  | Some n => n
  | None => default "Unknown Student" (truthyStr (Roster.name student))
  end.

Definition getStudentDetails (studentId : Z) (allStudentsData : list Roster.Student)
    : option StudentDetails :=
  match List.find (fun s => Roster.id s =? studentId) allStudentsData with
  | None => None
  | Some student =>
      Some {| id := Roster.id student;
              name := displayName student;
              groupOf := if isNumber (Roster.groupOf student)
                         then Roster.groupOf student else VNum 1;
              subGroup := truthyStr (Roster.sub_group student);
              lessons_owed := match Roster.lessons_owed student with
                              | Val n => n
                              | _ => 0
                              end;
              availability_string := Roster.availability_string student;
              class_name := Roster.class_name student |}
  end.

(** [/^\d{2}:\d{2}$/] *)
Definition timeRegex (s : string) : bool :=
  match s with
  | String a (String b (String c (String d (String e EmptyString)))) =>
      isDigit a && isDigit b && Ascii.eqb c ":" && isDigit d && isDigit e
  | _ => false
  end.

Definition validDays : list string :=
  ["Monday"; "Tuesday"; "Wednesday"; "Thursday"; "Friday"; "Saturday"; "Sunday"].

(** The two statements that record a time for a day. *)
Definition pushTime (availability : gmap string (list string)) (day timePart : string)
    : gmap string (list string) :=
  let times := default [] (availability !! day) in
  if includes times timePart then <[day := times]> availability
  else <[day := times ++ [timePart]]> availability.

(** The body of [entries.forEach]; the state is the availability object
    and [currentDay]. *)
Definition entryStep (st : gmap string (list string) * option string) (entry : string)
    : gmap string (list string) * option string :=
  let '(availability, currentDay) := st in
  let entry := trim entry in
  if String.eqb entry "" then st
  else
    match List.find (fun day => startsWith entry (day +:+ ":")) validDays with
    | Some foundDay =>
        let timePart := take 5 (trim (drop (String.length foundDay + 1) entry)) in
        if timeRegex timePart
        then (pushTime availability foundDay timePart, Some foundDay)
        else (availability, Some foundDay)
    | None =>
        match currentDay with
        | Some day =>
            let timePart := take 5 entry in
            if timeRegex timePart
            then (pushTime availability day timePart, currentDay)
            else st
        | None => st
        end
    end.

(** The statements inside [try]: the last one throws when
    [availability[targetDay]] is an inherited member, which has no
    [includes]. *)
Definition availabilityLookup (availabilityString targetDay targetTimeHHMM : string)
    : completion bool :=
  let availability := fst (fold_left entryStep (split ";" availabilityString) (∅, None)) in
  match getProperty availability targetDay with
  | Own times => Normal (includes times targetTimeHHMM)
  | Missing => Normal false
  | Inherited => Throw "availability[targetDay].includes is not a function"
  end.

Definition isStudentAvailable (availabilityString : field string) (targetDay targetTime : string)
    : bool :=
  match truthyStr availabilityString with
  | None => false
  | Some availabilityString =>
      if String.eqb targetDay "" || String.eqb targetTime ""
         || Nat.ltb (String.length targetTime) 5
      then false
      else
        let targetTimeHHMM := take 5 targetTime in
        if negb (timeRegex targetTimeHHMM) then false
        else tryCatch (availabilityLookup availabilityString targetDay targetTimeHHMM) false
  end.

(** The [switch] on one block whose date matches: [true] is [return true],
    [false] is [break]. *)
Definition blockApplies (studentDetails : StudentDetails) (coachId : Z) (block : DailyBlock)
    : bool :=
  if String.eqb (block_type block) "Public Holiday" then true
  else if String.eqb (block_type block) "Year Level Absence" then
    match identifier block, truthyStr (class_name studentDetails) with
    | Some ident, Some cls => negb (String.eqb ident "") && startsWith cls ident
    | _, _ => false
    end
  else if String.eqb (block_type block) "Class Absence" then
    match identifier block, truthyStr (class_name studentDetails) with
    | Some ident, Some cls => negb (String.eqb ident "") && String.eqb cls ident
    | _, _ => false
    end
  else if String.eqb (block_type block) "Coach Unavailable" then
    match identifier block with
    | Some ident =>
        negb (String.eqb ident "")
        && match parseInt ident with Some n => n =? coachId | None => false end
    | None => false
    end
  else false.

Fixpoint blockLoop (studentDetails : StudentDetails) (blockDate : string) (coachId : Z)
    (blocks : list DailyBlock) : bool :=
  match blocks with
  | [] => false
  | block :: rest =>
      if negb (String.eqb (block_date block) blockDate)
      then blockLoop studentDetails blockDate coachId rest
      else if blockApplies studentDetails coachId block then true
      else blockLoop studentDetails blockDate coachId rest
  end.

Definition isStudentBlocked (studentDetails : option StudentDetails) (blockDate : field string)
    (coachId : Z) (blocks : option (list DailyBlock)) : bool :=
  match studentDetails, truthyStr blockDate, blocks with
  | Some details, Some date, Some blocks => blockLoop details date coachId blocks
  | _, _, _ => false
  end.

(** The callback of step 5, [(student["lessons owed"] ?? 0) > 0] *)
Definition owesLessons (student : Roster.Student) : bool :=
  match Roster.lessons_owed student with
  | Val n => 0 <? n
  | _ => false
  end.

(** [slot.original_student_ids?.includes(id)] *)
Definition isOriginal (slot : SlotInfo) (studentId : Z) : bool :=
  match original_student_ids slot with
  | Some ids => existsb (Z.eqb studentId) ids
  | None => false
  end.

(** [subGroup !== target] for a non-null [target] *)
Definition differsFrom (subGroup : option string) (target : string) : bool :=
  match subGroup with
  | Some g => negb (String.eqb g target)
  | None => true
  end.

(** The sub-group gate, [target !== null && subGroup !== target]. It guards
    the candidate filter with [targetSubGroup] and the body of the greedy
    loop with [currentCompulsorySubGroup]. *)
Definition subGroupMismatch (target subGroup : option string) : bool :=
  match target with
  | Some target => differsFrom subGroup target
  | None => false
  end.

(** The callback of [.filter] that builds [candidatesForSlot]. *)
Definition candidateFilter (slot : SlotInfo) (allBlocks : list DailyBlock)
    (targetSubGroup : option string) (candDetails : option StudentDetails) : bool :=
  match candDetails with
  | None => false
  | Some cand =>
      if isOriginal slot (id cand) then false
      else if negb (isStudentAvailable (availability_string cand)
                      (day_of_week slot) (start_time slot)) then false
      else if subGroupMismatch targetSubGroup (subGroup cand) then false
      else if isStudentBlocked (Some cand) (slot_date slot) (coach_id slot) (Some allBlocks)
      then false
      else true
  end.

(** [candidatesForSlot.sort((a, b) => b.lessons_owed - a.lessons_owed)]:
    [Array.prototype.sort] is stable, so a candidate moves in front of
    exactly those that owe strictly less. *)
Fixpoint insertByOwed (a : StudentDetails) (sorted : list StudentDetails)
    : list StudentDetails :=
  match sorted with
  | [] => [a]
  | b :: rest =>
      if lessons_owed a <? lessons_owed b then b :: insertByOwed a rest
      else a :: b :: rest
  end.

Definition sortByOwed (candidates : list StudentDetails) : list StudentDetails :=
  fold_right insertByOwed [] candidates.

Definition toMember (candidate : StudentDetails) : RecommendedGroupMember :=
  {| student_id := id candidate;
     member_name := name candidate;
     member_lessons_owed := lessons_owed candidate;
     member_groupOf := groupOf candidate;
     member_subGroup := subGroup candidate |}.

(** The greedy loop, with its three variables as accumulators. *)
Fixpoint greedy (neededCount capacity : Z) (candidatesForSlot : list StudentDetails)
    (recommended_group : list RecommendedGroupMember)
    (currentTestOccupants : list StudentDetails)
    (currentCompulsorySubGroup : option string) : list RecommendedGroupMember :=
  match candidatesForSlot with
  | [] => recommended_group
  | candidate :: rest =>
      if neededCount <=? Z.of_nat (length recommended_group) then recommended_group
      else if subGroupMismatch currentCompulsorySubGroup (subGroup candidate)
      then greedy neededCount capacity rest recommended_group currentTestOccupants
             currentCompulsorySubGroup
      else
        let violationCheck :=
          checkPairingRuleViolation (Some candidate) (Some (map Some currentTestOccupants))
            (VNum capacity) in
        if negb (violation violationCheck) then
          let recommended_group := recommended_group ++ [toMember candidate] in
          let currentTestOccupants := currentTestOccupants ++ [candidate] in
          let currentCompulsorySubGroup :=
            match currentCompulsorySubGroup, subGroup candidate with
            | None, Some g =>
                if Nat.eqb (length recommended_group) 1 then Some g else None
            | _, _ => currentCompulsorySubGroup
            end in
          greedy neededCount capacity rest recommended_group currentTestOccupants
            currentCompulsorySubGroup
        else greedy neededCount capacity rest recommended_group currentTestOccupants
               currentCompulsorySubGroup
  end.

(** [existingStudentsDetails] of a slot *)
Definition existingStudentsDetails (allStudentsData : list Roster.Student) (slot : SlotInfo)
    : list StudentDetails :=
  omap (fun studentId => getStudentDetails studentId allStudentsData)
    (default [] (original_student_ids slot)).

(** [targetSubGroup] of a slot: the first original occupant's sub-group *)
Definition targetSubGroup (existingStudentsDetails : list StudentDetails) : option string :=
  match existingStudentsDetails with
  | first :: _ =>
      match subGroup first with
      | Some g => if String.eqb g "" then None else Some g
      | None => None
      end
  | [] => None
  end.

Definition potentialCandidates (allStudentsData : list Roster.Student)
    : list Roster.Student :=
  List.filter owesLessons allStudentsData.

Definition candidatesForSlot (allStudentsData : list Roster.Student)
    (allBlocks : list DailyBlock) (slot : SlotInfo) : list StudentDetails :=
  omap (fun candDetails =>
          if candidateFilter slot allBlocks
               (targetSubGroup (existingStudentsDetails allStudentsData slot)) candDetails
          then candDetails else None)
    (map (fun cand => getStudentDetails (Roster.id cand) allStudentsData)
       (potentialCandidates allStudentsData)).

(** The sort and the greedy loop of one slot. *)
Definition recommend (neededCount capacity : Z) (existingStudentsDetails : list StudentDetails)
    (candidatesForSlot : list StudentDetails) : list RecommendedGroupMember :=
  greedy neededCount capacity (sortByOwed candidatesForSlot) []
    existingStudentsDetails (targetSubGroup existingStudentsDetails).

(** The body of the loop over the slots; [None] is [continue]. *)
Definition processSlot (allStudentsData : list Roster.Student) (allBlocks : list DailyBlock)
    (slot : SlotInfo) : option ResultSlot :=
  let neededCount := capacity slot - current_occupants slot in
  if neededCount <=? 0 then None
  else
    Some {| slot_info := slot;
            result_start_time := take 5 (start_time slot);
            recommended_group :=
              recommend neededCount (capacity slot) (existingStudentsDetails allStudentsData slot)
                (candidatesForSlot allStudentsData allBlocks slot) |}.

(** [results] of the request handler *)
Definition results (allStudentsData : list Roster.Student) (allBlocks : list DailyBlock)
    (slotsNeedingFillins : list SlotInfo) : list ResultSlot :=
  omap (processSlot allStudentsData allBlocks) slotsNeedingFillins.

End Server.

(** ** The browser modules *)

Module Client.

(** A student object of [appState.studentsData], or one of the default
    objects [getStudentDetails] builds. *)
Record Student : Type := {
  id : JsVal;
  Name : field string;
  name : field string;
  groupOf : JsVal;
  sub_group : field string;
  class_name : field string;
  availability_string : field string;
  availability : field string;
  is_active : field bool;
  lessons_owed : field Z
}.

(** [{ name: 'Unknown Student', id: studentId }] *)
Definition unknownStudent (studentId : JsVal) : Student :=
  {| id := studentId; Name := Undefined; name := Val "Unknown Student";
     groupOf := VUndef; sub_group := Undefined; class_name := Undefined;
     availability_string := Undefined; availability := Undefined;
     is_active := Undefined; lessons_owed := Undefined |}.

(** The default object with [groupOf: 1] and the [null] fields. *)
Definition unknownStudentWithDefaults (studentId : JsVal) : Student :=
  {| id := studentId; Name := Undefined; name := Val "Unknown Student";
     groupOf := VNum 1; sub_group := Null; class_name := Null;
     availability_string := Null; availability := Undefined;
     is_active := Undefined; lessons_owed := Undefined |}.

(** The assignments [getStudentDetails] makes to the object it found. *)
Definition fillName (s : Student) : Student :=
  match Name s with
  | Undefined =>
      {| id := id s;
         Name := match name s with Undefined => Null | n => n end;
         name := name s; groupOf := groupOf s; sub_group := sub_group s;
         class_name := class_name s; availability_string := availability_string s;
         availability := availability s; is_active := is_active s;
         lessons_owed := lessons_owed s |}
  | _ => s
  end.

Definition fillGroupOf (s : Student) : Student :=
  if isNumber (groupOf s) then s
  else {| id := id s; Name := Name s; name := name s; groupOf := VNum 1;
          sub_group := sub_group s; class_name := class_name s;
          availability_string := availability_string s;
          availability := availability s; is_active := is_active s;
          lessons_owed := lessons_owed s |}.

Definition fillSubGroup (s : Student) : Student :=
  match sub_group s with
  | Undefined =>
      {| id := id s; Name := Name s; name := name s; groupOf := groupOf s;
         sub_group := Null; class_name := class_name s;
         availability_string := availability_string s;
         availability := availability s; is_active := is_active s;
         lessons_owed := lessons_owed s |}
  | _ => s
  end.

Definition fillClassName (s : Student) : Student :=
  match class_name s with
  | Undefined =>
      {| id := id s; Name := Name s; name := name s; groupOf := groupOf s;
         sub_group := sub_group s; class_name := Null;
         availability_string := availability_string s;
         availability := availability s; is_active := is_active s;
         lessons_owed := lessons_owed s |}
  | _ => s
  end.

Definition fillAvailability (s : Student) : Student :=
  match availability_string s with
  | Undefined =>
      {| id := id s; Name := Name s; name := name s; groupOf := groupOf s;
         sub_group := sub_group s; class_name := class_name s;
         availability_string :=
           match truthyStr (availability s) with Some a => Val a | None => Null end;
         availability := availability s; is_active := is_active s;
         lessons_owed := lessons_owed s |}
  | _ => s
  end.

Definition normalize (foundStudent : Student) : Student :=
  fillAvailability (fillClassName (fillSubGroup (fillGroupOf (fillName foundStudent)))).

(** [s.id === idToFind] *)
Definition hasId (idToFind : Z) (s : Student) : bool :=
  match id s with
  | VNum n => n =? idToFind
  | _ => false
  end.

Fixpoint findIndex {A : Type} (p : A -> bool) (l : list A) : option nat :=
  match l with
  | [] => None
  | x :: rest => if p x then Some 0%nat else S <$> findIndex p rest
  end.

(** [getStudentDetails(studentId, studentsData)]: the result and the
    roster after the call. A found student is the roster's own object,
    which the call rewrites in place. *)
Definition getStudentDetails (studentId : JsVal) (studentsData : option (list Student))
    : option Student * option (list Student) :=
  match studentsData with
  | None => (Some (unknownStudent studentId), studentsData)
  | Some [] => (Some (unknownStudent studentId), studentsData)
  | Some roster =>
      match studentId with
      | VNull | VUndef => (None, studentsData)
      | _ =>
          match parseIntVal studentId with
          | None => (Some (unknownStudent studentId), studentsData)
          | Some idToFind =>
              match findIndex (hasId idToFind) roster with
              | None => (Some (unknownStudentWithDefaults studentId), studentsData)
              | Some i =>
                  let roster' := alter normalize i roster in
                  match roster' !! i with
                  | Some foundStudent =>
                      match Name foundStudent with
                      | Null => (Some (unknownStudentWithDefaults studentId), Some roster')
                      | _ => (Some foundStudent, Some roster')
                      end
                  | None => (Some (unknownStudentWithDefaults studentId), Some roster')
                  end
              end
          end
      end
  end.

(** *** [parseTime] and [formatTime]

    A [Date] on the epoch day is its number of minutes since
    00:00 UTC on that day. *)

Inductive Period : Type := AM | PM.

(** [\d{2}] at the head of the string *)
Definition twoDigits (s : string) : option (Z * string) :=
  match s with
  | String a (String b r) =>
      if isDigit a && isDigit b then Some (digitValue a * 10 + digitValue b, r) else None
  | _ => None
  end.

(** [(\d{1,2}):] at the head of the string *)
Definition hoursColon (s : string) : option (Z * string) :=
  match s with
  | String a (String b r) =>
      if isDigit a && isDigit b then
        match r with
        | String c r' =>
            if Ascii.eqb c ":" then Some (digitValue a * 10 + digitValue b, r') else None
        | EmptyString => None
        end
      else if isDigit a && Ascii.eqb b ":" then Some (digitValue a, r)
      else None
  | _ => None
  end.

(** [\s*(am|pm)?$] *)
Definition periodSuffix (s : string) : option (option Period) :=
  let r := trimStart s in
  if String.eqb r "" then Some None
  else if String.eqb r "am" then Some (Some AM)
  else if String.eqb r "pm" then Some (Some PM)
  else None.

Definition applyPeriod (period : option Period) (hours : Z) : Z :=
  match period with
  | Some PM => if (1 <=? hours) && (hours <=? 11) then hours + 12 else hours
  | Some AM => if hours =? 12 then 0 else hours
  | None => hours
  end.

(** [/^(\d{1,2}):(\d{2}):(\d{2})\s*(am|pm)?$/] *)
Definition secondsMatch (s : string) : option (Z * Z * option Period) :=
  match hoursColon s with
  | Some (hours, r1) =>
      match twoDigits r1 with
      | Some (minutes, String c r2) =>
          if Ascii.eqb c ":" then
            match twoDigits r2 with
            | Some (_, r3) =>
                match periodSuffix r3 with
                | Some period => Some (hours, minutes, period)
                | None => None
                end
            | None => None
            end
          else None
      | _ => None
      end
  | None => None
  end.

(** [/^(\d{1,2}):(\d{2})\s*(am|pm)?$/] *)
Definition colonMatch (s : string) : option (Z * Z * option Period) :=
  match hoursColon s with
  | Some (hours, r1) =>
      match twoDigits r1 with
      | Some (minutes, r2) =>
          match periodSuffix r2 with
          | Some period => Some (hours, minutes, period)
          | None => None
          end
      | None => None
      end
  | None => None
  end.

(** [/^(\d{2})(\d{2})$/] *)
Definition noColonMatch (s : string) : option (Z * Z) :=
  match twoDigits s with
  | Some (hours, r1) =>
      match twoDigits r1 with
      | Some (minutes, EmptyString) => Some (hours, minutes)
      | _ => None
      end
  | None => None
  end.

Definition validTime (hours minutes : Z) : option nat :=
  if (hours <? 0) || (23 <? hours) || (minutes <? 0) || (59 <? minutes) then None
  else Some (Z.to_nat (hours * 60 + minutes)).

Definition parseTime (timeString : string) : option nat :=
  if String.eqb timeString "" then None
  else
    let timeString := toLowerCase (trim timeString) in
    match secondsMatch timeString with
    | Some (hours, minutes, period) => validTime (applyPeriod period hours) minutes
    | None =>
        match colonMatch timeString with
        | Some (hours, minutes, period) => validTime (applyPeriod period hours) minutes
        | None =>
            match noColonMatch timeString with
            | Some (hours, minutes) => validTime hours minutes
            | None => None
            end
        end
    end.

(** [n.toString().padStart(2, '0')] *)
Definition padStart2 (n : nat) : string :=
  let digits := pretty n in
  if Nat.ltb (String.length digits) 2 then "0" +:+ digits else digits.

Definition formatTime (date : option nat) : option string :=
  match date with
  | None => None
  | Some minutes =>
      Some (padStart2 ((minutes / 60) mod 24) +:+ ":" +:+ padStart2 (minutes mod 60))
  end.

(** *** [parseAvailability] *)

Definition validDays : list string :=
  ["monday"; "tuesday"; "wednesday"; "thursday"; "friday"; "saturday"; "sunday"].

(** The lookahead [(?=\s*[A-Za-z])] *)
Definition startsEntry (rest : string) : bool :=
  match trimStart rest with
  | String c _ => isLetter c
  | EmptyString => false
  end.

(** [availabilityString.split(/\n|;(?=\s*[A-Za-z])/)] *)
Fixpoint splitEntries (s : string) : list string :=
  match s with
  | EmptyString => [EmptyString]
  | String c r =>
      if Ascii.eqb c "010" || (Ascii.eqb c ";" && startsEntry r)
      then EmptyString :: splitEntries r
      else consHead c (splitEntries r)
  end.

Fixpoint takeLine (s : string) : string :=
  match s with
  | EmptyString => EmptyString
  | String c r => if isLineTerminator c then EmptyString else String c (takeLine r)
  end.

(** The first two pieces of [entry.split(/:(.+)/)]: the text before the
    first colon that a character other than a line terminator follows,
    and the rest of that line. [None] when there is no such colon. *)
Fixpoint splitFirstColon (s : string) : option (string * string) :=
  match s with
  | EmptyString => None
  | String c r =>
      if Ascii.eqb c ":" && negb (String.eqb (takeLine r) "")
      then Some (EmptyString, takeLine r)
      else
        match splitFirstColon r with
        | Some (before, after) => Some (String c before, after)
        | None => None
        end
  end.

Definition nonEmpty (s : string) : bool := negb (String.eqb s "").

(** [while (currentTime <= endTime) { add; currentTime += 30 min }] *)
Fixpoint rangeLoop (fuel : nat) (currentTime endTime : nat) (times : gset string)
    : gset string :=
  match fuel with
  | O => times
  | S fuel =>
      if Nat.leb currentTime endTime then
        let times :=
          match formatTime (Some currentTime) with
          | Some formatted => {[ formatted ]} ∪ times
          | None => times
          end in
        rangeLoop fuel (currentTime + 30)%nat endTime times
      else times
  end.

(** The body of [times.forEach]. *)
Definition addTime (times : gset string) (time : string) : gset string :=
  if includesChar "-" time then
    match split "-" time with
    | startStr :: endStr :: _ =>
        match parseTime startStr, parseTime endStr with
        | Some startTime, Some endTime =>
            if Nat.ltb startTime endTime
            then rangeLoop (S endTime) startTime endTime times
            else times
        | _, _ => times
        end
    | _ => times
    end
  else
    match formatTime (parseTime time) with
    | Some formatted => {[ formatted ]} ∪ times
    | None => times
    end.

(** The body of [entries.forEach]. *)
Definition entryStep (availability : gmap string (gset string)) (entry : string)
    : gmap string (gset string) :=
  match splitFirstColon entry with
  | None => availability
  | Some (dayPart, rest) =>
      let day := toLowerCase (trim dayPart) in
      if negb (includes validDays day) then availability
      else
        let timePart := trim rest in
        if String.eqb timePart "" then availability
        else
          let times := List.filter nonEmpty (map trim (split ";" timePart)) in
          <[day := fold_left addTime times (default ∅ (availability !! day))]> availability
  end.

Definition parseAvailability (availabilityString : field string) : gmap string (gset string) :=
  match truthyStr availabilityString with
  | None => ∅
  | Some availabilityString =>
      fold_left entryStep
        (List.filter nonEmpty (map trim (splitEntries availabilityString))) ∅
  end.

(** *** [isStudentAvailable] *)

(** The property key a student id is converted to. *)
Definition toKey (v : JsVal) : string :=
  match v with
  | VUndef => "undefined"
  | VNull => "null"
  | VBool true => "true"
  | VBool false => "false"
  | VNum n => pretty n
  | VStr s => s
  end.

(** [availableTimesForDay?.has(targetTimeFormatted) || false]: an inherited
    member is neither [undefined] nor a [Set], so the call throws. *)
Definition hasTime (parsedAvailability : gmap string (gset string))
    (targetDayLower targetTimeFormatted : string) : completion bool :=
  match getProperty parsedAvailability targetDayLower with
  | Own availableTimesForDay => Normal (bool_decide (targetTimeFormatted ∈ availableTimesForDay))
  | Missing => Normal false
  | Inherited => Throw "availableTimesForDay.has is not a function"
  end.

(** The result and the cache after the call. The cache is keyed by student
    id; ids that name a member of [Object.prototype] are outside the
    model, so the cache is read as a plain map. *)
Definition isStudentAvailable (studentDetails : option Student)
    (targetDay targetTime : field string)
    (parsedAvailabilityCache : gmap string (gmap string (gset string)))
    : completion bool * gmap string (gmap string (gset string)) :=
  match studentDetails, truthyStr targetDay, truthyStr targetTime with
  | Some studentDetails, Some targetDay, Some targetTime =>
      let studentId := toKey (id studentDetails) in
      let availabilityString :=
        orField (availability_string studentDetails) (availability studentDetails) in
      let '(parsedAvailability, cache) :=
        match parsedAvailabilityCache !! studentId with
        | Some parsed => (parsed, parsedAvailabilityCache)
        | None =>
            let parsed := parseAvailability availabilityString in
            (parsed, <[studentId := parsed]> parsedAvailabilityCache)
        end in
      let targetDayLower := toLowerCase targetDay in
      match formatTime (parseTime targetTime) with
      | None => (Normal false, cache)
      | Some targetTimeFormatted =>
          (hasTime parsedAvailability targetDayLower targetTimeFormatted, cache)
      end
  | _, _, _ => (Normal false, parsedAvailabilityCache)
  end.

(** *** [checkPairingRuleViolation] *)

Record Verdict : Type := {
  violation : bool;
  reason : option string
}.

(** An argument that should be an array: left out (the default [[]]
    applies), not an array, or an array. *)
Inductive arrayArg (A : Type) : Type :=
  | Omitted
  | NotArray
  | Array (items : list A).
Arguments Omitted {A}.
Arguments NotArray {A}.
Arguments Array {A} items.

(** [occ?.groupOf], kept when it is a number *)
Definition numericGroupOf (occ : option Student) : option Z :=
  match occ with
  | Some o => match groupOf o with VNum n => Some n | _ => None end
  | None => None
  end.

(** [occ?.sub_group || null], kept when it is not [null] *)
Definition occupantSubGroup (occ : option Student) : option string :=
  match occ with
  | Some o => truthyStr (sub_group o)
  | None => None
  end.

(** Step 2 of the checker, "Check Group Type Compatibility": the reason
    of the violation, if any. *)
Definition groupTypeViolation (newStudentGroup : Z) (occupants : list (option Student))
    : option string :=
  let currentOccupants := length occupants in
  let newTotalOccupants := S currentOccupants in
  let existingGroupTypes : gset Z := list_to_set (omap numericGroupOf occupants) in
  if newStudentGroup =? 1 then
    if Nat.ltb 0 currentOccupants
    then Some "Cannot add a Solo student to an occupied slot."
    else None
  else if newStudentGroup =? 2 then
    if bool_decide (1 ∈ existingGroupTypes)
    then Some "Cannot add Paired student to a Solo slot."
    else if Nat.ltb 0 (size existingGroupTypes)
            && negb (bool_decide (2 ∈ existingGroupTypes))
    then Some "Cannot mix Paired students with Group students."
    else if Nat.ltb 2 newTotalOccupants && Nat.ltb 0 currentOccupants
    then Some "Cannot exceed 2 students in a Paired slot."
    else None
  else
    if bool_decide (1 ∈ existingGroupTypes)
    then Some "Cannot add Group student to a Solo slot."
    else if bool_decide (2 ∈ existingGroupTypes)
    then Some "Cannot add Group student to a Paired slot."
    else None.

(** Step 3 of the checker, "Check Sub-Group Compatibility". The
    established sub-group is the first non-null one among the occupants. *)
Definition subGroupViolation (newStudent : Student) (occupants : list (option Student))
    : option string :=
  let newSubGroup := truthyStr (sub_group newStudent) in
  match omap occupantSubGroup occupants, newSubGroup with
  | establishedSubGroup :: _, Some newSubGroup =>
      if negb (String.eqb newSubGroup establishedSubGroup)
      then Some ("Cannot mix sub-groups ('" +:+ newSubGroup +:+ "' vs existing '"
                 +:+ establishedSubGroup +:+ "').")
      else None
  | _, _ => None
  end.

Definition checkPairingRuleViolation (newStudentDetails : option Student)
    (currentOccupantDetails : arrayArg (option Student)) (slotCapacity : JsArg) : Verdict :=
  match newStudentDetails with
  | None => {| violation := true; reason := Some "Invalid new student data." |}
  | Some newStudent =>
    match groupOf newStudent with
    | VNum newStudentGroup =>
      match (match currentOccupantDetails with
             | Omitted => Some []
             | NotArray => None
             | Array items => Some items
             end) with
      | None => {| violation := true; reason := Some "Invalid current occupants data." |}
      | Some occupants =>
        if negb (isNumberArg slotCapacity) || lessThan slotCapacity 1
        then {| violation := true; reason := Some "Invalid slot capacity." |}
        else if lessThan slotCapacity (Z.of_nat (S (length occupants)))
        then {| violation := true;
                reason := Some ("Adding student exceeds slot capacity ("
                                +:+ argToString slotCapacity +:+ ").") |}
        else
          match groupTypeViolation newStudentGroup occupants with
          | Some why => {| violation := true; reason := Some why |}
          | None =>
              match subGroupViolation newStudent occupants with
              | Some why => {| violation := true; reason := Some why |}
              | None => {| violation := false; reason := None |}
              end
          end
      end
    | _ => {| violation := true; reason := Some "Invalid new student data." |}
    end
  end.

(** *** [isStudentBlocked] of the log viewer *)

Definition blockApplies (studentDetails : Student) (coachId : Z) (block : DailyBlock) : bool :=
  if String.eqb (block_type block) "Public Holiday" then true
  else if String.eqb (block_type block) "Year Level Absence" then
    match identifier block, truthyStr (class_name studentDetails) with
    | Some ident, Some cls => negb (String.eqb ident "") && startsWith cls ident
    | _, _ => false
    end
  else if String.eqb (block_type block) "Class Absence" then
    match identifier block, truthyStr (class_name studentDetails) with
    | Some ident, Some cls => negb (String.eqb ident "") && String.eqb cls ident
    | _, _ => false
    end
  else if String.eqb (block_type block) "Coach Unavailable" then
    match identifier block with
    | Some ident =>
        negb (String.eqb ident "")
        && match parseInt ident with Some n => n =? coachId | None => false end
    | None => false
    end
  else false.

Fixpoint blockLoop (studentDetails : Student) (blockDate : string) (coachId : Z)
    (blocks : list DailyBlock) : bool :=
  match blocks with
  | [] => false
  | block :: rest =>
      if negb (String.eqb (block_date block) blockDate)
      then blockLoop studentDetails blockDate coachId rest
      else if blockApplies studentDetails coachId block then true
      else blockLoop studentDetails blockDate coachId rest
  end.

Definition isStudentBlocked (studentDetails : option Student) (blockDate : field string)
    (coachId : Z) (blocks : option (list DailyBlock)) : bool :=
  match studentDetails, truthyStr blockDate, blocks with
  | Some details, Some date, Some blocks => blockLoop details date coachId blocks
  | _, _, _ => false
  end.

(** *** The effective capacity of a rendered slot ([createSlotElement]) *)

(** [parseInt(v, 10)] *)
Definition parseInt10 (v : JsVal) : option Z :=
  match v with
  | VNum n => Some n
  | VStr s =>
      let unsigned (t : string) :=
        match readDigits isDigit t with
        | [] => None
        | ds => Some (roundToDouble (digitsValue 10 digitValue ds))
        end in
      match trimStart s with
      | String "-" r => Z.opp <$> unsigned r
      | String "+" r => unsigned r
      | t => unsigned t
      end
  | _ => None
  end.

(** [ids.map(id => getStudentDetails(id, studentsData))], the roster being
    rewritten by each lookup in turn. *)
Fixpoint lookupAll (studentIds : list JsVal) (studentsData : option (list Student))
    : list (option Student) * option (list Student) :=
  match studentIds with
  | [] => ([], studentsData)
  | studentId :: rest =>
      let '(details, studentsData) := getStudentDetails studentId studentsData in
      let '(others, studentsData) := lookupAll rest studentsData in
      (details :: others, studentsData)
  end.

(** [d && d.groupOf === n] *)
Definition hasGroupOf (n : Z) (d : option Student) : bool :=
  match d with
  | Some d => match groupOf d with VNum g => g =? n | _ => false end
  | None => false
  end.

Definition effectiveCapacity (slotCapacity : JsVal) (originalStudentIds : list JsVal)
    (studentsData : option (list Student)) (currentOccupants : nat)
    : Z * option (list Student) :=
  let validDbCapacity :=
    match parseInt10 slotCapacity with
    | Some dbCapacity => if 0 <? dbCapacity then dbCapacity else 3
    | None => 3
    end in
  let '(capacity, studentsData) :=
    match originalStudentIds, studentsData with
    | _ :: _, Some _ =>
        let '(originalStudentDetails, studentsData) :=
          lookupAll originalStudentIds studentsData in
        let hasSolo := existsb (hasGroupOf 1) originalStudentDetails in
        let hasPaired := existsb (hasGroupOf 2) originalStudentDetails in
        (if hasSolo then 1 else if hasPaired then 2 else validDbCapacity, studentsData)
    | _, _ => (validDbCapacity, studentsData)
    end in
  (Z.max capacity (Z.of_nat currentOccupants), studentsData).

(** *** [findSingleSlotSuggestions] of the API layer *)

Record RpcRequest : Type := {
  rpc_name : string;
  p_schedule_id : Z;
  p_current_student_ids : list Z;
  p_target_day : string;
  p_is_test_mode : bool;
  p_target_date : string
}.

(** What [supabaseClient.rpc] resolves to: [data] and [error]. *)
Record RpcResponse (Data : Type) : Type := {
  data : option Data;
  error : option string
}.
Arguments data {Data} _.
Arguments error {Data} _.

(** The result ([None] is [null]) and the requests sent to the backend. *)
Definition findSingleSlotSuggestions {Data : Type}
    (supabaseClient : option (RpcRequest -> RpcResponse Data)) (isTestMode : bool)
    (scheduleId : Z) (currentStudentIds : option (list Z)) (targetDay : string)
    (targetDate : field string) : option Data * list RpcRequest :=
  let targetRpc :=
    if isTestMode then "get_single_slot_suggestions_test"
    else "get_single_slot_suggestions" in
  match supabaseClient with
  | None => (None, [])
  | Some rpc =>
      match truthyStr targetDate with
      | None => (None, [])
      | Some targetDate =>
          let request :=
            {| rpc_name := targetRpc;
               p_schedule_id := scheduleId;
               p_current_student_ids := default [] currentStudentIds;
               p_target_day := targetDay;
               p_is_test_mode := isTestMode;
               p_target_date := targetDate |} in
          match error (rpc request) with
          | Some _ => (None, [request])
          | None => (data (rpc request), [request])
          end
      end
  end.

(** *** The students a rendered slot shows ([createSlotElement]) *)

(** [a === b]; on the values of the model, [SameValueZero] of [Set] and
    [includes] is the same relation. *)
Definition strictEquals (a b : JsVal) : bool :=
  match a, b with
  | VUndef, VUndef => true
  | VNull, VNull => true
  | VBool x, VBool y => Bool.eqb x y
  | VNum x, VNum y => x =? y
  | VStr x, VStr y => String.eqb x y
  | _, _ => false
  end.

(** [ids.includes(id)], and [set.has(id)] for the set of the ids. *)
Definition includesId (ids : list JsVal) (id : JsVal) : bool :=
  existsb (strictEquals id) ids.

(** A row of [todaysStatuses]. *)
Record DailyStatus : Type := {
  lesson_schedule_id : JsVal;
  student_id : JsVal;
  status : string
}.

(** [[...new Set(ids)]]: the first occurrence of each id, in order. *)
Definition uniqueIds (ids : list JsVal) : list JsVal :=
  fold_left (fun seen id => if includesId seen id then seen else seen ++ [id]) ids [].

Definition currentStudentIds (isEditMode : bool) (scheduleId : JsVal)
    (originalStudentIds : list JsVal) (todaysStatuses : list DailyStatus) : list JsVal :=
  if isEditMode then originalStudentIds
  else
    let slotStatuses :=
      List.filter (fun s => strictEquals (lesson_schedule_id s) scheduleId) todaysStatuses in
    let absentStudentIds :=
      map student_id
        (List.filter (fun s => String.eqb (status s) "marked_absent") slotStatuses) in
    let fillInStudentIds :=
      map student_id
        (List.filter (fun s => String.eqb (status s) "assigned_fill_in") slotStatuses) in
    let presentOriginalIds :=
      List.filter (fun id => negb (includesId absentStudentIds id)) originalStudentIds in
    uniqueIds (presentOriginalIds ++ fillInStudentIds).

(** What [createSlotElement] works out before it builds the element:
    [currentStudentIds], [effectiveCapacity], [hasCapacityToAdd], and the
    roster after the lookups. *)
Definition slotOccupancy (isEditMode : bool) (scheduleId slotCapacity : JsVal)
    (original_student_ids : option (list JsVal)) (todaysStatuses : list DailyStatus)
    (studentsData : option (list Student))
    : list JsVal * Z * bool * option (list Student) :=
  let originalStudentIds := default [] original_student_ids in
  let currentStudentIds :=
    currentStudentIds isEditMode scheduleId originalStudentIds todaysStatuses in
  let '(effectiveCapacity, studentsData) :=
    effectiveCapacity slotCapacity originalStudentIds studentsData
      (length currentStudentIds) in
  (currentStudentIds, effectiveCapacity,
   Z.of_nat (length currentStudentIds) <? effectiveCapacity, studentsData).

(** *** [createDailyBlock] of the API layer *)

Record BlockRequest : Type := {
  block_rpc_name : string;
  p_block_date : string;
  p_block_type : string;
  p_identifier : option string;
  p_reason : option string
}.

Record BlockOutcome : Type := {
  success : bool;
  message : option string
}.

Definition identifierRequired : list string :=
  ["Year Level Absence"; "Class Absence"; "Coach Unavailable"].

(** The outcome and the requests sent to the backend. [supabaseClient]
    answers a request with the error it returns or throws, if any, whose
    [message] is a field. *)
Definition createDailyBlock (supabaseClient : option (BlockRequest -> option (field string)))
    (isTestMode : bool) (blockDate blockType identifier reason : field string)
    : BlockOutcome * list BlockRequest :=
  let targetRpc :=
    if isTestMode then "create_daily_block_test" else "create_daily_block" in
  match supabaseClient with
  | None => ({| success := false; message := Some "Client not available." |}, [])
  | Some rpc =>
      match truthyStr blockDate, truthyStr blockType with
      | Some blockDate, Some blockType =>
          if includes identifierRequired blockType
             && match truthyStr identifier with
                | Some ident => String.eqb (trim ident) ""
                | None => true
                end
          then ({| success := false;
                   message := Some ("Identifier is required for block type: "
                                    +:+ blockType +:+ ".") |}, [])
          else if String.eqb blockType "Coach Unavailable"
                  && match identifier with
                     | Val ident => match parseInt ident with Some _ => false | None => true end
                     | _ => true
                     end
          then ({| success := false;
                   message := Some ("Identifier must be a numeric Coach ID for block type: "
                                    +:+ blockType +:+ ".") |}, [])
          else
            let request :=
              {| block_rpc_name := targetRpc;
                 p_block_date := blockDate;
                 p_block_type := blockType;
                 p_identifier := truthyStr identifier;
                 p_reason := truthyStr reason |} in
            match rpc request with
            | Some error =>
                ({| success := false;
                    message := Some (default "An unknown error occurred."
                                       (truthyStr error)) |}, [request])
            | None => ({| success := true; message := None |}, [request])
            end
      | _, _ =>
          ({| success := false; message := Some "Block date and type are required." |}, [])
      end
  end.

(** *** [calculateCurrentTermAndWeek]

    A [Date] is its time value, the milliseconds since the epoch. What
    [new Date(text)] makes of a text is left to the runtime: [parseDate]
    gives the time value, [None] for an invalid date. Years 0 to 99, which
    [Date.UTC] maps to the twentieth century, are outside the model. *)

Record TermDates : Type := {
  term_number : Z;
  start_date : field string;
  end_date : field string
}.

Record TermAndWeek : Type := {
  term : option Z;
  week : option Z;
  term_error : option string
}.

Definition msPerDay : Z := 1000 * 60 * 60 * 24.

(** [Date.UTC(d.getUTCFullYear(), d.getUTCMonth(), d.getUTCDate())] *)
Definition utcStartOfDay (time : Z) : Z := time / msPerDay * msPerDay.

(** [Date.UTC(..., 23, 59, 59, 999)] on the day of [time] *)
Definition utcEndOfDay (time : Z) : Z := utcStartOfDay time + (msPerDay - 1).

(** A field in a string concatenation. *)
Definition fieldToString (f : field string) : string :=
  match f with
  | Undefined => "undefined"
  | Null => "null"
  | Val s => s
  end.

Section TermAndWeek.

Variable parseDate : string -> option Z.

(** The start and the end of a term, when both dates are valid. *)
Definition termBounds (t : TermDates) : option (Z * Z) :=
  match parseDate (fieldToString (start_date t) +:+ "T00:00:00Z"),
        parseDate (fieldToString (end_date t) +:+ "T00:00:00Z") with
  | Some startDate, Some endDate => Some (startDate, utcEndOfDay endDate)
  | _, _ => None
  end.

Fixpoint termLoop (todayDateOnly : Z) (terms : list TermDates) : TermAndWeek :=
  match terms with
  | [] => {| term := None; week := None; term_error := None |}
  | t :: rest =>
      match termBounds t with
      | None => termLoop todayDateOnly rest
      | Some (termStart, termEnd) =>
          if (termStart <=? todayDateOnly) && (todayDateOnly <=? termEnd) then
            let diffTime := todayDateOnly - termStart in
            let diffDays := diffTime / msPerDay in
            let weekNumber := diffDays / 7 + 1 in
            {| term := Some (term_number t); week := Some weekNumber; term_error := None |}
          else termLoop todayDateOnly rest
      end
  end.

Definition calculateCurrentTermAndWeek (today : Z) (termDatesData : option (list TermDates))
    : TermAndWeek :=
  match termDatesData with
  | None | Some [] =>
      {| term := None; week := None;
         term_error := Some "Term dates data is missing or empty." |}
  | Some terms => termLoop (utcStartOfDay today) terms
  end.

End TermAndWeek.

(** *** The candidate filter of the log viewer
    ([findAndDisplayAbsenceReplacements]) *)

(** A candidate as the backend suggests it. *)
Record BackendCandidate : Type := {
  candidate_id : JsVal;
  candidate_lessons_owed : field Z
}.

(** A candidate as the suggestion box lists it. *)
Record AvailableCandidate : Type := {
  available_id : JsVal;
  available_Name : field string;
  available_lessons_owed : field Z;
  available_groupOf : JsVal;
  available_subGroup : field string;
  available_class_name : field string
}.

(** [studentDetails.is_active === false] *)
Definition isInactive (studentDetails : Student) : bool :=
  match is_active studentDetails with
  | Val false => true
  | _ => false
  end.

(** The body of the loop over the backend's candidates; [Normal None] is
    [continue]. The roster and the availability cache are the state. *)
Definition candidateStep (slotDay targetTime : field string) (capacity : JsVal)
    (currentOccupantDetails : list (option Student)) (targetDate : field string)
    (coachId : Z) (safeBlocksForDate : list DailyBlock) (candidate : BackendCandidate)
    (studentsData : option (list Student))
    (availabilityCache : gmap string (gmap string (gset string)))
    : completion (option AvailableCandidate)
      * option (list Student) * gmap string (gmap string (gset string)) :=
  let '(studentDetails, studentsData) :=
    getStudentDetails (candidate_id candidate) studentsData in
  match studentDetails with
  | None => (Normal None, studentsData, availabilityCache)
  | Some studentDetails =>
      match truthyStr (Name studentDetails) with
      | None => (Normal None, studentsData, availabilityCache)
      | Some _ =>
          if isInactive studentDetails then (Normal None, studentsData, availabilityCache)
          else
            let '(available, availabilityCache) :=
              isStudentAvailable (Some studentDetails) slotDay targetTime availabilityCache in
            match available with
            | Throw msg => (Throw msg, studentsData, availabilityCache)
            | Normal false => (Normal None, studentsData, availabilityCache)
            | Normal true =>
                let pairingCheck :=
                  checkPairingRuleViolation (Some studentDetails)
                    (Array currentOccupantDetails) capacity in
                if violation pairingCheck
                then (Normal None, studentsData, availabilityCache)
                else if isStudentBlocked (Some studentDetails) targetDate coachId
                          (Some safeBlocksForDate)
                then (Normal None, studentsData, availabilityCache)
                else
                  (Normal
                     (Some {| available_id := candidate_id candidate;
                              available_Name := Name studentDetails;
                              available_lessons_owed := candidate_lessons_owed candidate;
                              available_groupOf := groupOf studentDetails;
                              available_subGroup := sub_group studentDetails;
                              available_class_name := class_name studentDetails |}),
                   studentsData, availabilityCache)
            end
      end
  end.

(** The loop, with [availableCandidates] as accumulator; an exception
    leaves it. *)
Fixpoint candidateLoop (slotDay targetTime : field string) (capacity : JsVal)
    (currentOccupantDetails : list (option Student)) (targetDate : field string)
    (coachId : Z) (safeBlocksForDate : list DailyBlock)
    (backendCandidates : list BackendCandidate)
    (studentsData : option (list Student))
    (availabilityCache : gmap string (gmap string (gset string)))
    (availableCandidates : list AvailableCandidate)
    : completion (list AvailableCandidate) * option (list Student) :=
  match backendCandidates with
  | [] => (Normal availableCandidates, studentsData)
  | candidate :: rest =>
      let '(outcome, studentsData, availabilityCache) :=
        candidateStep slotDay targetTime capacity currentOccupantDetails targetDate coachId
          safeBlocksForDate candidate studentsData availabilityCache in
      match outcome with
      | Throw msg => (Throw msg, studentsData)
      | Normal None =>
          candidateLoop slotDay targetTime capacity currentOccupantDetails targetDate
            coachId safeBlocksForDate rest studentsData availabilityCache
            availableCandidates
      | Normal (Some available) =>
          candidateLoop slotDay targetTime capacity currentOccupantDetails targetDate
            coachId safeBlocksForDate rest studentsData availabilityCache
            (availableCandidates ++ [available])
      end
  end.

(** What the suggestion box shows in the end: candidates or an error. *)
Inductive Display : Type :=
  | Suggestions (availableCandidates : list AvailableCandidate)
  | Failure (message : string).

(** [x => Boolean(x)] on the result of a lookup *)
Definition isObject (details : option Student) : bool :=
  match details with Some _ => true | None => false end.

Definition doubleQuote : string := String "034" EmptyString.

(** [findAndDisplayAbsenceReplacements] from the reading of the slot's
    data attributes on: [slotDay] and [targetTime] are attributes,
    [capacity] and [coachId] the results of [parseInt] on attributes,
    [currentStudentIds] the parsed list of ids; [targetDate],
    [blocksForDate] and [backendCandidates] are what [getTodaysDateUTC],
    [fetchDailyBlocksForDate] and [findSingleSlotSuggestions] gave.
    The result is the last display and the roster after the call. *)
Definition findAndDisplayAbsenceReplacements (slotDay targetTime : field string)
    (capacity coachId : option Z) (currentStudentIds : list JsVal)
    (targetDate : field string) (blocksForDate : option (list DailyBlock))
    (backendCandidates : option (list BackendCandidate))
    (studentsData : option (list Student)) : Display * option (list Student) :=
  match truthyStr slotDay, truthyStr targetTime, capacity, coachId with
  | Some _, Some time, Some capacity, Some coachId =>
      let '(details, studentsData) := lookupAll currentStudentIds studentsData in
      let currentOccupantDetails := List.filter isObject details in
      let safeBlocksForDate := default [] blocksForDate in
      let failure (message : string) :=
        (Failure ("Error finding suggestions: " +:+ message), studentsData) in
      match backendCandidates with
      | None => failure "API call failed to fetch suggestions."
      | Some backendCandidates =>
          match studentsData with
          | None => failure "Student data unavailable for filtering."
          | Some _ =>
              match formatTime (parseTime time) with
              | None =>
                  failure ("Invalid target time format " +:+ doubleQuote +:+ time
                           +:+ doubleQuote +:+ ".")
              | Some _ =>
                  match candidateLoop slotDay targetTime (VNum capacity)
                          currentOccupantDetails targetDate coachId safeBlocksForDate
                          backendCandidates studentsData ∅ [] with
                  | (Normal availableCandidates, studentsData) =>
                      (Suggestions availableCandidates, studentsData)
                  | (Throw msg, studentsData) =>
                      (Failure ("Error finding suggestions: " +:+ msg), studentsData)
                  end
              end
          end
      end
  | _, _, _, _ => (Failure "Slot data incomplete.", studentsData)
  end.

End Client.

(** ** Notions the properties are stated with *)

(** Members of a potential occupant list that count as solo and as paired
    in the server-side checker. *)
Definition isSolo (details : option Server.StudentDetails) : bool :=
  Server.groupSize details =? 1.

Definition isPaired (details : option Server.StudentDetails) : bool :=
  Server.groupSize details =? 2.

(** The two guards a candidate passes to be accepted by the greedy loop. *)
Definition admitted (capacity : Z) (occupants : list Server.StudentDetails)
    (compulsory : option string) (candidate : Server.StudentDetails) : bool :=
  negb (Server.subGroupMismatch compulsory (Server.subGroup candidate))
  && negb (Server.violation
             (Server.checkPairingRuleViolation (Some candidate)
                (Some (map Some occupants)) (VNum capacity))).

(** The compulsory sub-group after the first candidate is accepted. *)
Definition lockAfterFirst (compulsory : option string) (first : Server.StudentDetails)
    : option string :=
  match compulsory, Server.subGroup first with
  | None, Some g => Some g
  | _, _ => compulsory
  end.

(** Effective capacity as the specification words it: 1 if an original
    occupant is solo, 2 if one is paired, else the stored capacity. *)
Definition statedEffectiveCapacity (storedCapacity : Z)
    (originalOccupants : list Server.StudentDetails) : Z :=
  if existsb isSolo (map Some originalOccupants) then 1
  else if existsb isPaired (map Some originalOccupants) then 2
  else storedCapacity.

(** What the server-side checker accepts, as one boolean. *)
Definition serverAccepts (cand : Server.StudentDetails)
    (occupants : list (option Server.StudentDetails)) (cap : Z) : bool :=
  isNumber (Server.groupOf cand)
  && (1 <=? cap)
  && (Z.of_nat (length occupants) + 1 <=? cap)
  && (negb (existsb isSolo (occupants ++ [Some cand])) || Nat.eqb (length occupants) 0)
  && (existsb isSolo (occupants ++ [Some cand])
      || negb (existsb isPaired (occupants ++ [Some cand]))
      || Nat.leb (length occupants) 1).

(** The object the browser holds for a row of the table. *)
Definition studentObject (row : Roster.Student) : Client.Student :=
  {| Client.id := VNum (Roster.id row);
     Client.Name := Roster.Name row;
     Client.name := Roster.name row;
     Client.groupOf := Roster.groupOf row;
     Client.sub_group := Roster.sub_group row;
     Client.class_name := Roster.class_name row;
     Client.availability_string := Roster.availability_string row;
     Client.availability := Undefined;
     Client.is_active := Val true;
     Client.lessons_owed := Roster.lessons_owed row |}.

(** ** Sample rosters and slots *)

(** A row available on Monday at 09:00. *)
Definition mondayRow (rowId groupSize owed : Z) (tag : field string) : Roster.Student :=
  {| Roster.id := rowId;
     Roster.Name := Val ("Student " +:+ pretty rowId);
     Roster.name := Undefined;
     Roster.groupOf := VNum groupSize;
     Roster.sub_group := tag;
     Roster.lessons_owed := Val owed;
     Roster.availability_string := Val "Monday: 09:00";
     Roster.class_name := Val "Year 7A" |}.

(** A slot on Monday at 09:00. *)
Definition mondaySlot (storedCapacity occupants : Z) (originals : list Z)
    (date : field string) : Server.SlotInfo :=
  {| Server.schedule_id := 1;
     Server.day_of_week := "Monday";
     Server.start_time := "09:00:00";
     Server.capacity := storedCapacity;
     Server.coach_id := 7;
     Server.coach_name := "Coach";
     Server.original_student_ids := Some originals;
     Server.current_occupants := occupants;
     Server.slot_date := date |}.

(** A paired original occupant, a paired student who is owed lessons, and
    a paired student who already fills in. *)
Definition pairedRoster : list Roster.Student :=
  [mondayRow 1 2 0 Null; mondayRow 2 2 3 Null; mondayRow 3 2 0 Null].

(** Stored capacity 3; the original occupant and the earlier fill-in are
    present. *)
Definition crowdedPairSlot : Server.SlotInfo :=
  mondaySlot 3 2 [1] (Val "2025-03-03").

(** Stored capacity 3; only the original occupant is present. *)
Definition pairSlot : Server.SlotInfo :=
  mondaySlot 3 1 [1] (Val "2025-03-03").

(** A solo original occupant and two solo students who are owed lessons. *)
Definition soloRoster : list Roster.Student :=
  [mondayRow 1 1 0 Null; mondayRow 2 1 4 Null; mondayRow 3 1 2 Null].

(** Stored capacity 3, nobody present. *)
Definition emptiedSoloSlot : Server.SlotInfo :=
  mondaySlot 3 0 [1] (Val "2025-03-03").

(** Details of a student of a given group size and sub-group. *)
Definition detailsOf (studentId groupSize owed : Z) (tag : option string)
    : Server.StudentDetails :=
  {| Server.id := studentId;
     Server.name := "Student " +:+ pretty studentId;
     Server.groupOf := VNum groupSize;
     Server.subGroup := tag;
     Server.lessons_owed := owed;
     Server.availability_string := Val "Monday: 09:00";
     Server.class_name := Val "Year 7A" |}.

(** An original occupant of sub-group "A" and a student without
    sub-group who is owed lessons; both take group lessons. *)
Definition subGroupRoster : list Roster.Student :=
  [mondayRow 1 3 0 (Val "A"); mondayRow 2 3 2 Null].

(** Stored capacity 3, the original occupant present. *)
Definition subGroupSlot : Server.SlotInfo :=
  mondaySlot 3 1 [1] (Val "2025-03-03").

(** Descending order of lessons owed. *)
Definition owesAtLeast (a b : Server.StudentDetails) : Prop :=
  Server.lessons_owed b <= Server.lessons_owed a.

(** The candidates of a given priority, in list order. *)
Definition owing (k : Z) (l : list Server.StudentDetails) : list Server.StudentDetails :=
  List.filter (fun c => Server.lessons_owed c =? k) l.

(** A block of a given date, type and identifier. *)
Definition blockOn (date kind : string) (ident : option string) : DailyBlock :=
  {| block_date := date; block_type := kind; identifier := ident |}.

(** A student object with a class name and nothing else of interest. *)
Definition pupil (cls : field string) : Client.Student :=
  {| Client.id := VNum 1; Client.Name := Val "Pupil"; Client.name := Undefined;
     Client.groupOf := VNum 3; Client.sub_group := Null; Client.class_name := cls;
     Client.availability_string := Null; Client.availability := Undefined;
     Client.is_active := Val true; Client.lessons_owed := Val 1 |}.

(** The same for the edge function. *)
Definition pupilDetails (cls : field string) : Server.StudentDetails :=
  {| Server.id := 1; Server.name := "Pupil"; Server.groupOf := VNum 3;
     Server.subGroup := None; Server.lessons_owed := 1;
     Server.availability_string := Null; Server.class_name := cls |}.

(** A year-level block stops a student of class [className] on [date]:
    the date is there and is the block's, the identifier is there, not
    empty, and begins the class name. *)
Definition yearLevelMatch (className : field string) (date : field string)
    (b : DailyBlock) : Prop :=
  exists d ident cls,
    date = Val d /\ d <> "" /\ block_date b = d
    /\ identifier b = Some ident /\ ident <> ""
    /\ className = Val cls /\ String.prefix ident cls = true.

(** The ways a date can be absent: [undefined], [null], the empty string. *)
Definition absentDates : list (field string) := [Undefined; Null; Val ""].

(** A slot with its date replaced. *)
Definition withDate (slot : Server.SlotInfo) (date : field string) : Server.SlotInfo :=
  {| Server.schedule_id := Server.schedule_id slot;
     Server.day_of_week := Server.day_of_week slot;
     Server.start_time := Server.start_time slot;
     Server.capacity := Server.capacity slot;
     Server.coach_id := Server.coach_id slot;
     Server.coach_name := Server.coach_name slot;
     Server.original_student_ids := Server.original_student_ids slot;
     Server.current_occupants := Server.current_occupants slot;
     Server.slot_date := date |}.

(** One student who is owed lessons, and a public holiday. *)
Definition holidayRoster : list Roster.Student := [mondayRow 2 3 2 Null].

Definition holiday : list DailyBlock := [blockOn "2025-03-03" "Public Holiday" None].

(** An empty slot of capacity 3 with the given date. *)
Definition emptySlot (date : field string) : Server.SlotInfo := mondaySlot 3 0 [] date.

(** The inputs the specification calls invalid: no candidate or a candidate
    whose [groupOf] is not a number, occupants that are not an array, a
    capacity that is not a number of at least 1, as [NaN] is not. *)
Definition invalidCapacity (capacity : JsArg) : Prop :=
  match capacity with
  | Value (VNum n) => n < 1
  | _ => True
  end.

Definition invalidServerCandidate (candidate : option Server.StudentDetails) : Prop :=
  match candidate with
  | Some c => isNumber (Server.groupOf c) = false
  | None => True
  end.

Definition invalidClientCandidate (candidate : option Client.Student) : Prop :=
  match candidate with
  | Some c => isNumber (Client.groupOf c) = false
  | None => True
  end.

Definition invalidServerInput (candidate : option Server.StudentDetails)
    (occupants : option (list (option Server.StudentDetails))) (capacity : JsArg) : Prop :=
  invalidServerCandidate candidate
  \/ occupants = None
  \/ invalidCapacity capacity.

Definition invalidClientInput (candidate : option Client.Student)
    (occupants : Client.arrayArg (option Client.Student)) (capacity : JsArg) : Prop :=
  invalidClientCandidate candidate
  \/ occupants = Client.NotArray
  \/ invalidCapacity capacity.

(** The occupants the browser's checker counts: none when the argument is
    left out. *)
Definition occupantsGiven (occupants : Client.arrayArg (option Client.Student))
    : list (option Client.Student) :=
  match occupants with
  | Client.Array items => items
  | _ => []
  end.

Definition serverReasons : list string :=
  ["Invalid candidate data."; "Invalid current occupants data."; "Invalid slot capacity."].

Definition clientReasons : list string :=
  ["Invalid new student data."; "Invalid current occupants data."; "Invalid slot capacity."].

(** A student object that has all the fields [getStudentDetails] fills in. *)
Definition complete (s : Client.Student) : Prop :=
  Client.Name s <> Undefined
  /\ isNumber (Client.groupOf s) = true
  /\ Client.sub_group s <> Undefined
  /\ Client.class_name s <> Undefined
  /\ Client.availability_string s <> Undefined.

(** A student object that only has an id and a lower-case name. *)
Definition bareStudent : Client.Student :=
  {| Client.id := VNum 1; Client.Name := Undefined; Client.name := Val "Ann";
     Client.groupOf := VUndef; Client.sub_group := Undefined;
     Client.class_name := Undefined; Client.availability_string := Undefined;
     Client.availability := Undefined; Client.is_active := Undefined;
     Client.lessons_owed := Undefined |}.

(** The same object after a lookup. *)
Definition filledStudent : Client.Student :=
  {| Client.id := VNum 1; Client.Name := Val "Ann"; Client.name := Val "Ann";
     Client.groupOf := VNum 1; Client.sub_group := Null;
     Client.class_name := Null; Client.availability_string := Null;
     Client.availability := Undefined; Client.is_active := Undefined;
     Client.lessons_owed := Undefined |}.

(** [x] is a time point of the range: [startTime + 30 k] minutes, not
    after [endTime]. *)
Definition rangePoint (startTime endTime : nat) (x : string) : Prop :=
  exists k : nat,
    (startTime + 30 * k <= endTime)%nat
    /\ Client.formatTime (Some (startTime + 30 * k)%nat) = Some x.

(** A student object with the given availability text. *)
Definition studentAvailable (text : field string) : Client.Student :=
  {| Client.id := VNum 1; Client.Name := Val "Ann"; Client.name := Undefined;
     Client.groupOf := VNum 1; Client.sub_group := Null; Client.class_name := Null;
     Client.availability_string := text; Client.availability := Undefined;
     Client.is_active := Val true; Client.lessons_owed := Val 1 |}.

(** ** Notions for the further properties *)

(** Descending order of lessons owed, on the members of a recommendation. *)
Definition memberOwesAtLeast (a b : Server.RecommendedGroupMember) : Prop :=
  Server.member_lessons_owed b <= Server.member_lessons_owed a.

(** An empty slot of capacity 3 on Monday 3 March 2025. *)
Definition openSlot : Server.SlotInfo := emptySlot (Val "2025-03-03").

(** Three group students of sub-group "A" who are owed 2, 5 and 3 lessons. *)
Definition owedRoster : list Roster.Student :=
  [mondayRow 1 3 2 (Val "A"); mondayRow 2 3 5 (Val "A"); mondayRow 3 3 3 (Val "A")].

(** Another class is away on that day. *)
Definition otherClassAway : list DailyBlock :=
  [blockOn "2025-03-03" "Class Absence" (Some "Year 8B")].

(** What the recommender returns for [openSlot] and [owedRoster]. *)
Definition owedResult : Server.ResultSlot :=
  {| Server.slot_info := openSlot;
     Server.result_start_time := "09:00";
     Server.recommended_group :=
       [Server.toMember (detailsOf 2 3 5 (Some "A"));
        Server.toMember (detailsOf 3 3 3 (Some "A"));
        Server.toMember (detailsOf 1 3 2 (Some "A"))] |}.

(** Two group students of sub-group "A", then one of sub-group "B". *)
Definition mixedRoster : list Roster.Student :=
  [mondayRow 1 3 5 (Val "A"); mondayRow 2 3 4 (Val "B"); mondayRow 3 3 3 (Val "A")].

(** What the recommender returns for [openSlot] and [mixedRoster]. *)
Definition mixedResult : Server.ResultSlot :=
  {| Server.slot_info := openSlot;
     Server.result_start_time := "09:00";
     Server.recommended_group :=
       [Server.toMember (detailsOf 1 3 5 (Some "A"));
        Server.toMember (detailsOf 3 3 3 (Some "A"))] |}.

(** A solo student who is owed the most, and two group students. *)
Definition soloFirstRoster : list Roster.Student :=
  [mondayRow 1 1 5 Null; mondayRow 2 3 4 Null; mondayRow 3 3 3 Null].

Definition soloFirstResult : Server.ResultSlot :=
  {| Server.slot_info := openSlot;
     Server.result_start_time := "09:00";
     Server.recommended_group := [Server.toMember (detailsOf 1 1 5 None)] |}.

(** What the greedy loop maintains between the recommendation so far and
    the compulsory sub-group. *)
Definition locked (rec : list Server.RecommendedGroupMember) (comp : option string) : Prop :=
  (forall g, comp = Some g -> Forall (fun m => Server.member_subGroup m = Some g) rec)
  /\ (forall first g, head rec = Some first -> Server.member_subGroup first = Some g ->
        comp = Some g).

(** A group in which a solo member is alone and a paired member has at
    most one companion. *)
Definition exclusive (occupants : list Server.StudentDetails) : Prop :=
  (existsb isSolo (map Some occupants) = true -> length occupants = 1%nat)
  /\ (existsb isPaired (map Some occupants) = true -> (length occupants <= 2)%nat).

(** When a block applies to a student of a class and a coach, by type. *)
Definition blockMatches (className : field string) (coachId : Z) (b : DailyBlock) : Prop :=
  block_type b = "Public Holiday"
  \/ (block_type b = "Year Level Absence"
      /\ exists ident cls, identifier b = Some ident /\ ident <> ""
                           /\ className = Val cls /\ String.prefix ident cls = true)
  \/ (block_type b = "Class Absence"
      /\ exists ident, identifier b = Some ident /\ ident <> "" /\ className = Val ident)
  \/ (block_type b = "Coach Unavailable"
      /\ exists ident, identifier b = Some ident /\ parseInt ident = Some coachId).

(** The days of the edge function's availability object and its current
    day are days of the week. *)
Definition weekdayKeys (st : gmap string (list string) * option string) : Prop :=
  (forall k, is_Some (fst st !! k) -> In k Server.validDays)
  /\ (forall d, snd st = Some d -> In d Server.validDays).

(** A time of day as [formatTime] writes it. *)
Definition clockTime (t : string) : Prop :=
  exists m : nat, (m < 1440)%nat /\ Client.formatTime (Some m) = Some t.

(** [formatTime] followed by [parseTime] gives the minute back, and the
    text has the form the edge function expects. *)
Definition roundTrips (m : nat) : bool :=
  match Client.formatTime (Some m) with
  | Some t =>
      Server.timeRegex t
      && match Client.parseTime t with
         | Some m' => Nat.eqb m' m
         | None => false
         end
  | None => false
  end.

(** An availability object whose days are days of the week and whose
    times are times of day. *)
Definition wellFormedAvailability (availability : gmap string (gset string)) : Prop :=
  forall day times,
    availability !! day = Some times ->
    In day Client.validDays /\ forall t, t ∈ times -> clockTime t.

(** Group sizes the browser's checker lets share a slot: a solo student
    is alone; a paired student has at most one companion, and any
    occupant with a numeric group size is paired; any other student
    meets no solo and no paired occupant. *)
Definition compatibleGroups (newStudentGroup : Z) (occupants : list (option Client.Student))
    : Prop :=
  if newStudentGroup =? 1 then occupants = []
  else if newStudentGroup =? 2 then
    (length occupants <= 1)%nat
    /\ forall o n, In o occupants -> Client.numericGroupOf o = Some n -> n = 2
  else
    forall o n, In o occupants -> Client.numericGroupOf o = Some n -> n <> 1 /\ n <> 2.

(** The new student's sub-group, if any, is the established one, if any. *)
Definition compatibleSubGroup (newStudent : Client.Student)
    (occupants : list (option Client.Student)) : Prop :=
  forall established own,
    head (omap Client.occupantSubGroup occupants) = Some established ->
    truthyStr (Client.sub_group newStudent) = Some own ->
    own = established.

(** A student object of a given group size. *)
Definition ofGroup (groupSize : Z) : Client.Student :=
  {| Client.id := VNum groupSize; Client.Name := Val "Pupil"; Client.name := Undefined;
     Client.groupOf := VNum groupSize; Client.sub_group := Null; Client.class_name := Null;
     Client.availability_string := Null; Client.availability := Undefined;
     Client.is_active := Val true; Client.lessons_owed := Val 1 |}.

(** A status row of the slot records [kind] for the student [id]. *)
Definition markedAs (scheduleId : JsVal) (todaysStatuses : list Client.DailyStatus)
    (kind : string) (id : JsVal) : Prop :=
  exists s, In s todaysStatuses
            /\ Client.lesson_schedule_id s = scheduleId
            /\ Client.status s = kind
            /\ Client.student_id s = id.

(** Status rows: student 1 of slot 5 is away and student 9 fills in;
    student 2 is away from another slot. *)
Definition sampleStatuses : list Client.DailyStatus :=
  [ {| Client.lesson_schedule_id := VNum 5; Client.student_id := VNum 1;
       Client.status := "marked_absent" |};
    {| Client.lesson_schedule_id := VNum 5; Client.student_id := VNum 9;
       Client.status := "assigned_fill_in" |};
    {| Client.lesson_schedule_id := VNum 6; Client.student_id := VNum 2;
       Client.status := "marked_absent" |} ].

(** The row a request to create a block asks the backend to store. *)
Definition requestedBlock (r : Client.BlockRequest) : DailyBlock :=
  {| block_date := Client.p_block_date r;
     block_type := Client.p_block_type r;
     identifier := Client.p_identifier r |}.

(** A backend that stores every block. *)
Definition acceptingBackend (r : Client.BlockRequest) : option (field string) := None.

(** The request for a year-level absence of "Year 7" on 3 March 2025. *)
Definition year7Request : Client.BlockRequest :=
  {| Client.block_rpc_name := "create_daily_block";
     Client.p_block_date := "2025-03-03";
     Client.p_block_type := "Year Level Absence";
     Client.p_identifier := Some "Year 7";
     Client.p_reason := None |}.

(** Both dates of the term are valid and today's date lies between
    them, the last day included. *)
Definition containsToday (parseDate : string -> option Z) (today : Z)
    (t : Client.TermDates) : Prop :=
  exists termStart termEnd,
    Client.termBounds parseDate t = Some (termStart, termEnd)
    /\ termStart <= Client.utcStartOfDay today <= termEnd.

(** A runtime that reads two dates of 2025: 27 January and 4 April. *)
Definition sampleParseDate (text : string) : option Z :=
  if String.eqb text "2025-01-27T00:00:00Z" then Some 1737936000000
  else if String.eqb text "2025-04-04T00:00:00Z" then Some 1743724800000
  else None.

Definition sampleTerms : list Client.TermDates :=
  [ {| Client.term_number := 4; Client.start_date := Val "soon"; Client.end_date := Null |};
    {| Client.term_number := 1; Client.start_date := Val "2025-01-27";
       Client.end_date := Val "2025-04-04" |} ].

(** The loop over the backend's candidates with every candidate judged
    on its own: against the roster as it is at the start and with an
    empty availability cache. *)
Fixpoint independentLoop (slotDay targetTime : field string) (capacity : JsVal)
    (currentOccupantDetails : list (option Client.Student)) (targetDate : field string)
    (coachId : Z) (safeBlocksForDate : list DailyBlock)
    (backendCandidates : list Client.BackendCandidate)
    (roster : list Client.Student)
    (availableCandidates : list Client.AvailableCandidate)
    : completion (list Client.AvailableCandidate) :=
  match backendCandidates with
  | [] => Normal availableCandidates
  | candidate :: rest =>
      match fst (fst (Client.candidateStep slotDay targetTime capacity currentOccupantDetails
                        targetDate coachId safeBlocksForDate candidate (Some roster) ∅)) with
      | Throw msg => Throw msg
      | Normal None =>
          independentLoop slotDay targetTime capacity currentOccupantDetails targetDate
            coachId safeBlocksForDate rest roster availableCandidates
      | Normal (Some available) =>
          independentLoop slotDay targetTime capacity currentOccupantDetails targetDate
            coachId safeBlocksForDate rest roster (availableCandidates ++ [available])
      end
  end.

(** A roster after some lookups: each object is as it was or completed. *)
Definition refines (roster roster' : list Client.Student) : Prop :=
  Forall2 (fun x y => y = x \/ y = Client.normalize x) roster roster'.

(** The availability a completed student object is parsed from. *)
Definition ownAvailability (s : Client.Student) : gmap string (gset string) :=
  Client.parseAvailability
    (orField (Client.availability_string s) (Client.availability s)).

(** A cache that holds, for the key of a number, what the first roster
    object with that id parses to once completed. *)
Definition consistentCache (roster : list Client.Student)
    (cache : gmap string (gmap string (gset string))) : Prop :=
  forall (n : Z) parsed i row,
    cache !! pretty n = Some parsed ->
    Client.findIndex (Client.hasId n) roster = Some i ->
    roster !! i = Some row ->
    parsed = ownAvailability (Client.normalize row).

(** What the suggestion box lists for a candidate and its student
    object. *)
Definition listed (candidate : Client.BackendCandidate) (s : Client.Student)
    : Client.AvailableCandidate :=
  {| Client.available_id := Client.candidate_id candidate;
     Client.available_Name := Client.Name s;
     Client.available_lessons_owed := Client.candidate_lessons_owed candidate;
     Client.available_groupOf := Client.groupOf s;
     Client.available_subGroup := Client.sub_group s;
     Client.available_class_name := Client.class_name s |}.

(** A candidate passes the filter of the log viewer with the student
    object [s]: the lookup in the roster gives [s], which has a name, is
    not inactive, is available, fits the occupants and is not blocked. *)
Definition eligible (slotDay targetTime : field string) (capacity : JsVal)
    (currentOccupantDetails : list (option Client.Student)) (targetDate : field string)
    (coachId : Z) (safeBlocksForDate : list DailyBlock) (roster : list Client.Student)
    (candidate : Client.BackendCandidate) (s : Client.Student) : Prop :=
  fst (Client.getStudentDetails (Client.candidate_id candidate) (Some roster)) = Some s
  /\ truthyStr (Client.Name s) <> None
  /\ Client.is_active s <> Val false
  /\ fst (Client.isStudentAvailable (Some s) slotDay targetTime ∅) = Normal true
  /\ Client.violation
       (Client.checkPairingRuleViolation (Some s) (Client.Array currentOccupantDetails)
          capacity) = false
  /\ Client.isStudentBlocked (Some s) targetDate coachId (Some safeBlocksForDate) = false.

(** Two students of the browser's roster: a group student available on
    Monday at 09:00, and one who is not available then. *)
Definition browserRoster : list Client.Student :=
  [ {| Client.id := VNum 1; Client.Name := Val "Ann"; Client.name := Undefined;
       Client.groupOf := VNum 3; Client.sub_group := Undefined;
       Client.class_name := Val "Year 7A";
       Client.availability_string := Val "Monday: 09:00-10:00";
       Client.availability := Undefined; Client.is_active := Val true;
       Client.lessons_owed := Val 2 |};
    {| Client.id := VNum 2; Client.Name := Val "Ben"; Client.name := Undefined;
       Client.groupOf := VNum 3; Client.sub_group := Undefined;
       Client.class_name := Val "Year 8B";
       Client.availability_string := Val "Tuesday: 09:00";
       Client.availability := Undefined; Client.is_active := Val true;
       Client.lessons_owed := Val 1 |} ].

(** The first of them, completed by a lookup. *)
Definition annCompleted : Client.Student :=
  {| Client.id := VNum 1; Client.Name := Val "Ann"; Client.name := Undefined;
     Client.groupOf := VNum 3; Client.sub_group := Null;
     Client.class_name := Val "Year 7A";
     Client.availability_string := Val "Monday: 09:00-10:00";
     Client.availability := Undefined; Client.is_active := Val true;
     Client.lessons_owed := Val 2 |}.

Definition backendSuggestions : list Client.BackendCandidate :=
  [ {| Client.candidate_id := VNum 1; Client.candidate_lessons_owed := Val 2 |};
    {| Client.candidate_id := VNum 2; Client.candidate_lessons_owed := Val 1 |};
    {| Client.candidate_id := VNum 1; Client.candidate_lessons_owed := Val 2 |} ].

(** ** The grammar of times

    A time is written [H:MM], [HH:MM], [H:MM:SS] or [HH:MM:SS] (the
    seconds are discarded), each with an optional [am] or [pm] after
    optional white space, or as the four digits [HHMM], which take no
    [am] or [pm]; upper and lower case and white space around the text
    make no difference. *)












(** ** What an availability text lists, in the browser's dialect *)






(** ** What an availability text shows, in the edge function's dialect *)





(* ================================================================== *)
(** * Part II: properties *)
(* ================================================================== *)

(** ** The server-side pairing checker *)

Section ServerChecker.

Local Abbreviation details := (option Server.StudentDetails).

Lemma countStep_eq (solo paired : nat) (d : details) :
  Server.countStep (solo, paired) d
  = if isSolo d then (S solo, paired)
    else if isPaired d then (solo, S paired) else (solo, paired).
Proof. reflexivity. Qed.

Lemma countStep_fold (l : list details) (solo paired : nat) :
  fold_left Server.countStep l (solo, paired)
  = ((solo + length (List.filter isSolo l))%nat,
     (paired + length (List.filter
                         (fun d => negb (isSolo d) && isPaired d) l))%nat).
Proof.
  revert solo paired.
  induction l as [|d l IH]; intros solo paired; cbn [fold_left List.filter].
  - cbn. f_equal; lia.
  - rewrite countStep_eq.
    destruct (isSolo d), (isPaired d); cbn [negb andb length];
      rewrite IH; f_equal; lia.
Qed.

Lemma filter_length_pos {A : Type} (p : A -> bool) (l : list A) :
  Nat.ltb 0 (length (List.filter p l)) = existsb p l.
Proof.
  induction l as [|x l IH]; [reflexivity|].
  cbn [List.filter existsb]. destruct (p x); [reflexivity|exact IH].
Qed.

Lemma filter_length_zero {A : Type} (p : A -> bool) (l : list A) :
  Nat.eqb (length (List.filter p l)) 0 = negb (existsb p l).
Proof.
  induction l as [|x l IH]; [reflexivity|].
  cbn [List.filter existsb]. destruct (p x); [reflexivity|exact IH].
Qed.

Lemma existsb_paired_only (l : list details) :
  existsb isSolo l = false ->
  existsb (fun d => negb (isSolo d) && isPaired d) l
  = existsb isPaired l.
Proof.
  induction l as [|d l IH]; [reflexivity|].
  cbn [existsb]. intros H. apply orb_false_iff in H as [Hd Hl].
  rewrite Hd, (IH Hl). reflexivity.
Qed.

Lemma ltb_1_succ (n : nat) : Nat.ltb 1 (n + 1) = negb (Nat.eqb n 0).
Proof. rewrite Nat.add_1_r. destruct n; reflexivity. Qed.

Lemma ltb_2_succ (n : nat) : Nat.ltb 2 (n + 1) = negb (Nat.leb n 1).
Proof. rewrite Nat.add_1_r. destruct n as [|[|n]]; reflexivity. Qed.

(** The verdict of the server-side checker on well-typed arguments. *)
Lemma server_check_violation (cand : Server.StudentDetails) (occupants : list details)
    (cap : Z) :
  Server.violation
    (Server.checkPairingRuleViolation (Some cand) (Some occupants) (VNum cap))
  = negb (serverAccepts cand occupants cap).
Proof.
  unfold Server.checkPairingRuleViolation, serverAccepts.
  destruct (isNumber (Server.groupOf cand)); [|reflexivity].
  cbn [negb andb orb isNumberArg isNumber lessThan].
  destruct (Z.ltb_spec cap 1) as [Hc|Hc].
  { replace (1 <=? cap) with false by (symmetry; apply Z.leb_gt; lia). reflexivity. }
  replace (1 <=? cap) with true by (symmetry; apply Z.leb_le; lia).
  cbn [andb]. rewrite length_app. cbn [length].
  replace (Z.of_nat (length occupants + 1)) with (Z.of_nat (length occupants) + 1) by lia.
  destruct (Z.ltb_spec cap (Z.of_nat (length occupants) + 1)) as [Hn|Hn].
  { replace (Z.of_nat (length occupants) + 1 <=? cap) with false
      by (symmetry; apply Z.leb_gt; lia). reflexivity. }
  replace (Z.of_nat (length occupants) + 1 <=? cap) with true
    by (symmetry; apply Z.leb_le; lia).
  cbn [andb]. rewrite countStep_fold. cbn [Nat.add].
  rewrite filter_length_pos, filter_length_zero, filter_length_pos.
  set (solo := existsb isSolo (occupants ++ [Some cand])).
  assert (Hp : solo = false ->
               existsb (fun d => negb (isSolo d) && isPaired d)
                 (occupants ++ [Some cand])
               = existsb isPaired (occupants ++ [Some cand]))
    by apply existsb_paired_only.
  rewrite ltb_1_succ, ltb_2_succ.
  destruct solo; cbn [negb andb orb].
  - destruct (Nat.eqb (length occupants) 0); reflexivity.
  - rewrite (Hp eq_refl).
    destruct (existsb isPaired (occupants ++ [Some cand])); cbn [negb andb orb];
      [|reflexivity].
    destruct (Nat.leb (length occupants) 1); reflexivity.
Qed.

End ServerChecker.

(** ** The greedy loop *)

Section Greedy.

Variables (neededCount capacity : Z).

Lemma greedy_length (cands : list Server.StudentDetails) :
  forall rec occ comp,
    Z.of_nat (length rec) <= neededCount ->
    Z.of_nat (length (Server.greedy neededCount capacity cands rec occ comp)) <= neededCount.
Proof.
  induction cands as [|c cands IH]; intros rec occ comp Hrec; cbn [Server.greedy].
  - exact Hrec.
  - destruct (Z.leb_spec neededCount (Z.of_nat (length rec))) as [Hfull|Hroom];
      [exact Hrec|].
    destruct (Server.subGroupMismatch comp (Server.subGroup c)); [apply IH; exact Hrec|].
    destruct (negb _); [|apply IH; exact Hrec].
    apply IH. rewrite length_app. cbn [length]. lia.
Qed.

(** A solo member among the running occupants stops every later
    acceptance. *)
Lemma greedy_solo_occupant (cands : list Server.StudentDetails) :
  forall rec occ comp,
    existsb isSolo (map Some occ) = true ->
    Server.greedy neededCount capacity cands rec occ comp = rec.
Proof.
  induction cands as [|c cands IH]; intros rec occ comp Hsolo; cbn [Server.greedy].
  - reflexivity.
  - destruct (neededCount <=? Z.of_nat (length rec)); [reflexivity|].
    destruct (Server.subGroupMismatch comp (Server.subGroup c)); [apply IH; exact Hsolo|].
    rewrite server_check_violation. unfold serverAccepts.
    rewrite existsb_app, Hsolo. cbn [orb negb].
    assert (Hne : Nat.eqb (length (map Some occ)) 0 = false).
    { destruct occ; [discriminate Hsolo|reflexivity]. }
    rewrite Hne, andb_false_r. cbn [andb negb]. apply IH. exact Hsolo.
Qed.

(** The loop appends to the recommendation, in the order of the
    candidate list. *)
Lemma greedy_sublist (cands : list Server.StudentDetails) :
  forall rec occ comp,
    exists picked,
      Server.greedy neededCount capacity cands rec occ comp = rec ++ picked
      /\ sublist picked (map Server.toMember cands).
Proof.
  induction cands as [|c cands IH]; intros rec occ comp; cbn [Server.greedy map].
  - exists []. split; [symmetry; apply app_nil_r|constructor].
  - destruct (neededCount <=? Z.of_nat (length rec)).
    { exists []. split; [symmetry; apply app_nil_r|apply sublist_nil_l]. }
    destruct (Server.subGroupMismatch comp (Server.subGroup c)).
    { destruct (IH rec occ comp) as (picked & -> & Hsub).
      exists picked. split; [reflexivity|apply sublist_cons; exact Hsub]. }
    destruct (negb _).
    + match goal with
      | |- context [Server.greedy _ _ _ ?r ?o ?k] => destruct (IH r o k) as (picked & -> & Hsub)
      end.
      exists (Server.toMember c :: picked). split.
      * rewrite <- app_assoc. reflexivity.
      * apply sublist_skip. exact Hsub.
    + destruct (IH rec occ comp) as (picked & -> & Hsub).
      exists picked. split; [reflexivity|apply sublist_cons; exact Hsub].
Qed.

End Greedy.

(** ** The slot recommender and the capacity of a slot *)

Lemma existing_solo_occupant (allStudentsData : list Roster.Student) (slot : Server.SlotInfo)
    (ids : list Z) (sid : Z) (d : Server.StudentDetails) :
  Server.original_student_ids slot = Some ids ->
  In sid ids ->
  Server.getStudentDetails sid allStudentsData = Some d ->
  Server.groupOf d = VNum 1 ->
  existsb isSolo (map Some (Server.existingStudentsDetails allStudentsData slot)) = true.
Proof.
  intros Hids Hin Hget Hsolo.
  apply existsb_exists. exists (Some d). split.
  - apply in_map, list_elem_of_In. unfold Server.existingStudentsDetails.
    rewrite Hids. cbn [default]. apply list_elem_of_omap.
    exists sid. split; [apply list_elem_of_In; exact Hin|exact Hget].
  - unfold isSolo, Server.groupSize. rewrite Hsolo. reflexivity.
Qed.

Lemma processSlot_within_stored_capacity
    (allStudentsData : list Roster.Student) (allBlocks : list DailyBlock)
    (slot : Server.SlotInfo) (res : Server.ResultSlot) :
  Server.processSlot allStudentsData allBlocks slot = Some res ->
  Server.slot_info res = slot
  /\ Server.current_occupants slot + Z.of_nat (length (Server.recommended_group res))
     <= Server.capacity slot
  /\ (forall ids sid d,
        Server.original_student_ids slot = Some ids ->
        In sid ids ->
        Server.getStudentDetails sid allStudentsData = Some d ->
        Server.groupOf d = VNum 1 ->
        Server.recommended_group res = []).
Proof.
  unfold Server.processSlot.
  destruct (Z.leb_spec (Server.capacity slot - Server.current_occupants slot) 0)
    as [Hfull|Hroom]; [discriminate|].
  intros [= <-]. cbn [Server.recommended_group Server.slot_info]. unfold Server.recommend.
  split; [reflexivity|]. split.
  - pose proof (greedy_length (Server.capacity slot - Server.current_occupants slot)
                  (Server.capacity slot)
                  (Server.sortByOwed (Server.candidatesForSlot allStudentsData allBlocks slot))
                  [] (Server.existingStudentsDetails allStudentsData slot)
                  (Server.targetSubGroup (Server.existingStudentsDetails allStudentsData slot)))
      as Hlen.
    cbn [length] in Hlen. lia.
  - intros ids sid d Hids Hin Hget Hsolo.
    apply greedy_solo_occupant. eapply existing_solo_occupant; eassumption.
Qed.

(** ** The effective capacity and the original roster *)

Section EffectiveCapacity.

Variables (neededCount capacity : Z) (existing : list Server.StudentDetails).

(** An accepted candidate leaves the running occupants within the
    effective capacity of the original roster. *)
Lemma accepted_within_effective_capacity (c : Server.StudentDetails)
    (extra : list Server.StudentDetails) :
  serverAccepts c (map Some (existing ++ extra)) capacity = true ->
  Z.of_nat (length (existing ++ extra ++ [c]))
  <= statedEffectiveCapacity capacity existing.
Proof.
  unfold serverAccepts, statedEffectiveCapacity. intros H.
  apply andb_true_iff in H as [H Hpair]. apply andb_true_iff in H as [H Hsolo].
  apply andb_true_iff in H as [H Hcap]. apply Z.leb_le in Hcap.
  rewrite length_map in Hcap, Hsolo, Hpair.
  repeat rewrite map_app in Hsolo, Hpair.
  repeat rewrite existsb_app in Hsolo. repeat rewrite existsb_app in Hpair.
  rewrite !length_app in *. cbn [length] in *.
  destruct (existsb isSolo (map Some existing)) eqn:Esolo.
  - cbn [negb orb] in Hsolo. apply Nat.eqb_eq in Hsolo.
    destruct existing; [discriminate Esolo|cbn [length] in Hsolo; lia].
  - destruct (existsb isPaired (map Some existing)) eqn:Epair; [|lia].
    cbn [negb orb] in Hpair. rewrite orb_false_r in Hpair.
    apply orb_true_iff in Hpair as [Hs|Hle].
    + cbn [orb] in Hsolo. rewrite Hs in Hsolo. cbn [negb orb] in Hsolo.
      apply Nat.eqb_eq in Hsolo.
      destruct existing; [discriminate Epair|cbn [length] in Hsolo; lia].
    + apply Nat.leb_le in Hle. lia.
Qed.

Lemma greedy_within_effective_capacity (cands : list Server.StudentDetails) :
  forall rec extra comp,
    length extra = length rec ->
    rec = [] \/ Z.of_nat (length (existing ++ extra))
                <= statedEffectiveCapacity capacity existing ->
    let result := Server.greedy neededCount capacity cands rec (existing ++ extra) comp in
    result = []
    \/ Z.of_nat (length existing + length result)
       <= statedEffectiveCapacity capacity existing.
Proof.
  induction cands as [|c cands IH]; intros rec extra comp Hlen Hinv; cbn [Server.greedy].
  - cbn zeta. destruct Hinv as [->|Hinv]; [left; reflexivity|].
    right. rewrite length_app, Hlen in Hinv. exact Hinv.
  - destruct (neededCount <=? Z.of_nat (length rec)).
    { cbn zeta. destruct Hinv as [->|Hinv]; [left; reflexivity|].
      right. rewrite length_app, Hlen in Hinv. exact Hinv. }
    destruct (Server.subGroupMismatch comp (Server.subGroup c)); [apply IH; assumption|].
    rewrite server_check_violation, negb_involutive.
    destruct (serverAccepts c (map Some (existing ++ extra)) capacity) eqn:Hacc;
      [|apply IH; assumption].
    rewrite <- app_assoc. apply IH.
    + rewrite !length_app, Hlen. reflexivity.
    + right. apply accepted_within_effective_capacity. exact Hacc.
Qed.

End EffectiveCapacity.

(** Whenever a fill-in is recommended, the original occupants found in the
    roster and the fill-ins together are within the effective capacity
    that the original roster determines. *)
Lemma recommender_within_effective_capacity_of_roster
    (allStudentsData : list Roster.Student) (allBlocks : list DailyBlock)
    (slot : Server.SlotInfo) (res : Server.ResultSlot) :
  Server.processSlot allStudentsData allBlocks slot = Some res ->
  Server.recommended_group res = []
  \/ Z.of_nat (length (Server.existingStudentsDetails allStudentsData slot)
               + length (Server.recommended_group res))
     <= statedEffectiveCapacity (Server.capacity slot)
          (Server.existingStudentsDetails allStudentsData slot).
Proof.
  unfold Server.processSlot.
  destruct (_ <=? 0); [discriminate|]. intros [= <-].
  cbn [Server.recommended_group]. unfold Server.recommend.
  pose proof (greedy_within_effective_capacity
                (Server.capacity slot - Server.current_occupants slot)
                (Server.capacity slot) (Server.existingStudentsDetails allStudentsData slot)
                (Server.sortByOwed (Server.candidatesForSlot allStudentsData allBlocks slot))
                [] [] (Server.targetSubGroup (Server.existingStudentsDetails allStudentsData slot))
                eq_refl (or_introl eq_refl)) as H.
  rewrite app_nil_r in H. exact H.
Qed.

(** C1, as the code has it: in every result of the recommender, the
    fill-ins recommended for the slot, added to its current occupants,
    do not exceed the stored capacity; whenever a fill-in is recommended,
    the original occupants found in the roster and the fill-ins together
    are within the effective capacity (1 if an original occupant is solo,
    2 if one is paired, else the stored capacity); and a slot with a solo
    original occupant in the roster (in particular one with no current
    occupant and stored capacity 3) gets no fill-in at all, hence at most
    one. *)
Theorem recommender_within_stored_capacity
    (allStudentsData : list Roster.Student) (allBlocks : list DailyBlock)
    (slotsNeedingFillins : list Server.SlotInfo) (res : Server.ResultSlot) :
  In res (Server.results allStudentsData allBlocks slotsNeedingFillins) ->
  let slot := Server.slot_info res in
  let originals := Server.existingStudentsDetails allStudentsData slot in
  In slot slotsNeedingFillins
  /\ Server.current_occupants slot + Z.of_nat (length (Server.recommended_group res))
     <= Server.capacity slot
  /\ (Server.recommended_group res = []
      \/ Z.of_nat (length originals + length (Server.recommended_group res))
         <= statedEffectiveCapacity (Server.capacity slot) originals)
  /\ (forall ids sid d,
        Server.original_student_ids slot = Some ids ->
        In sid ids ->
        Server.getStudentDetails sid allStudentsData = Some d ->
        Server.groupOf d = VNum 1 ->
        Server.recommended_group res = []
        /\ (length (Server.recommended_group res) <= 1)%nat).
Proof.
  intros Hres slot originals. unfold Server.results in Hres.
  apply list_elem_of_In, list_elem_of_omap in Hres as (slot0 & Hin & Hproc).
  pose proof (recommender_within_effective_capacity_of_roster _ _ _ _ Hproc) as Heff.
  apply processSlot_within_stored_capacity in Hproc as (Hslot & Hcap & Hsolo).
  subst originals slot. rewrite Hslot. split; [apply list_elem_of_In; exact Hin|].
  split; [exact Hcap|]. split; [exact Heff|].
  intros ids sid d Hids Hsid Hget Hg.
  rewrite (Hsolo ids sid d Hids Hsid Hget Hg). split; [reflexivity|cbn [length]; lia].
Qed.

Lemma recommender_within_stored_capacity_witness :
  exists res,
    In res (Server.results pairedRoster [] [pairSlot])
    /\ map Server.student_id (Server.recommended_group res) = [2]
    /\ Server.current_occupants pairSlot
         + Z.of_nat (length (Server.recommended_group res))
       <= Server.capacity pairSlot
    /\ Z.of_nat (length (Server.existingStudentsDetails pairedRoster pairSlot)
                 + length (Server.recommended_group res))
       <= 2.
Proof.
  eexists.
  assert (Hin : In _ (Server.results pairedRoster [] [pairSlot]))
    by (left; vm_compute; reflexivity).
  split; [exact Hin|]. split; [reflexivity|].
  destruct (recommender_within_stored_capacity pairedRoster [] [pairSlot] _ Hin)
    as (_ & Hcap & Heff & _).
  split; [exact Hcap|].
  destruct Heff as [Hnone|Heff]; [discriminate Hnone|exact Heff].
Defined.

(** C1 as stated fails: with a paired original occupant and an earlier
    fill-in present, and stored capacity 3, the recommender still adds a
    third student although the effective capacity is 2. *)
Lemma capacity_invariant_counterexample :
  exists res,
    In res (Server.results pairedRoster [] [crowdedPairSlot])
    /\ statedEffectiveCapacity (Server.capacity crowdedPairSlot)
         (Server.existingStudentsDetails pairedRoster crowdedPairSlot) = 2
    /\ fst (Client.effectiveCapacity (VNum 3) [VNum 1]
              (Some (map studentObject pairedRoster)) 2) = 2
    /\ Server.current_occupants crowdedPairSlot
         + Z.of_nat (length (Server.recommended_group res)) = 3.
Proof.
  eexists. split; [left; vm_compute; reflexivity|].
  repeat split; vm_compute; reflexivity.
Qed.

(** ** Group mixing (C2) *)

(** The browser's checker refuses a group student wherever a solo or a
    paired student is present. *)
Lemma client_group_student_refused (newStudent : Client.Student) (g : Z)
    (occupants : list (option Client.Student)) (o : Client.Student) (cap : JsVal) :
  Client.groupOf newStudent = VNum g ->
  3 <= g ->
  In (Some o) occupants ->
  Client.groupOf o = VNum 1 \/ Client.groupOf o = VNum 2 ->
  Client.violation
    (Client.checkPairingRuleViolation (Some newStudent) (Client.Array occupants) cap) = true.
Proof.
  intros Hg Hge Hin Ho. unfold Client.checkPairingRuleViolation. rewrite Hg.
  destruct cap as [| | |cap|]; try reflexivity.
  cbn [negb orb isNumberArg isNumber lessThan].
  destruct (cap <? 1); [reflexivity|].
  destruct (cap <? Z.of_nat (S (length occupants))); [reflexivity|].
  assert (Hmem : forall n, Client.groupOf o = VNum n ->
            n ∈ (list_to_set (omap Client.numericGroupOf occupants) : gset Z)).
  { intros n Hn. apply elem_of_list_to_set, list_elem_of_omap.
    exists (Some o). split; [apply list_elem_of_In; exact Hin|].
    cbn. rewrite Hn. reflexivity. }
  unfold Client.groupTypeViolation.
  replace (g =? 1) with false by (symmetry; apply Z.eqb_neq; lia).
  replace (g =? 2) with false by (symmetry; apply Z.eqb_neq; lia).
  destruct Ho as [Ho|Ho]; apply Hmem in Ho.
  - rewrite (bool_decide_eq_true_2 _ Ho). reflexivity.
  - rewrite (bool_decide_eq_true_2 _ Ho).
    destruct (bool_decide (1 ∈ _)); reflexivity.
Qed.

(** The edge function's checker refuses anybody next to a solo student... *)
Lemma server_solo_slot_refused (cand : Server.StudentDetails)
    (occupants : list (option Server.StudentDetails)) (cap : Z) :
  existsb isSolo occupants = true ->
  Server.violation
    (Server.checkPairingRuleViolation (Some cand) (Some occupants) (VNum cap)) = true.
Proof.
  intros Hsolo. rewrite server_check_violation. unfold serverAccepts.
  rewrite existsb_app, Hsolo. cbn [orb negb].
  assert (Hne : Nat.eqb (length occupants) 0 = false)
    by (destruct occupants; [discriminate Hsolo|reflexivity]).
  rewrite Hne, andb_false_r. reflexivity.
Qed.

(** ... and a third student next to a paired one. *)
Lemma server_paired_slot_refused (cand : Server.StudentDetails)
    (occupants : list (option Server.StudentDetails)) (cap : Z) :
  existsb isPaired occupants = true ->
  (2 <= length occupants)%nat ->
  Server.violation
    (Server.checkPairingRuleViolation (Some cand) (Some occupants) (VNum cap)) = true.
Proof.
  intros Hpaired Hlen. rewrite server_check_violation. unfold serverAccepts.
  rewrite !existsb_app, Hpaired. cbn [orb negb].
  replace (Nat.leb (length occupants) 1) with false
    by (symmetry; apply Nat.leb_gt; lia).
  replace (Nat.eqb (length occupants) 0) with false
    by (symmetry; apply Nat.eqb_neq; lia).
  rewrite !orb_false_r.
  destruct (existsb isSolo occupants || existsb isSolo [Some cand]);
    cbn [negb]; rewrite ?andb_false_r; reflexivity.
Qed.

(** C2 at the input where the edge function departs from it: a student
    of group size 3 is admitted to a slot that holds one paired student. *)
Theorem server_admits_group_student_to_paired_slot :
  Server.checkPairingRuleViolation (Some (detailsOf 2 3 1 None))
    (Some [Some (detailsOf 1 2 0 None)]) (VNum 3)
  = {| Server.violation := false; Server.reason := "" |}.
Proof. vm_compute. reflexivity. Qed.

(** ** The sub-group gate (C3) *)

(** The browser's checker, step 3: only a candidate with a sub-group of
    its own, different from the established one, is refused. *)
Lemma client_subgroup_gate (newStudent : Client.Student)
    (occupants : list (option Client.Student)) :
  is_Some (Client.subGroupViolation newStudent occupants)
  <-> exists established own,
        head (omap Client.occupantSubGroup occupants) = Some established
        /\ truthyStr (Client.sub_group newStudent) = Some own
        /\ own <> established.
Proof.
  unfold Client.subGroupViolation.
  destruct (omap Client.occupantSubGroup occupants) as [|established rest];
    cbn [head].
  - split; [intros [? [=]]|intros (? & ? & [=] & _)].
  - destruct (truthyStr (Client.sub_group newStudent)) as [own|].
    + destruct (String.eqb_spec own established) as [->|Hne]; cbn [negb].
      * split; [intros [? [=]]|intros (? & ? & [= <-] & [= <-] & Hne); congruence].
      * split; [intros _; eauto|intros _; eexists; reflexivity].
    + split; [intros [? [=]]|intros (? & ? & _ & [=] & _)].
Qed.

Lemma client_subgroup_gate_null (newStudent : Client.Student)
    (occupants : list (option Client.Student)) :
  truthyStr (Client.sub_group newStudent) = None ->
  Client.subGroupViolation newStudent occupants = None.
Proof.
  intros Hnull. unfold Client.subGroupViolation. rewrite Hnull.
  destruct (omap _ _); reflexivity.
Qed.

(** The edge function's gate lets through exactly the candidates whose
    sub-group is the established one. *)
Lemma server_subgroup_gate (target : string) (subGroup : option string) :
  Server.subGroupMismatch (Some target) subGroup = false <-> subGroup = Some target.
Proof.
  unfold Server.subGroupMismatch, Server.differsFrom.
  destruct subGroup as [g|].
  - destruct (String.eqb_spec g target) as [->|Hne]; cbn [negb]; split;
      congruence.
  - split; discriminate.
Qed.

(** C3 at the input where the edge function departs from it: the
    occupant establishes sub-group "A"; the candidate has no sub-group,
    is owed lessons, is free and is not blocked, passes the browser's
    checker, and is still filtered out. *)
Theorem server_gate_excludes_candidate_without_subgroup :
  Server.targetSubGroup (Server.existingStudentsDetails subGroupRoster subGroupSlot) = Some "A"
  /\ Server.subGroup <$> Server.getStudentDetails 2 subGroupRoster = Some None
  /\ Server.candidateFilter subGroupSlot [] None
       (Server.getStudentDetails 2 subGroupRoster) = true
  /\ Server.candidateFilter subGroupSlot [] (Some "A")
       (Server.getStudentDetails 2 subGroupRoster) = false
  /\ Server.candidatesForSlot subGroupRoster [] subGroupSlot = []
  /\ Client.checkPairingRuleViolation (Some (studentObject (mondayRow 2 3 2 Null)))
       (Client.Array [Some (studentObject (mondayRow 1 3 0 (Val "A")))]) (VNum 3)
     = {| Client.violation := false; Client.reason := None |}.
Proof. repeat split; vm_compute; reflexivity. Qed.

(** ** The ranking (C4) *)

Section Ranking.

Lemma insertByOwed_perm (a : Server.StudentDetails) (l : list Server.StudentDetails) :
  Server.insertByOwed a l ≡ₚ a :: l.
Proof.
  induction l as [|b l IH]; cbn [Server.insertByOwed]; [reflexivity|].
  destruct (Server.lessons_owed a <? Server.lessons_owed b); [|reflexivity].
  rewrite IH. apply Permutation_swap.
Qed.

Lemma sortByOwed_perm (l : list Server.StudentDetails) : Server.sortByOwed l ≡ₚ l.
Proof.
  induction l as [|a l IH]; [reflexivity|].
  unfold Server.sortByOwed in *. cbn [fold_right].
  rewrite insertByOwed_perm, IH. reflexivity.
Qed.

Lemma insertByOwed_hd (a x : Server.StudentDetails) (l : list Server.StudentDetails) :
  owesAtLeast x a -> HdRel owesAtLeast x l -> HdRel owesAtLeast x (Server.insertByOwed a l).
Proof.
  intros Hxa Hxl. destruct l as [|b l]; cbn [Server.insertByOwed].
  - constructor. exact Hxa.
  - destruct (Server.lessons_owed a <? Server.lessons_owed b).
    + constructor. inversion Hxl; assumption.
    + constructor. exact Hxa.
Qed.

Lemma insertByOwed_sorted (a : Server.StudentDetails) (l : list Server.StudentDetails) :
  Sorted owesAtLeast l -> Sorted owesAtLeast (Server.insertByOwed a l).
Proof.
  induction l as [|b l IH]; intros Hs; cbn [Server.insertByOwed].
  - repeat constructor.
  - destruct (Z.ltb_spec (Server.lessons_owed a) (Server.lessons_owed b)) as [Hlt|Hge].
    + inversion Hs as [|? ? Hl Hhd]; subst. constructor; [apply IH; exact Hl|].
      apply insertByOwed_hd; [unfold owesAtLeast; lia|exact Hhd].
    + constructor; [exact Hs|]. constructor. unfold owesAtLeast. lia.
Qed.

(** The sort puts the candidates in descending order of lessons owed... *)
Lemma sortByOwed_sorted (l : list Server.StudentDetails) :
  Sorted owesAtLeast (Server.sortByOwed l).
Proof.
  induction l as [|a l IH]; [constructor|].
  unfold Server.sortByOwed in *. cbn [fold_right]. apply insertByOwed_sorted, IH.
Qed.

Lemma insertByOwed_owing (k : Z) (a : Server.StudentDetails)
    (l : list Server.StudentDetails) :
  owing k (Server.insertByOwed a l) = owing k (a :: l).
Proof.
  induction l as [|b l IH]; cbn [Server.insertByOwed]; [reflexivity|].
  destruct (Z.ltb_spec (Server.lessons_owed a) (Server.lessons_owed b)) as [Hlt|Hge];
    [|reflexivity].
  unfold owing in *. cbn [List.filter] in *. rewrite IH.
  destruct (Z.eqb_spec (Server.lessons_owed a) k),
           (Z.eqb_spec (Server.lessons_owed b) k); try reflexivity; lia.
Qed.

(** ... and is stable: candidates who owe the same keep their order. *)
Lemma sortByOwed_stable (k : Z) (l : list Server.StudentDetails) :
  owing k (Server.sortByOwed l) = owing k l.
Proof.
  induction l as [|a l IH]; [reflexivity|].
  unfold Server.sortByOwed in *. cbn [fold_right].
  rewrite insertByOwed_owing. unfold owing in *. cbn [List.filter].
  rewrite IH. reflexivity.
Qed.

Lemma recommend_sublist (neededCount capacity : Z)
    (existing cands : list Server.StudentDetails) :
  sublist (Server.recommend neededCount capacity existing cands)
    (map Server.toMember (Server.sortByOwed cands)).
Proof.
  unfold Server.recommend.
  destruct (greedy_sublist neededCount capacity (Server.sortByOwed cands) []
              existing (Server.targetSubGroup existing)) as (picked & -> & Hsub).
  exact Hsub.
Qed.

End Ranking.

(** C4, as the code has it: candidates A, B, C, D owing 5, 5, 3, 1 are
    ranked A, B, C, D; whatever is recommended keeps that order, so B
    never precedes A; and with two places to fill the recommendation is
    [A, B] whenever A and then B pass the sub-group gate and the pairing
    check. The sort is by descending lessons owed and stable on every
    candidate list. *)
Theorem ranking_five_five_three_one
    (A B C D : Server.StudentDetails) (existing : list Server.StudentDetails)
    (capacity : Z) :
  Server.lessons_owed A = 5 -> Server.lessons_owed B = 5 ->
  Server.lessons_owed C = 3 -> Server.lessons_owed D = 1 ->
  Server.sortByOwed [A; B; C; D] = [A; B; C; D]
  /\ sublist (Server.recommend 2 capacity existing [A; B; C; D])
       (map Server.toMember [A; B; C; D])
  /\ (admitted capacity existing (Server.targetSubGroup existing) A = true ->
      admitted capacity (existing ++ [A])
        (lockAfterFirst (Server.targetSubGroup existing) A) B = true ->
      Server.recommend 2 capacity existing [A; B; C; D]
      = [Server.toMember A; Server.toMember B])
  /\ (forall candidates,
        Sorted owesAtLeast (Server.sortByOwed candidates)
        /\ Server.sortByOwed candidates ≡ₚ candidates
        /\ forall k, owing k (Server.sortByOwed candidates) = owing k candidates).
Proof.
  intros HA HB HC HD.
  cut (Server.sortByOwed [A; B; C; D] = [A; B; C; D]
       /\ sublist (Server.recommend 2 capacity existing [A; B; C; D])
            (map Server.toMember [A; B; C; D])
       /\ (admitted capacity existing (Server.targetSubGroup existing) A = true ->
           admitted capacity (existing ++ [A])
             (lockAfterFirst (Server.targetSubGroup existing) A) B = true ->
           Server.recommend 2 capacity existing [A; B; C; D]
           = [Server.toMember A; Server.toMember B])).
  { intros (H1 & H2 & H3). repeat split; try assumption.
    - apply sortByOwed_sorted.
    - apply sortByOwed_perm.
    - intros k. apply sortByOwed_stable. }
  assert (Hsort : Server.sortByOwed [A; B; C; D] = [A; B; C; D]).
  { unfold Server.sortByOwed. cbn [fold_right Server.insertByOwed].
    rewrite HC, HD. cbn [Z.ltb Z.compare Pos.compare Pos.compare_cont Server.insertByOwed].
    rewrite HB, HC. cbn [Z.ltb Z.compare Pos.compare Pos.compare_cont Server.insertByOwed].
    rewrite HA, HB. reflexivity. }
  split; [exact Hsort|]. split.
  - rewrite <- Hsort at 2. apply recommend_sublist.
  - unfold admitted. intros HadmA HadmB.
    apply andb_true_iff in HadmA as [HgateA HcheckA].
    apply andb_true_iff in HadmB as [HgateB HcheckB].
    apply negb_true_iff in HgateA, HgateB.
    unfold Server.recommend. rewrite Hsort.
    cbn [Server.greedy length Z.of_nat Z.leb Z.compare].
    rewrite HgateA, HcheckA. cbn [app length Nat.eqb].
    change (match Server.targetSubGroup existing, Server.subGroup A with
            | None, Some g => Some g
            | _, _ => Server.targetSubGroup existing
            end) with (lockAfterFirst (Server.targetSubGroup existing) A).
    cbn [Server.greedy length Z.of_nat Pos.of_succ_nat Z.leb Z.compare Pos.compare
         Pos.compare_cont].
    rewrite HgateB, HcheckB. cbn [app length]. 
    destruct (lockAfterFirst _ _), (Server.subGroup B); reflexivity.
Qed.

Lemma ranking_five_five_three_one_witness :
  let A := detailsOf 1 3 5 None in
  let B := detailsOf 2 3 5 None in
  let C := detailsOf 3 3 3 None in
  let D := detailsOf 4 3 1 None in
  admitted 3 [] None A = true
  /\ admitted 3 [A] None B = true
  /\ Server.recommend 2 3 [] [A; B; C; D] = [Server.toMember A; Server.toMember B].
Proof.
  intros A B C D.
  split; [vm_compute; reflexivity|]. split; [vm_compute; reflexivity|].
  apply (proj1 (proj2 (proj2 (ranking_five_five_three_one A B C D [] 3
                                eq_refl eq_refl eq_refl eq_refl))));
    vm_compute; reflexivity.
Defined.

(** C4 as stated fails: two solo candidates owing 5 each, an empty slot
    with two places; only the first is recommended. *)
Lemma ranking_counterexample :
  let A := detailsOf 1 1 5 None in
  let B := detailsOf 2 1 5 None in
  let C := detailsOf 3 1 3 None in
  let D := detailsOf 4 1 1 None in
  Server.recommend 2 2 [] [A; B; C; D] = [Server.toMember A]
  /\ Server.recommend 2 2 [] [A; B; C; D] <> [Server.toMember A; Server.toMember B].
Proof.
  intros A B C D.
  assert (H : Server.recommend 2 2 [] [A; B; C; D] = [Server.toMember A])
    by (vm_compute; reflexivity).
  split; [exact H|]. rewrite H. discriminate.
Qed.

(** ** The block model (C5, C8) *)

Section Blocks.

Lemma server_blockLoop_existsb (s : Server.StudentDetails) (date : string) (coach : Z)
    (blocks : list DailyBlock) :
  Server.blockLoop s date coach blocks
  = existsb (fun b => String.eqb (block_date b) date && Server.blockApplies s coach b) blocks.
Proof.
  induction blocks as [|b blocks IH]; cbn [Server.blockLoop existsb]; [reflexivity|].
  destruct (String.eqb (block_date b) date); cbn [negb andb orb]; [|exact IH].
  destruct (Server.blockApplies s coach b); [reflexivity|exact IH].
Qed.

Lemma client_blockLoop_existsb (s : Client.Student) (date : string) (coach : Z)
    (blocks : list DailyBlock) :
  Client.blockLoop s date coach blocks
  = existsb (fun b => String.eqb (block_date b) date && Client.blockApplies s coach b) blocks.
Proof.
  induction blocks as [|b blocks IH]; cbn [Client.blockLoop existsb]; [reflexivity|].
  destruct (String.eqb (block_date b) date); cbn [negb andb orb]; [|exact IH].
  destruct (Client.blockApplies s coach b); [reflexivity|exact IH].
Qed.

Lemma truthyStr_Some (f : field string) (s : string) :
  truthyStr f = Some s <-> f = Val s /\ s <> "".
Proof.
  unfold truthyStr. destruct f as [| |a]; try (split; [discriminate|intros [[=] _]]).
  destruct (String.eqb_spec a "") as [->|Hne].
  - split; [discriminate|intros [[= <-] H]; congruence].
  - split; [intros [= <-]; split; [reflexivity|exact Hne]|intros [[= <-] _]; reflexivity].
Qed.

Lemma truthyStr_Val (s : string) : s <> "" -> truthyStr (Val s) = Some s.
Proof. intros H. apply truthyStr_Some. split; [reflexivity|exact H]. Qed.

Lemma prefix_nonempty (p s : string) :
  String.prefix p s = true -> p <> "" -> s <> "".
Proof. destruct p, s; cbn; congruence. Qed.

(** The year-level case of the [switch], in both runtimes. *)
Lemma yearLevel_applies (className : field string) (ident : option string) :
  match ident, truthyStr className with
  | Some i, Some cls => negb (String.eqb i "") && startsWith cls i
  | _, _ => false
  end = true
  <-> exists i cls, ident = Some i /\ i <> "" /\ className = Val cls
                    /\ String.prefix i cls = true.
Proof.
  destruct ident as [i|]; [|split; [discriminate|intros (? & ? & [=] & _)]].
  destruct (truthyStr className) as [cls|] eqn:Hcls.
  - apply truthyStr_Some in Hcls as [-> Hne]. unfold startsWith.
    destruct (String.eqb_spec i "") as [->|Hi]; cbn [negb andb].
    + split; [discriminate|intros (? & ? & [= <-] & H & _); congruence].
    + split.
      * intros Hp. exists i, cls. repeat split; assumption.
      * intros (? & ? & [= <-] & _ & [= <-] & Hp). exact Hp.
  - split; [discriminate|].
    intros (i' & cls & [= <-] & Hi & -> & Hp).
    assert (Hc : truthyStr (Val cls) = Some cls).
    { apply truthyStr_Some. split; [reflexivity|]. eapply prefix_nonempty; eassumption. }
    congruence.
Qed.

Lemma server_yearLevel_block (s : Server.StudentDetails) (coach : Z) (b : DailyBlock) :
  block_type b = "Year Level Absence" ->
  Server.blockApplies s coach b = true
  <-> exists i cls, identifier b = Some i /\ i <> "" /\ Server.class_name s = Val cls
                    /\ String.prefix i cls = true.
Proof.
  intros Hty. unfold Server.blockApplies. rewrite Hty.
  change (String.eqb "Year Level Absence" "Public Holiday") with false.
  change (String.eqb "Year Level Absence" "Year Level Absence") with true.
  cbv iota. apply yearLevel_applies.
Qed.

Lemma client_yearLevel_block (s : Client.Student) (coach : Z) (b : DailyBlock) :
  block_type b = "Year Level Absence" ->
  Client.blockApplies s coach b = true
  <-> exists i cls, identifier b = Some i /\ i <> "" /\ Client.class_name s = Val cls
                    /\ String.prefix i cls = true.
Proof.
  intros Hty. unfold Client.blockApplies. rewrite Hty.
  change (String.eqb "Year Level Absence" "Public Holiday") with false.
  change (String.eqb "Year Level Absence" "Year Level Absence") with true.
  cbv iota. apply yearLevel_applies.
Qed.

(** Blocked by a list of year-level blocks: one of them matches. *)
Lemma yearLevel_blocked (applies : DailyBlock -> bool) (className date : field string)
    (blocks : list DailyBlock) :
  (forall b, In b blocks ->
     applies b = true
     <-> exists i cls, identifier b = Some i /\ i <> "" /\ className = Val cls
                       /\ String.prefix i cls = true) ->
  match truthyStr date with
  | Some d => existsb (fun b => String.eqb (block_date b) d && applies b) blocks
  | None => false
  end = true
  <-> exists b, In b blocks /\ yearLevelMatch className date b.
Proof.
  intros Happ. destruct (truthyStr date) as [d|] eqn:Hd.
  - apply truthyStr_Some in Hd as [-> Hne]. rewrite existsb_exists. split.
    + intros (b & Hin & Hb). apply andb_true_iff in Hb as [Hdate Hb].
      apply String.eqb_eq in Hdate. apply (Happ b Hin) in Hb as (i & cls & Hi & Hie & Hc & Hp).
      exists b. split; [exact Hin|]. exists d, i, cls. repeat split; assumption.
    + intros (b & Hin & d' & i & cls & [= <-] & _ & Hdate & Hi & Hie & Hc & Hp).
      exists b. split; [exact Hin|]. apply andb_true_iff. split.
      * apply String.eqb_eq. exact Hdate.
      * apply (Happ b Hin). exists i, cls. repeat split; assumption.
  - split; [discriminate|].
    intros (b & _ & d & ? & ? & -> & Hne & _).
    assert (truthyStr (Val d) = Some d) by (apply truthyStr_Some; split; [reflexivity|exact Hne]).
    congruence.
Qed.

End Blocks.

Lemma server_yearLevel_sufficient (details : Server.StudentDetails) (date : field string)
    (coachId : Z) (blocks : list DailyBlock) (b : DailyBlock) :
  In b blocks ->
  block_type b = "Year Level Absence" ->
  yearLevelMatch (Server.class_name details) date b ->
  Server.isStudentBlocked (Some details) date coachId (Some blocks) = true.
Proof.
  intros Hin Hty (d & i & cls & -> & Hd & Hdate & Hi & Hie & Hc & Hp).
  unfold Server.isStudentBlocked. rewrite (truthyStr_Val _ Hd), server_blockLoop_existsb.
  apply existsb_exists. exists b. split; [exact Hin|]. apply andb_true_iff. split.
  - apply String.eqb_eq. exact Hdate.
  - apply server_yearLevel_block; [exact Hty|]. exists i, cls. repeat split; assumption.
Qed.

Lemma client_yearLevel_sufficient (student : Client.Student) (date : field string)
    (coachId : Z) (blocks : list DailyBlock) (b : DailyBlock) :
  In b blocks ->
  block_type b = "Year Level Absence" ->
  yearLevelMatch (Client.class_name student) date b ->
  Client.isStudentBlocked (Some student) date coachId (Some blocks) = true.
Proof.
  intros Hin Hty (d & i & cls & -> & Hd & Hdate & Hi & Hie & Hc & Hp).
  unfold Client.isStudentBlocked. rewrite (truthyStr_Val _ Hd), client_blockLoop_existsb.
  apply existsb_exists. exists b. split; [exact Hin|]. apply andb_true_iff. split.
  - apply String.eqb_eq. exact Hdate.
  - apply client_yearLevel_block; [exact Hty|]. exists i, cls. repeat split; assumption.
Qed.

(** C5, as the code has it: a year-level block blocks a student, whatever
    other blocks there are, when the target date is present and not
    empty and is the block's, and the block's identifier is neither null
    nor empty and begins the student's class name; among year-level
    blocks a student is blocked in no other case. "Year 7" stops
    "Year 7A" and lets "Year 8A" through. *)
Theorem year_level_absence_blocks
    (details : Server.StudentDetails) (student : Client.Student)
    (date : field string) (coachId : Z) (blocks : list DailyBlock) :
  Forall (fun b => block_type b = "Year Level Absence") blocks ->
  (Server.isStudentBlocked (Some details) date coachId (Some blocks) = true
   <-> exists b, In b blocks /\ yearLevelMatch (Server.class_name details) date b)
  /\ (Client.isStudentBlocked (Some student) date coachId (Some blocks) = true
      <-> exists b, In b blocks /\ yearLevelMatch (Client.class_name student) date b)
  /\ (forall allBlocks b,
        In b allBlocks ->
        block_type b = "Year Level Absence" ->
        (yearLevelMatch (Server.class_name details) date b ->
         Server.isStudentBlocked (Some details) date coachId (Some allBlocks) = true)
        /\ (yearLevelMatch (Client.class_name student) date b ->
            Client.isStudentBlocked (Some student) date coachId (Some allBlocks) = true))
  /\ (forall d,
        d <> "" ->
        let year7 := [blockOn d "Year Level Absence" (Some "Year 7")] in
        Server.isStudentBlocked (Some (pupilDetails (Val "Year 7A"))) (Val d) coachId
          (Some year7) = true
        /\ Server.isStudentBlocked (Some (pupilDetails (Val "Year 8A"))) (Val d) coachId
             (Some year7) = false
        /\ Client.isStudentBlocked (Some (pupil (Val "Year 7A"))) (Val d) coachId
             (Some year7) = true
        /\ Client.isStudentBlocked (Some (pupil (Val "Year 8A"))) (Val d) coachId
             (Some year7) = false).
Proof.
  intros Hall. rewrite List.Forall_forall in Hall. split; [|split; [|split]].
  - unfold Server.isStudentBlocked.
    rewrite <- (yearLevel_blocked (Server.blockApplies details coachId)
                  (Server.class_name details) date blocks).
    + destruct (truthyStr date); [rewrite server_blockLoop_existsb|]; reflexivity.
    + intros b Hin. apply server_yearLevel_block, Hall, Hin.
  - unfold Client.isStudentBlocked.
    rewrite <- (yearLevel_blocked (Client.blockApplies student coachId)
                  (Client.class_name student) date blocks).
    + destruct (truthyStr date); [rewrite client_blockLoop_existsb|]; reflexivity.
    + intros b Hin. apply client_yearLevel_block, Hall, Hin.
  - intros allBlocks b Hin Hty. split; intros Hmatch.
    + eapply server_yearLevel_sufficient; eassumption.
    + eapply client_yearLevel_sufficient; eassumption.
  - intros d Hd year7.
    assert (Ht : truthyStr (Val d) = Some d)
      by (apply truthyStr_Some; split; [reflexivity|exact Hd]).
    unfold Server.isStudentBlocked, Client.isStudentBlocked. rewrite Ht.
    unfold year7. cbn [Server.blockLoop Client.blockLoop blockOn block_date].
    rewrite String.eqb_refl. cbn [negb].
    repeat split; reflexivity.
Qed.

Lemma year_level_absence_blocks_witness :
  let blocks := [blockOn "2025-03-03" "Year Level Absence" (Some "Year 7")] in
  Forall (fun b => block_type b = "Year Level Absence") blocks
  /\ (Server.isStudentBlocked (Some (pupilDetails (Val "Year 7A"))) (Val "2025-03-03") 7
        (Some blocks) = true
      <-> exists b, In b blocks /\ yearLevelMatch (Val "Year 7A") (Val "2025-03-03") b).
Proof.
  intros blocks.
  assert (Hall : Forall (fun b => block_type b = "Year Level Absence") blocks)
    by (repeat constructor).
  split; [exact Hall|].
  exact (proj1 (year_level_absence_blocks (pupilDetails (Val "Year 7A"))
                  (pupil (Val "Year 7A")) (Val "2025-03-03") 7 blocks Hall)).
Defined.

(** C5 as stated fails: an identifier that is the empty string is not
    null and begins every class name, yet the block stops nobody. *)
Lemma year_level_counterexample :
  let b := blockOn "2025-03-03" "Year Level Absence" (Some "") in
  block_date b = "2025-03-03"
  /\ identifier b <> None
  /\ startsWith "Year 7A" "" = true
  /\ Server.isStudentBlocked (Some (pupilDetails (Val "Year 7A"))) (Val "2025-03-03") 7
       (Some [b]) = false
  /\ Client.isStudentBlocked (Some (pupil (Val "Year 7A"))) (Val "2025-03-03") 7
       (Some [b]) = false.
Proof. repeat split; try discriminate; vm_compute; reflexivity. Qed.

(** ** A slot without a date (C8) *)

Lemma server_not_blocked_without_date (details : option Server.StudentDetails)
    (date : field string) (coachId : Z) (blocks : option (list DailyBlock)) :
  truthyStr date = None ->
  Server.isStudentBlocked details date coachId blocks = false.
Proof.
  intros Hd. unfold Server.isStudentBlocked. rewrite Hd. destruct details; reflexivity.
Qed.

Lemma client_not_blocked_without_date (details : option Client.Student)
    (date : field string) (coachId : Z) (blocks : option (list DailyBlock)) :
  truthyStr date = None ->
  Client.isStudentBlocked details date coachId blocks = false.
Proof.
  intros Hd. unfold Client.isStudentBlocked. rewrite Hd. destruct details; reflexivity.
Qed.

Lemma omap_ext_in {A B : Type} (f g : A -> option B) (l : list A) :
  (forall x, In x l -> f x = g x) -> omap f l = omap g l.
Proof.
  induction l as [|x l IH]; intros H; [reflexivity|].
  cbn [omap list_omap]. rewrite (H x (or_introl eq_refl)).
  rewrite IH; [reflexivity|]. intros y Hy. apply H. right. exact Hy.
Qed.

(** Without a date the blocks play no part in the candidates of a slot. *)
Lemma candidates_without_date (allStudentsData : list Roster.Student)
    (allBlocks : list DailyBlock) (slot : Server.SlotInfo) :
  truthyStr (Server.slot_date slot) = None ->
  Server.candidatesForSlot allStudentsData allBlocks slot
  = Server.candidatesForSlot allStudentsData [] slot.
Proof.
  intros Hd. unfold Server.candidatesForSlot. apply omap_ext_in. intros cand _.
  unfold Server.candidateFilter. destruct cand as [cand|]; [|reflexivity].
  rewrite !(server_not_blocked_without_date _ _ _ _ Hd). reflexivity.
Qed.

(** C8, as the code has it: when the date of a slot is absent
    ([undefined], [null] or empty) nothing is raised. Both versions of
    [isStudentBlocked] answer "not blocked" for every student and block
    list, so the edge function recommends as if there were no blocks; the
    browser's [findSingleSlotSuggestions] returns [null] without calling
    the backend. *)
Theorem missing_date_skips_block_checks :
  Forall
    (fun date =>
       (forall details coachId blocks,
          Server.isStudentBlocked details date coachId blocks = false)
       /\ (forall details coachId blocks,
             Client.isStudentBlocked details date coachId blocks = false)
       /\ (forall allStudentsData allBlocks slot,
             Server.processSlot allStudentsData allBlocks (withDate slot date)
             = Server.processSlot allStudentsData [] (withDate slot date))
       /\ (forall (Data : Type)
                  (rpc : option (Client.RpcRequest -> Client.RpcResponse Data))
                  isTestMode scheduleId currentStudentIds targetDay,
             Client.findSingleSlotSuggestions rpc isTestMode scheduleId currentStudentIds
               targetDay date = (None, [])))
    absentDates.
Proof.
  assert (H : forall date, truthyStr date = None ->
    (forall details coachId blocks,
        Server.isStudentBlocked details date coachId blocks = false)
    /\ (forall details coachId blocks,
          Client.isStudentBlocked details date coachId blocks = false)
    /\ (forall allStudentsData allBlocks slot,
          Server.processSlot allStudentsData allBlocks (withDate slot date)
          = Server.processSlot allStudentsData [] (withDate slot date))
    /\ (forall (Data : Type)
               (rpc : option (Client.RpcRequest -> Client.RpcResponse Data))
               isTestMode scheduleId currentStudentIds targetDay,
          Client.findSingleSlotSuggestions rpc isTestMode scheduleId currentStudentIds
            targetDay date = (None, []))).
  { intros date Hd. split; [|split; [|split]].
    - intros. apply server_not_blocked_without_date, Hd.
    - intros. apply client_not_blocked_without_date, Hd.
    - intros all blocks slot. unfold Server.processSlot.
      rewrite candidates_without_date by exact Hd. reflexivity.
    - intros Data rpc test sid ids day. unfold Client.findSingleSlotSuggestions.
      rewrite Hd. destruct rpc; reflexivity. }
  repeat constructor; apply H; reflexivity.
Qed.

(** C8 as stated fails: asked without a date, [isStudentBlocked] returns
    "not blocked" instead of raising, and a slot without a date still
    gets a recommendation on a public holiday; with the date it gets
    none. *)
Lemma missing_date_counterexample :
  Server.isStudentBlocked (Some (pupilDetails (Val "Year 7A"))) Undefined 7 (Some holiday)
  = false
  /\ Client.isStudentBlocked (Some (pupil (Val "Year 7A"))) Null 7 (Some holiday) = false
  /\ exists res,
       Server.processSlot holidayRoster holiday (emptySlot Undefined) = Some res
       /\ Server.recommended_group res <> []
       /\ Server.recommended_group <$>
            Server.processSlot holidayRoster holiday (emptySlot (Val "2025-03-03"))
          = Some [].
Proof.
  split; [reflexivity|]. split; [reflexivity|].
  eexists. split; [vm_compute; reflexivity|].
  split; [discriminate|vm_compute; reflexivity].
Qed.

(** ** Invalid inputs to the pairing checker (C9) *)

Section InvalidInputs.

Lemma server_invalid_candidate (candidate : option Server.StudentDetails)
    (occupants : option (list (option Server.StudentDetails))) (capacity : JsArg) :
  invalidServerCandidate candidate ->
  Server.checkPairingRuleViolation candidate occupants capacity
  = {| Server.violation := true; Server.reason := "Invalid candidate data." |}.
Proof.
  unfold invalidServerCandidate, Server.checkPairingRuleViolation.
  destruct candidate as [c|]; [|reflexivity]. intros ->. reflexivity.
Qed.

Lemma server_invalid_occupants (candidate : option Server.StudentDetails)
    (capacity : JsArg) :
  ~ invalidServerCandidate candidate ->
  Server.checkPairingRuleViolation candidate None capacity
  = {| Server.violation := true; Server.reason := "Invalid current occupants data." |}.
Proof.
  unfold invalidServerCandidate, Server.checkPairingRuleViolation.
  destruct candidate as [c|]; [|intros H; destruct (H I)].
  destruct (isNumber (Server.groupOf c)); [reflexivity|intros H; destruct (H eq_refl)].
Qed.

Lemma server_invalid_capacity (candidate : option Server.StudentDetails)
    (occupants : list (option Server.StudentDetails)) (capacity : JsArg) :
  ~ invalidServerCandidate candidate ->
  invalidCapacity capacity ->
  capacity <> NaN ->
  Server.checkPairingRuleViolation candidate (Some occupants) capacity
  = {| Server.violation := true; Server.reason := "Invalid slot capacity." |}.
Proof.
  unfold invalidServerCandidate, Server.checkPairingRuleViolation.
  destruct candidate as [c|]; [|intros H; destruct (H I)].
  destruct (isNumber (Server.groupOf c)); [|intros H; destruct (H eq_refl)].
  intros _ Hcap Hnan. cbn [negb].
  destruct capacity as [|[| | |n|]]; try reflexivity; [destruct (Hnan eq_refl)|].
  cbn in Hcap. cbn [isNumberArg isNumber lessThan negb orb].
  replace (n <? 1) with true by (symmetry; apply Z.ltb_lt; exact Hcap).
  reflexivity.
Qed.

(** The reasons the edge function gives for a valid input are none of the
    three. *)
Lemma server_valid_input (c : Server.StudentDetails)
    (occupants : list (option Server.StudentDetails)) (capacity : JsArg) :
  isNumber (Server.groupOf c) = true ->
  ~ (invalidCapacity capacity /\ capacity <> NaN) ->
  ~ In (Server.reason
          (Server.checkPairingRuleViolation (Some c) (Some occupants) capacity))
       serverReasons.
Proof.
  intros Hnum Hcap. unfold Server.checkPairingRuleViolation, serverReasons.
  rewrite Hnum. cbn [negb].
  assert (Hvalid : negb (isNumberArg capacity) || lessThan capacity 1 = false).
  { destruct capacity as [|[| | |n|]]; try reflexivity;
      try (destruct Hcap; split; [exact I|discriminate]).
    cbn [isNumberArg isNumber lessThan negb orb].
    apply Z.ltb_ge. destruct (Z.lt_ge_cases n 1) as [Hlt|Hge]; [|exact Hge].
    destruct Hcap. split; [exact Hlt|discriminate]. }
  rewrite Hvalid.
  repeat match goal with
         | |- context [let '(_, _) := ?p in _] => destruct p
         | |- context [if ?b then _ else _] => destruct b
         end;
    cbn; intros [H|[H|[H|[]]]]; discriminate H.
Qed.

Lemma server_nan_capacity (c : Server.StudentDetails)
    (occupants : list (option Server.StudentDetails)) :
  Server.checkPairingRuleViolation (Some c) (Some occupants) NaN
  = Server.checkPairingRuleViolation (Some c) (Some occupants)
      (VNum (Z.of_nat (length occupants) + 1)).
Proof.
  unfold Server.checkPairingRuleViolation.
  destruct (negb (isNumber (Server.groupOf c))); [reflexivity|].
  cbn [isNumberArg isNumber lessThan negb orb].
  replace (Z.of_nat (length occupants) + 1 <? 1) with false
    by (symmetry; apply Z.ltb_ge; lia).
  rewrite length_app. cbn [length].
  replace (Z.of_nat (length occupants) + 1 <? Z.of_nat (length occupants + 1)) with false
    by (symmetry; apply Z.ltb_ge; lia).
  reflexivity.
Qed.

Lemma client_invalid_candidate (candidate : option Client.Student)
    (occupants : Client.arrayArg (option Client.Student)) (capacity : JsArg) :
  invalidClientCandidate candidate ->
  Client.checkPairingRuleViolation candidate occupants capacity
  = {| Client.violation := true; Client.reason := Some "Invalid new student data." |}.
Proof.
  unfold invalidClientCandidate, Client.checkPairingRuleViolation.
  destruct candidate as [c|]; [|reflexivity].
  destruct (Client.groupOf c); try reflexivity. discriminate.
Qed.

Lemma client_invalid_occupants (candidate : option Client.Student) (capacity : JsArg) :
  ~ invalidClientCandidate candidate ->
  Client.checkPairingRuleViolation candidate Client.NotArray capacity
  = {| Client.violation := true;
       Client.reason := Some "Invalid current occupants data." |}.
Proof.
  unfold invalidClientCandidate, Client.checkPairingRuleViolation.
  destruct candidate as [c|]; [|intros H; destruct (H I)].
  destruct (Client.groupOf c); try (intros H; destruct (H eq_refl)). reflexivity.
Qed.

Lemma client_invalid_capacity (candidate : option Client.Student)
    (occupants : Client.arrayArg (option Client.Student)) (capacity : JsArg) :
  ~ invalidClientCandidate candidate ->
  occupants <> Client.NotArray ->
  invalidCapacity capacity ->
  capacity <> NaN ->
  Client.checkPairingRuleViolation candidate occupants capacity
  = {| Client.violation := true; Client.reason := Some "Invalid slot capacity." |}.
Proof.
  unfold invalidClientCandidate, Client.checkPairingRuleViolation.
  destruct candidate as [c|]; [|intros H; destruct (H I)].
  destruct (Client.groupOf c); try (intros H; destruct (H eq_refl)).
  intros _ Hocc Hcap Hnan.
  assert (Hrefused : negb (isNumberArg capacity) || lessThan capacity 1 = true).
  { destruct capacity as [|[| | |k|]]; try reflexivity; [destruct (Hnan eq_refl)|].
    cbn in Hcap. cbn [isNumberArg isNumber lessThan negb orb].
    apply Z.ltb_lt; exact Hcap. }
  destruct occupants as [| |items]; [|destruct (Hocc eq_refl)|];
    rewrite Hrefused; reflexivity.
Qed.

(** The messages of the group and sub-group rules begin with "Cannot". *)
Lemma groupTypeViolation_reason (g : Z) (occupants : list (option Client.Student))
    (why : string) :
  Client.groupTypeViolation g occupants = Some why -> ~ In why clientReasons.
Proof.
  unfold Client.groupTypeViolation, clientReasons.
  repeat match goal with
         | |- context [if ?b then _ else _] => destruct b
         end;
    intros [= <-]; cbn; intros [H|[H|[H|[]]]]; discriminate H.
Qed.

Lemma subGroupViolation_reason (s : Client.Student)
    (occupants : list (option Client.Student)) (why : string) :
  Client.subGroupViolation s occupants = Some why -> ~ In why clientReasons.
Proof.
  unfold Client.subGroupViolation, clientReasons.
  destruct (omap Client.occupantSubGroup occupants) as [|established rest];
    [discriminate|].
  destruct (truthyStr (Client.sub_group s)) as [own|]; [|discriminate].
  destruct (negb (String.eqb own established)); [|discriminate].
  intros [= <-]; cbn; intros [H|[H|[H|[]]]]; discriminate H.
Qed.

(** The reasons the browser gives for a valid input are none of the
    three. *)
Lemma client_valid_input (c : Client.Student)
    (occupants : Client.arrayArg (option Client.Student)) (capacity : JsArg)
    (why : string) :
  isNumber (Client.groupOf c) = true ->
  occupants <> Client.NotArray ->
  ~ (invalidCapacity capacity /\ capacity <> NaN) ->
  Client.reason (Client.checkPairingRuleViolation (Some c) occupants capacity) = Some why ->
  ~ In why clientReasons.
Proof.
  intros Hnum Hocc Hcap. unfold Client.checkPairingRuleViolation.
  destruct (Client.groupOf c) as [| | |g|]; try discriminate Hnum.
  assert (Hvalid : negb (isNumberArg capacity) || lessThan capacity 1 = false).
  { destruct capacity as [|[| | |n|]]; try reflexivity;
      try (destruct Hcap; split; [exact I|discriminate]).
    cbn [isNumberArg isNumber lessThan negb orb].
    apply Z.ltb_ge. destruct (Z.lt_ge_cases n 1) as [Hlt|Hge]; [|exact Hge].
    destruct Hcap. split; [exact Hlt|discriminate]. }
  assert (Hrules : forall items,
            Client.reason
              (if negb (isNumberArg capacity) || lessThan capacity 1
               then {| Client.violation := true;
                       Client.reason := Some "Invalid slot capacity." |}
               else if lessThan capacity (Z.of_nat (S (length items)))
               then {| Client.violation := true;
                       Client.reason := Some ("Adding student exceeds slot capacity ("
                                              +:+ argToString capacity +:+ ").") |}
               else
                 match Client.groupTypeViolation g items with
                 | Some why => {| Client.violation := true; Client.reason := Some why |}
                 | None =>
                     match Client.subGroupViolation c items with
                     | Some why => {| Client.violation := true; Client.reason := Some why |}
                     | None => {| Client.violation := false; Client.reason := None |}
                     end
                 end) = Some why ->
            ~ In why clientReasons).
  { intros items. rewrite Hvalid.
    destruct (lessThan capacity (Z.of_nat (S (length items)))).
    { intros [= <-]; cbn; intros [H|[H|[H|[]]]]; discriminate H. }
    destruct (Client.groupTypeViolation g items) as [r|] eqn:Hg.
    { intros [= <-]. exact (groupTypeViolation_reason _ _ _ Hg). }
    destruct (Client.subGroupViolation c items) as [r|] eqn:Hs.
    { intros [= <-]. exact (subGroupViolation_reason _ _ _ Hs). }
    discriminate. }
  destruct occupants as [| |items]; [apply Hrules|destruct (Hocc eq_refl)|apply Hrules].
Qed.

Lemma client_nan_capacity (c : Client.Student)
    (occupants : Client.arrayArg (option Client.Student)) :
  Client.checkPairingRuleViolation (Some c) occupants NaN
  = Client.checkPairingRuleViolation (Some c) occupants
      (VNum (Z.of_nat (length (occupantsGiven occupants)) + 1)).
Proof.
  unfold Client.checkPairingRuleViolation.
  destruct (Client.groupOf c); try reflexivity.
  destruct occupants as [| |items]; cbn [occupantsGiven length];
    cbn [isNumberArg isNumber lessThan negb orb]; try reflexivity.
  replace (Z.of_nat (length items) + 1 <? 1) with false
    by (symmetry; apply Z.ltb_ge; lia).
  replace (Z.of_nat (length items) + 1 <? Z.of_nat (S (length items))) with false
    by (symmetry; apply Z.ltb_ge; lia).
  reflexivity.
Qed.

End InvalidInputs.

(** C9 as stated fails: [NaN] is not a number of at least 1, yet its
    [typeof] is ['number'] and [NaN < 1] is false, so both checkers let
    it pass and accept a group student into an empty slot. *)
Lemma nan_capacity_counterexample :
  invalidServerInput (Some (detailsOf 1 3 1 None)) (Some []) NaN
  /\ Server.checkPairingRuleViolation (Some (detailsOf 1 3 1 None)) (Some []) NaN
     = {| Server.violation := false; Server.reason := "" |}
  /\ invalidClientInput (Some (studentObject (mondayRow 1 3 1 Null))) (Client.Array []) NaN
  /\ Client.checkPairingRuleViolation (Some (studentObject (mondayRow 1 3 1 Null)))
       (Client.Array []) NaN
     = {| Client.violation := false; Client.reason := None |}.
Proof.
  split; [right; right; exact I|]. split; [reflexivity|].
  split; [right; right; exact I|]. reflexivity.
Qed.

(** C9, corrected: both versions of [checkPairingRuleViolation] are total
    functions, and on an invalid input other than a [NaN] capacity they
    return a violation with the reason of the first check that fails: the
    candidate is missing or its [groupOf] is not a number; else the
    occupants are not an array; else the capacity is not a number or is
    below 1. No other input gets one of these three reasons. A [NaN]
    capacity is not refused: the verdict is the one for a capacity that
    just holds the occupants and the candidate. *)
Theorem invalid_inputs_are_violations
    (candidate : option Server.StudentDetails)
    (occupants : option (list (option Server.StudentDetails)))
    (newStudent : option Client.Student)
    (currentOccupants : Client.arrayArg (option Client.Student))
    (capacity slotCapacity : JsArg) :
  let verdict := Server.checkPairingRuleViolation candidate occupants capacity in
  let clientVerdict :=
    Client.checkPairingRuleViolation newStudent currentOccupants slotCapacity in
  (invalidServerCandidate candidate ->
   verdict = {| Server.violation := true; Server.reason := "Invalid candidate data." |})
  /\ (~ invalidServerCandidate candidate -> occupants = None ->
      verdict = {| Server.violation := true;
                   Server.reason := "Invalid current occupants data." |})
  /\ (~ invalidServerCandidate candidate -> occupants <> None ->
      invalidCapacity capacity -> capacity <> NaN ->
      verdict = {| Server.violation := true; Server.reason := "Invalid slot capacity." |})
  /\ (In (Server.reason verdict) serverReasons ->
      invalidServerInput candidate occupants capacity
      /\ (capacity = NaN -> invalidServerCandidate candidate \/ occupants = None))
  /\ (forall items, ~ invalidServerCandidate candidate -> occupants = Some items ->
      capacity = NaN ->
      verdict = Server.checkPairingRuleViolation candidate occupants
                  (VNum (Z.of_nat (length items) + 1)))
  /\ (invalidClientCandidate newStudent ->
      clientVerdict = {| Client.violation := true;
                         Client.reason := Some "Invalid new student data." |})
  /\ (~ invalidClientCandidate newStudent -> currentOccupants = Client.NotArray ->
      clientVerdict = {| Client.violation := true;
                         Client.reason := Some "Invalid current occupants data." |})
  /\ (~ invalidClientCandidate newStudent -> currentOccupants <> Client.NotArray ->
      invalidCapacity slotCapacity -> slotCapacity <> NaN ->
      clientVerdict = {| Client.violation := true;
                         Client.reason := Some "Invalid slot capacity." |})
  /\ (forall why, Client.reason clientVerdict = Some why -> In why clientReasons ->
      invalidClientInput newStudent currentOccupants slotCapacity
      /\ (slotCapacity = NaN ->
          invalidClientCandidate newStudent \/ currentOccupants = Client.NotArray))
  /\ (~ invalidClientCandidate newStudent -> currentOccupants <> Client.NotArray ->
      slotCapacity = NaN ->
      clientVerdict = Client.checkPairingRuleViolation newStudent currentOccupants
                        (VNum (Z.of_nat (length (occupantsGiven currentOccupants)) + 1))).
Proof.
  cbv zeta.
  split; [apply server_invalid_candidate|].
  split; [intros Hc ->; apply server_invalid_occupants; exact Hc|].
  split.
  { intros Hc Ho. destruct occupants as [items|]; [|destruct (Ho eq_refl)].
    apply server_invalid_capacity; exact Hc. }
  split.
  { intros Hin.
    destruct candidate as [c|]; [|split; [left; exact I|intros _; left; exact I]].
    destruct (isNumber (Server.groupOf c)) eqn:Hnum;
      [|split; [left; exact Hnum|intros _; left; exact Hnum]].
    destruct occupants as [items|];
      [|split; [right; left; reflexivity|intros _; right; reflexivity]].
    assert (Hcap : invalidCapacity capacity /\ capacity <> NaN).
    { destruct capacity as [|[| | |n|]];
        try (split; [exact I|discriminate]).
      - destruct (server_valid_input c items NaN Hnum); [|exact Hin].
        intros [_ H]; destruct (H eq_refl).
      - destruct (Z.lt_ge_cases n 1) as [Hlt|Hge]; [split; [exact Hlt|discriminate]|].
        destruct (server_valid_input c items (VNum n) Hnum); [|exact Hin].
        intros [H _]; cbn in H; lia. }
    split; [right; right; exact (proj1 Hcap)|].
    intros Hnan. destruct (proj2 Hcap Hnan). }
  split.
  { intros items Hc -> ->.
    destruct candidate as [c|]; [|destruct (Hc I)].
    apply server_nan_capacity. }
  split; [apply client_invalid_candidate|].
  split; [intros Hc ->; apply client_invalid_occupants; exact Hc|].
  split; [apply client_invalid_capacity|].
  split.
  { intros why Hwhy Hin.
    destruct newStudent as [c|]; [|split; [left; exact I|intros _; left; exact I]].
    destruct (isNumber (Client.groupOf c)) eqn:Hnum;
      [|split; [left; exact Hnum|intros _; left; exact Hnum]].
    assert (Hocc : currentOccupants = Client.NotArray
                   \/ currentOccupants <> Client.NotArray)
      by (destruct currentOccupants; [right|left|right]; first [reflexivity|discriminate]).
    destruct Hocc as [Hocc|Hocc];
      [split; [right; left; exact Hocc|intros _; right; exact Hocc]|].
    assert (Hcap : invalidCapacity slotCapacity /\ slotCapacity <> NaN).
    { destruct slotCapacity as [|[| | |n|]];
        try (split; [exact I|discriminate]).
      - destruct (client_valid_input c currentOccupants NaN why Hnum Hocc); auto.
        intros [_ H]; destruct (H eq_refl).
      - destruct (Z.lt_ge_cases n 1) as [Hlt|Hge]; [split; [exact Hlt|discriminate]|].
        destruct (client_valid_input c currentOccupants (VNum n) why Hnum Hocc); auto.
        intros [H _]; cbn in H; lia. }
    split; [right; right; exact (proj1 Hcap)|].
    intros Hnan. destruct (proj2 Hcap Hnan). }
  intros Hc _ ->.
  destruct newStudent as [c|]; [|destruct (Hc I)].
  apply client_nan_capacity.
Qed.

Lemma invalid_inputs_are_violations_witness :
  (~ invalidServerCandidate (Some (detailsOf 1 3 1 None)))
  /\ invalidCapacity (VNum 0)
  /\ Server.checkPairingRuleViolation (Some (detailsOf 1 3 1 None)) (Some []) (VNum 0)
     = {| Server.violation := true; Server.reason := "Invalid slot capacity." |}
  /\ invalidClientCandidate (Some (Client.unknownStudent (VNum 9)))
  /\ Client.checkPairingRuleViolation (Some (Client.unknownStudent (VNum 9)))
       (Client.Array []) (VNum 3)
     = {| Client.violation := true; Client.reason := Some "Invalid new student data." |}.
Proof.
  assert (Hs : ~ invalidServerCandidate (Some (detailsOf 1 3 1 None)))
    by (cbn; discriminate).
  assert (Hcap : invalidCapacity (VNum 0)) by (cbn; lia).
  assert (Hc : invalidClientCandidate (Some (Client.unknownStudent (VNum 9))))
    by reflexivity.
  pose proof (invalid_inputs_are_violations (Some (detailsOf 1 3 1 None)) (Some [])
                (Some (Client.unknownStudent (VNum 9))) (Client.Array [])
                (VNum 0) (VNum 3)) as H.
  cbv zeta in H.
  destruct H as (_ & _ & Hserver & _ & _ & Hclient & _).
  split; [exact Hs|]. split; [exact Hcap|].
  split; [apply Hserver; [exact Hs|discriminate|exact Hcap|discriminate]|].
  split; [exact Hc|]. apply Hclient; exact Hc.
Defined.

(** ** The effect of a lookup on the roster (C10) *)

Section Lookup.

Local Ltac unchanged_fields := cbn; repeat split; first [reflexivity | assumption].

Lemma fillName_fields (s : Client.Student) :
  Client.Name (Client.fillName s)
  = match Client.Name s with
    | Undefined => match Client.name s with Undefined => Null | n => n end
    | n => n
    end
  /\ Client.id (Client.fillName s) = Client.id s
  /\ Client.name (Client.fillName s) = Client.name s
  /\ Client.groupOf (Client.fillName s) = Client.groupOf s
  /\ Client.sub_group (Client.fillName s) = Client.sub_group s
  /\ Client.class_name (Client.fillName s) = Client.class_name s
  /\ Client.availability_string (Client.fillName s) = Client.availability_string s
  /\ Client.availability (Client.fillName s) = Client.availability s
  /\ Client.is_active (Client.fillName s) = Client.is_active s
  /\ Client.lessons_owed (Client.fillName s) = Client.lessons_owed s.
Proof. unfold Client.fillName. destruct (Client.Name s) eqn:E; unchanged_fields. Qed.

Lemma fillGroupOf_fields (s : Client.Student) :
  Client.groupOf (Client.fillGroupOf s)
  = (if isNumber (Client.groupOf s) then Client.groupOf s else VNum 1)
  /\ Client.id (Client.fillGroupOf s) = Client.id s
  /\ Client.Name (Client.fillGroupOf s) = Client.Name s
  /\ Client.name (Client.fillGroupOf s) = Client.name s
  /\ Client.sub_group (Client.fillGroupOf s) = Client.sub_group s
  /\ Client.class_name (Client.fillGroupOf s) = Client.class_name s
  /\ Client.availability_string (Client.fillGroupOf s) = Client.availability_string s
  /\ Client.availability (Client.fillGroupOf s) = Client.availability s
  /\ Client.is_active (Client.fillGroupOf s) = Client.is_active s
  /\ Client.lessons_owed (Client.fillGroupOf s) = Client.lessons_owed s.
Proof.
  unfold Client.fillGroupOf. destruct (isNumber (Client.groupOf s)) eqn:E; unchanged_fields.
Qed.

Lemma fillSubGroup_fields (s : Client.Student) :
  Client.sub_group (Client.fillSubGroup s)
  = match Client.sub_group s with Undefined => Null | g => g end
  /\ Client.id (Client.fillSubGroup s) = Client.id s
  /\ Client.Name (Client.fillSubGroup s) = Client.Name s
  /\ Client.name (Client.fillSubGroup s) = Client.name s
  /\ Client.groupOf (Client.fillSubGroup s) = Client.groupOf s
  /\ Client.class_name (Client.fillSubGroup s) = Client.class_name s
  /\ Client.availability_string (Client.fillSubGroup s) = Client.availability_string s
  /\ Client.availability (Client.fillSubGroup s) = Client.availability s
  /\ Client.is_active (Client.fillSubGroup s) = Client.is_active s
  /\ Client.lessons_owed (Client.fillSubGroup s) = Client.lessons_owed s.
Proof. unfold Client.fillSubGroup. destruct (Client.sub_group s) eqn:E; unchanged_fields. Qed.

Lemma fillClassName_fields (s : Client.Student) :
  Client.class_name (Client.fillClassName s)
  = match Client.class_name s with Undefined => Null | c => c end
  /\ Client.id (Client.fillClassName s) = Client.id s
  /\ Client.Name (Client.fillClassName s) = Client.Name s
  /\ Client.name (Client.fillClassName s) = Client.name s
  /\ Client.groupOf (Client.fillClassName s) = Client.groupOf s
  /\ Client.sub_group (Client.fillClassName s) = Client.sub_group s
  /\ Client.availability_string (Client.fillClassName s) = Client.availability_string s
  /\ Client.availability (Client.fillClassName s) = Client.availability s
  /\ Client.is_active (Client.fillClassName s) = Client.is_active s
  /\ Client.lessons_owed (Client.fillClassName s) = Client.lessons_owed s.
Proof. unfold Client.fillClassName. destruct (Client.class_name s) eqn:E; unchanged_fields. Qed.

Lemma fillAvailability_fields (s : Client.Student) :
  Client.availability_string (Client.fillAvailability s)
  = match Client.availability_string s with
    | Undefined =>
        match truthyStr (Client.availability s) with Some a => Val a | None => Null end
    | a => a
    end
  /\ Client.id (Client.fillAvailability s) = Client.id s
  /\ Client.Name (Client.fillAvailability s) = Client.Name s
  /\ Client.name (Client.fillAvailability s) = Client.name s
  /\ Client.groupOf (Client.fillAvailability s) = Client.groupOf s
  /\ Client.sub_group (Client.fillAvailability s) = Client.sub_group s
  /\ Client.class_name (Client.fillAvailability s) = Client.class_name s
  /\ Client.availability (Client.fillAvailability s) = Client.availability s
  /\ Client.is_active (Client.fillAvailability s) = Client.is_active s
  /\ Client.lessons_owed (Client.fillAvailability s) = Client.lessons_owed s.
Proof.
  unfold Client.fillAvailability. destruct (Client.availability_string s) eqn:E; unchanged_fields.
Qed.

(** What the lookup writes into the object it finds. *)
Lemma normalize_fields (s : Client.Student) :
  Client.id (Client.normalize s) = Client.id s
  /\ Client.name (Client.normalize s) = Client.name s
  /\ Client.availability (Client.normalize s) = Client.availability s
  /\ Client.is_active (Client.normalize s) = Client.is_active s
  /\ Client.lessons_owed (Client.normalize s) = Client.lessons_owed s
  /\ Client.Name (Client.normalize s)
     = match Client.Name s with
       | Undefined => match Client.name s with Undefined => Null | n => n end
       | n => n
       end
  /\ Client.groupOf (Client.normalize s)
     = (if isNumber (Client.groupOf s) then Client.groupOf s else VNum 1)
  /\ Client.sub_group (Client.normalize s)
     = match Client.sub_group s with Undefined => Null | g => g end
  /\ Client.class_name (Client.normalize s)
     = match Client.class_name s with Undefined => Null | c => c end
  /\ Client.availability_string (Client.normalize s)
     = match Client.availability_string s with
       | Undefined =>
           match truthyStr (Client.availability s) with Some a => Val a | None => Null end
       | a => a
       end.
Proof.
  unfold Client.normalize.
  set (s1 := Client.fillName s). set (s2 := Client.fillGroupOf s1).
  set (s3 := Client.fillSubGroup s2). set (s4 := Client.fillClassName s3).
  destruct (fillName_fields s) as (N1 & I1 & n1 & G1 & S1 & C1 & A1 & a1 & t1 & o1).
  destruct (fillGroupOf_fields s1) as (G2 & I2 & N2 & n2 & S2 & C2 & A2 & a2 & t2 & o2).
  destruct (fillSubGroup_fields s2) as (S3 & I3 & N3 & n3 & G3 & C3 & A3 & a3 & t3 & o3).
  destruct (fillClassName_fields s3) as (C4 & I4 & N4 & n4 & G4 & S4 & A4 & a4 & t4 & o4).
  destruct (fillAvailability_fields s4) as (A5 & I5 & N5 & n5 & G5 & S5 & C5 & a5 & t5 & o5).
  fold s1 in N1, I1, n1, G1, S1, C1, A1, a1, t1, o1.
  fold s2 in G2, I2, N2, n2, S2, C2, A2, a2, t2, o2.
  fold s3 in S3, I3, N3, n3, G3, C3, A3, a3, t3, o3.
  fold s4 in C4, I4, N4, n4, G4, S4, A4, a4, t4, o4.
  rewrite G1 in G2. rewrite S1 in S2. rewrite S2 in S3.
  rewrite C1 in C2. rewrite C2 in C3. rewrite C3 in C4.
  rewrite A1 in A2. rewrite A2 in A3. rewrite A3 in A4. rewrite A4 in A5.
  rewrite a1 in a2. rewrite a2 in a3. rewrite a3 in a4. rewrite a4 in A5.
  repeat split; congruence.
Qed.

Lemma student_eq (s t : Client.Student) :
  Client.id s = Client.id t -> Client.Name s = Client.Name t ->
  Client.name s = Client.name t -> Client.groupOf s = Client.groupOf t ->
  Client.sub_group s = Client.sub_group t -> Client.class_name s = Client.class_name t ->
  Client.availability_string s = Client.availability_string t ->
  Client.availability s = Client.availability t ->
  Client.is_active s = Client.is_active t ->
  Client.lessons_owed s = Client.lessons_owed t -> s = t.
Proof. destruct s, t. cbn. intros. subst. reflexivity. Qed.

Lemma normalize_complete (s : Client.Student) : complete s -> Client.normalize s = s.
Proof.
  intros (HN & Hg & Hsg & Hcn & Hav).
  destruct (normalize_fields s) as (I & n & a & t & o & N & G & S & C & A).
  apply student_eq; try assumption.
  - rewrite N. destruct (Client.Name s); congruence.
  - rewrite G, Hg. reflexivity.
  - rewrite S. destruct (Client.sub_group s); congruence.
  - rewrite C. destruct (Client.class_name s); congruence.
  - rewrite A. destruct (Client.availability_string s); congruence.
Qed.

Lemma normalize_makes_complete (s : Client.Student) : complete (Client.normalize s).
Proof.
  destruct (normalize_fields s) as (_ & _ & _ & _ & _ & HN & Hg & Hsg & Hcn & Hav).
  unfold complete. rewrite HN, Hg, Hsg, Hcn, Hav.
  repeat split.
  - destruct (Client.Name s); [destruct (Client.name s)| |]; discriminate.
  - destruct (isNumber (Client.groupOf s)) eqn:E; [exact E|reflexivity].
  - destruct (Client.sub_group s); discriminate.
  - destruct (Client.class_name s); discriminate.
  - destruct (Client.availability_string s);
      [destruct (truthyStr (Client.availability s))| |]; discriminate.
Qed.

Lemma normalize_idempotent (s : Client.Student) :
  Client.normalize (Client.normalize s) = Client.normalize s.
Proof. apply normalize_complete, normalize_makes_complete. Qed.

Lemma normalize_hasId (n : Z) (s : Client.Student) :
  Client.hasId n (Client.normalize s) = Client.hasId n s.
Proof.
  unfold Client.hasId. destruct (normalize_fields s) as (-> & _). reflexivity.
Qed.

Lemma findIndex_alter {A : Type} (p : A -> bool) (f : A -> A) (l : list A) (i : nat) :
  (forall x, p (f x) = p x) ->
  Client.findIndex p (alter f i l) = Client.findIndex p l.
Proof.
  intros Hpf. revert i. induction l as [|x l IH]; intros i; [reflexivity|].
  destruct i as [|i]; cbn [alter list_alter Client.findIndex].
  - rewrite Hpf. reflexivity.
  - rewrite IH. reflexivity.
Qed.

(** The roster after a lookup: untouched, or with [normalize] applied to
    the first object whose id is the one looked for. *)
Lemma lookup_roster (studentId : JsVal) (roster : list Client.Student) :
  snd (Client.getStudentDetails studentId (Some roster)) = Some roster
  \/ exists idToFind i,
       parseIntVal studentId = Some idToFind
       /\ Client.findIndex (Client.hasId idToFind) roster = Some i
       /\ snd (Client.getStudentDetails studentId (Some roster))
          = Some (alter Client.normalize i roster).
Proof.
  unfold Client.getStudentDetails.
  destruct roster as [|s roster]; [left; reflexivity|].
  destruct studentId as [| |b|n|str]; try (left; reflexivity).
  - cbn [parseIntVal].
    destruct (Client.findIndex _ _) as [i|] eqn:Hi; [|left; reflexivity].
    right. exists n, i. split; [reflexivity|]. split; [exact Hi|].
    destruct (alter Client.normalize i (s :: roster) !! i) as [found|];
      [destruct (Client.Name found)|]; reflexivity.
  - cbn [parseIntVal]. destruct (parseInt str) as [n|]; [|left; reflexivity].
    destruct (Client.findIndex _ _) as [i|] eqn:Hi; [|left; reflexivity].
    right. exists n, i. split; [reflexivity|]. split; [exact Hi|].
    destruct (alter Client.normalize i (s :: roster) !! i) as [found|];
      [destruct (Client.Name found)|]; reflexivity.
Qed.

Lemma hasId_true (n : Z) (s : Client.Student) :
  Client.hasId n s = true <-> Client.id s = VNum n.
Proof.
  unfold Client.hasId. destruct (Client.id s) as [| | |m|]; try (split; discriminate).
  rewrite Z.eqb_eq. split; [intros ->; reflexivity|intros [= ->]; reflexivity].
Qed.

Lemma findIndex_first {A : Type} (p : A -> bool) (l : list A) (i : nat) (x : A) :
  l !! i = Some x ->
  p x = true ->
  (forall k y, (k < i)%nat -> l !! k = Some y -> p y = false) ->
  Client.findIndex p l = Some i.
Proof.
  revert i. induction l as [|a l IH]; intros i Hx Hp Hfirst; [discriminate Hx|].
  cbn [Client.findIndex]. destruct i as [|i].
  - injection Hx as ->. rewrite Hp. reflexivity.
  - rewrite (Hfirst 0%nat a) by (try lia; reflexivity).
    rewrite (IH i Hx Hp); [reflexivity|].
    intros k y Hk Hy. apply (Hfirst (S k) y); [lia|exact Hy].
Qed.

Lemma findIndex_absent {A : Type} (p : A -> bool) (l : list A) :
  (forall x, In x l -> p x = false) -> Client.findIndex p l = None.
Proof.
  induction l as [|a l IH]; intros Hall; [reflexivity|].
  cbn [Client.findIndex]. rewrite (Hall a (or_introl eq_refl)).
  rewrite IH; [reflexivity|]. intros x Hx. apply Hall. right. exact Hx.
Qed.

Lemma alter_insert {A : Type} (f : A -> A) (l : list A) (i : nat) (x : A) :
  l !! i = Some x -> alter f i l = <[i := f x]> l.
Proof.
  revert i. induction l as [|a l IH]; intros [|i] Hx; try discriminate Hx.
  - injection Hx as ->. reflexivity.
  - cbn [alter list_alter]. cbn. f_equal. apply IH. exact Hx.
Qed.

(** The roster after a lookup: [normalize] is applied to the first object
    whose id is the one looked for, if there is one. *)
Lemma lookup_roster_eq (studentId : JsVal) (roster : list Client.Student) :
  snd (Client.getStudentDetails studentId (Some roster))
  = Some match parseIntVal studentId with
         | Some idToFind =>
             match Client.findIndex (Client.hasId idToFind) roster with
             | Some i => alter Client.normalize i roster
             | None => roster
             end
         | None => roster
         end.
Proof.
  unfold Client.getStudentDetails.
  destruct roster as [|s roster].
  { destruct (parseIntVal studentId); reflexivity. }
  destruct studentId as [| |b|n|str]; try reflexivity.
  - cbn [parseIntVal].
    destruct (Client.findIndex _ _) as [i|] eqn:Hi; [|reflexivity].
    destruct (alter Client.normalize i (s :: roster) !! i) as [found|];
      [destruct (Client.Name found)|]; reflexivity.
  - cbn [parseIntVal]. destruct (parseInt str) as [n|]; [|reflexivity].
    destruct (Client.findIndex _ _) as [i|] eqn:Hi; [|reflexivity].
    destruct (alter Client.normalize i (s :: roster) !! i) as [found|];
      [destruct (Client.Name found)|]; reflexivity.
Qed.

End Lookup.

(** C10, as the code has it: a lookup in the browser keeps the roster as
    it is when no object has the id looked for (which includes an id that
    is missing or is not a number); otherwise it replaces the first
    object that has the id by its normal form and keeps every other
    object. The normal form has [Name] (the lower-case [name] or [null]
    where it was missing), [groupOf] (1 where it was not a number),
    [sub_group] and [class_name] ([null] where missing) and
    [availability_string] (the non-empty [availability] or [null] where
    missing) filled in, and every other field as it was. The length of
    the roster is kept, a roster of objects that already have these fields
    is left as it is, and a second lookup changes nothing more. *)
Theorem lookup_effect_on_roster (studentId : JsVal) (roster : list Client.Student) :
  exists roster',
    snd (Client.getStudentDetails studentId (Some roster)) = Some roster'
    /\ length roster' = length roster
    /\ ((forall idToFind row, parseIntVal studentId = Some idToFind ->
           In row roster -> Client.id row <> VNum idToFind) ->
        roster' = roster)
    /\ (forall idToFind i row,
          parseIntVal studentId = Some idToFind ->
          roster !! i = Some row ->
          Client.id row = VNum idToFind ->
          (forall k other, (k < i)%nat -> roster !! k = Some other ->
                           Client.id other <> VNum idToFind) ->
          roster' = <[i := Client.normalize row]> roster)
    /\ (forall s,
          Client.id (Client.normalize s) = Client.id s
          /\ Client.name (Client.normalize s) = Client.name s
          /\ Client.availability (Client.normalize s) = Client.availability s
          /\ Client.is_active (Client.normalize s) = Client.is_active s
          /\ Client.lessons_owed (Client.normalize s) = Client.lessons_owed s
          /\ Client.Name (Client.normalize s)
             = match Client.Name s with
               | Undefined => match Client.name s with Undefined => Null | n => n end
               | n => n
               end
          /\ Client.groupOf (Client.normalize s)
             = (if isNumber (Client.groupOf s) then Client.groupOf s else VNum 1)
          /\ Client.sub_group (Client.normalize s)
             = match Client.sub_group s with Undefined => Null | g => g end
          /\ Client.class_name (Client.normalize s)
             = match Client.class_name s with Undefined => Null | c => c end
          /\ Client.availability_string (Client.normalize s)
             = match Client.availability_string s with
               | Undefined =>
                   match truthyStr (Client.availability s) with
                   | Some a => Val a
                   | None => Null
                   end
               | a => a
               end)
    /\ (Forall complete roster -> roster' = roster)
    /\ snd (Client.getStudentDetails studentId (Some roster')) = Some roster'.
Proof.
  eexists. split; [apply lookup_roster_eq|].
  split.
  { destruct (parseIntVal studentId) as [n|]; [|reflexivity].
    destruct (Client.findIndex (Client.hasId n) roster); [apply length_alter|reflexivity]. }
  split.
  { intros Hnone. destruct (parseIntVal studentId) as [n|]; [|reflexivity].
    rewrite findIndex_absent; [reflexivity|].
    intros row Hrow. destruct (Client.hasId n row) eqn:Hid; [|reflexivity].
    apply hasId_true in Hid. destruct (Hnone n row eq_refl Hrow Hid). }
  split.
  { intros n i row -> Hrow Hid Hfirst.
    rewrite (findIndex_first (Client.hasId n) roster i row Hrow).
    - apply alter_insert. exact Hrow.
    - apply hasId_true. exact Hid.
    - intros k other Hk Hother. destruct (Client.hasId n other) eqn:Ho; [|reflexivity].
      apply hasId_true in Ho. destruct (Hfirst k other Hk Hother Ho). }
  split; [apply normalize_fields|].
  destruct (parseIntVal studentId) as [n|] eqn:Hparse;
    [|split; [reflexivity|rewrite lookup_roster_eq, Hparse; reflexivity]].
  destruct (Client.findIndex (Client.hasId n) roster) as [i|] eqn:Hfind;
    [|split; [reflexivity|rewrite lookup_roster_eq, Hparse, Hfind; reflexivity]].
  split.
  - intros Hall. apply list_eq. intros j.
    destruct (decide (i = j)) as [<-|Hne];
      [|apply list_lookup_alter_ne; exact Hne].
    rewrite list_lookup_alter_eq.
    destruct (roster !! i) as [s|] eqn:Hs; [|reflexivity].
    cbn. f_equal. apply normalize_complete.
    rewrite List.Forall_forall in Hall. apply Hall.
    apply list_elem_of_In. eapply list_elem_of_lookup_2. exact Hs.
  - rewrite lookup_roster_eq, Hparse.
    rewrite findIndex_alter by (intros x; apply normalize_hasId).
    rewrite Hfind. f_equal.
    apply list_eq. intros j. destruct (decide (i = j)) as [<-|Hne].
    + rewrite !list_lookup_alter_eq. destruct (roster !! i); [|reflexivity].
      cbn. f_equal. apply normalize_idempotent.
    + rewrite !list_lookup_alter_ne by exact Hne. reflexivity.
Qed.

Lemma lookup_effect_on_roster_witness :
  snd (Client.getStudentDetails (VNum 1)
         (Some [studentObject (mondayRow 2 3 2 Null); bareStudent]))
  = Some [studentObject (mondayRow 2 3 2 Null); filledStudent].
Proof.
  destruct (lookup_effect_on_roster (VNum 1)
              [studentObject (mondayRow 2 3 2 Null); bareStudent])
    as (roster' & Hsnd & _ & _ & Hfound & _).
  rewrite Hsnd. f_equal.
  rewrite (Hfound 1 1%nat bareStudent eq_refl eq_refl eq_refl); [reflexivity|].
  intros [|k] other Hk Hother; [|lia].
  injection Hother as <-. discriminate.
Defined.

(** C10 as stated fails: looking up an object that only has an id and a
    lower-case name rewrites that object in the roster. *)
Lemma lookup_counterexample :
  Client.getStudentDetails (VNum 1) (Some [bareStudent])
  = (Some filledStudent, Some [filledStudent])
  /\ [filledStudent] <> [bareStudent].
Proof. split; [vm_compute; reflexivity|discriminate]. Qed.

(** ** The range loop and the cache of the browser's query *)

Section Ranges.

(** The loop adds the time points of the range and nothing else, as soon
    as the fuel covers the number of its iterations. *)
Lemma rangeLoop_spec (fuel : nat) :
  forall (currentTime endTime : nat) (times : gset string) (x : string),
    (endTime < currentTime + 30 * fuel)%nat ->
    x ∈ Client.rangeLoop fuel currentTime endTime times
    <-> x ∈ times \/ rangePoint currentTime endTime x.
Proof.
  induction fuel as [|fuel IH]; intros cur e times x Hfuel; cbn [Client.rangeLoop].
  - split; [intros H; left; exact H|]. intros [H|(k & Hk & _)]; [exact H|lia].
  - destruct (Nat.leb_spec cur e) as [Hle|Hgt].
    + cbn [Client.formatTime]. rewrite IH by lia.
      rewrite elem_of_union, elem_of_singleton. split.
      * intros [[->|H]|(k & Hk & Hx)].
        -- right. exists 0%nat. split; [lia|].
           cbn [Client.formatTime]. rewrite Nat.mul_0_r, Nat.add_0_r. reflexivity.
        -- left. exact H.
        -- right. exists (S k). split; [lia|].
           rewrite <- Hx. do 2 f_equal. lia.
      * intros [H|(k & Hk & Hx)]; [left; right; exact H|].
        destruct k as [|k].
        -- left. left. rewrite Nat.mul_0_r, Nat.add_0_r in Hx.
           cbn [Client.formatTime] in Hx. congruence.
        -- right. exists k. split; [lia|]. rewrite <- Hx. do 2 f_equal. lia.
    + split; [intros H; left; exact H|]. intros [H|(k & Hk & _)]; [exact H|lia].
Qed.


End Ranges.



(** ** Texts without a colon *)

Section FailClosed.

Lemma includesChar_consHead (c d : ascii) (pieces : list string) (e : string) :
  In e (consHead d pieces) ->
  includesChar c e = true ->
  Ascii.eqb c d = true \/ exists e', In e' pieces /\ includesChar c e' = true.
Proof.
  destruct pieces as [|h t]; cbn [consHead In].
  - intros [<-|[]]. cbn [includesChar]. rewrite orb_false_r. intros H. left. exact H.
  - intros [<-|Hin] Hc.
    + cbn [includesChar] in Hc. apply orb_true_iff in Hc as [Hc|Hc]; [left; exact Hc|].
      right. exists h. split; [left; reflexivity|exact Hc].
    + right. exists e. split; [right; exact Hin|exact Hc].
Qed.

(** A piece of a split holds only characters of the text. *)
Lemma includesChar_split (c sep : ascii) (s e : string) :
  In e (split sep s) -> includesChar c e = true -> includesChar c s = true.
Proof.
  revert e. induction s as [|d s IH]; intros e; cbn [split includesChar].
  - intros [<-|[]] H. exact H.
  - destruct (Ascii.eqb d sep).
    + intros [<-|Hin] Hc; [discriminate Hc|].
      rewrite (IH e Hin Hc). apply orb_true_r.
    + intros Hin Hc.
      destruct (includesChar_consHead c d _ e Hin Hc) as [H|(e' & Hin' & Hc')].
      * rewrite H. reflexivity.
      * rewrite (IH e' Hin' Hc'). apply orb_true_r.
Qed.


Lemma includesChar_trimStart (c : ascii) (s : string) :
  includesChar c (trimStart s) = true -> includesChar c s = true.
Proof.
  induction s as [|d s IH]; cbn [trimStart includesChar]; [trivial|].
  destruct (isWhiteSpace d); [|trivial].
  intros H. rewrite (IH H). apply orb_true_r.
Qed.

Lemma includesChar_trimEnd (c : ascii) (s : string) :
  includesChar c (trimEnd s) = true -> includesChar c s = true.
Proof.
  induction s as [|d s IH]; cbn [trimEnd includesChar]; [trivial|].
  destruct (isWhiteSpace d && String.eqb (trimEnd s) ""); cbn [includesChar];
    [discriminate|].
  intros H. apply orb_true_iff in H as [H|H]; [rewrite H; reflexivity|].
  rewrite (IH H). apply orb_true_r.
Qed.

Lemma includesChar_trim (c : ascii) (s : string) :
  includesChar c (trim s) = true -> includesChar c s = true.
Proof. intros H. apply includesChar_trimStart, includesChar_trimEnd, H. Qed.

Lemma includesChar_prefix (c : ascii) (p s : string) :
  String.prefix p s = true -> includesChar c p = true -> includesChar c s = true.
Proof.
  revert s. induction p as [|a p IH]; intros s; [discriminate 2|].
  destruct s as [|b s]; cbn [String.prefix includesChar]; [discriminate|].
  destruct (ascii_dec a b) as [<-|Hne]; [|discriminate].
  intros Hp Hc. apply orb_true_iff in Hc as [Hc|Hc]; [rewrite Hc; reflexivity|].
  rewrite (IH s Hp Hc). apply orb_true_r.
Qed.


Lemma fold_left_fixed {A B : Type} (f : A -> B -> A) (l : list B) (a : A) :
  (forall x, In x l -> f a x = a) -> fold_left f l a = a.
Proof.
  induction l as [|x l IH]; intros H; cbn [fold_left]; [reflexivity|].
  rewrite (H x (or_introl eq_refl)). apply IH. intros y Hy. apply H. right. exact Hy.
Qed.

Lemma not_true_false (b : bool) : (b = true -> False) -> b = false.
Proof. destruct b; [intros H; destruct (H eq_refl)|reflexivity]. Qed.


Lemma server_entry_without_colon (av : gmap string (list string)) (entry : string) :
  includesChar ":" entry = false ->
  Server.entryStep (av, None) entry = (av, None).
Proof.
  intros He. unfold Server.entryStep.
  destruct (String.eqb (trim entry) ""); [reflexivity|].
  destruct (List.find _ Server.validDays) as [day|] eqn:Hfind; [|reflexivity].
  apply find_some in Hfind as [Hin Hp]. exfalso.
  assert (Hc : includesChar ":" (trim entry) = true).
  { apply (includesChar_prefix _ _ _ Hp).
    clear -Hin. cbn in Hin.
    repeat (destruct Hin as [<-|Hin]; [reflexivity|]). destruct Hin. }
  apply includesChar_trim in Hc. congruence.
Qed.

Lemma server_parse_without_colon (s : string) :
  includesChar ":" s = false ->
  fold_left Server.entryStep (split ";" s) (∅, None) = (∅, None).
Proof.
  intros Hs. apply fold_left_fixed. intros e He.
  apply server_entry_without_colon. apply not_true_false. intros Hc.
  apply (includesChar_split _ _ _ _ He) in Hc. congruence.
Qed.

Lemma server_query_empty (targetDay t : string) :
  tryCatch
    (match getProperty (∅ : gmap string (list string)) targetDay with
     | Own times => Normal (includes times t)
     | Missing => Normal false
     | Inherited => Throw "availability[targetDay].includes is not a function"
     end) false = false.
Proof.
  unfold getProperty. rewrite lookup_empty.
  destruct (includes objectPrototypeKeys targetDay); reflexivity.
Qed.

End FailClosed.

(** Unlike the edge function, the browser's query reads the parsed days
    outside any [try]: asked for a day that names an inherited member it
    throws. *)
Lemma client_query_inherited_day :
  fst (Client.isStudentAvailable (Some (studentAvailable Null))
         (Val "constructor") (Val "09:00") ∅)
  = Throw "availableTimesForDay.has is not a function"
  /\ Server.isStudentAvailable (Val "Monday: 09:00") "constructor" "09:00" = false.
Proof. split; vm_compute; reflexivity. Qed.

(* ================================================================== *)
(** * Part III: further properties of the engine *)
(* ================================================================== *)

(** ** The candidates of a slot and the members of a recommendation *)

Section Members.

Variables (allStudentsData : list Roster.Student) (allBlocks : list DailyBlock)
  (slot : Server.SlotInfo).

Lemma In_omap {A B : Type} (f : A -> option B) (l : list A) (y : B) :
  In y (omap f l) <-> exists x, In x l /\ f x = Some y.
Proof.
  rewrite <- list_elem_of_In, list_elem_of_omap.
  split; intros (x & Hx & Hf); exists x; (split; [apply list_elem_of_In; exact Hx|exact Hf]).
Qed.

Lemma server_lookup_id (studentId : Z) (d : Server.StudentDetails) :
  Server.getStudentDetails studentId allStudentsData = Some d ->
  Server.id d = studentId.
Proof.
  unfold Server.getStudentDetails.
  destruct (List.find _ allStudentsData) as [row|] eqn:Hfind; [|discriminate].
  apply find_some in Hfind as [_ Hid]. apply Z.eqb_eq in Hid.
  intros [= <-]. exact Hid.
Qed.

Lemma candidatesForSlot_In (d : Server.StudentDetails) :
  In d (Server.candidatesForSlot allStudentsData allBlocks slot) ->
  exists row,
    In row allStudentsData
    /\ Server.owesLessons row = true
    /\ Server.getStudentDetails (Roster.id row) allStudentsData = Some d
    /\ Server.candidateFilter slot allBlocks
         (Server.targetSubGroup (Server.existingStudentsDetails allStudentsData slot))
         (Some d) = true.
Proof.
  unfold Server.candidatesForSlot, Server.potentialCandidates.
  intros H. apply In_omap in H as (x & Hx & Hf).
  apply in_map_iff in Hx as (row & <- & Hrow).
  apply filter_In in Hrow as [Hrow Howes].
  exists row. split; [exact Hrow|]. split; [exact Howes|].
  destruct (Server.candidateFilter _ _ _ _) eqn:Hfilter in Hf; [|discriminate].
  rewrite Hf in Hfilter. split; [exact Hf|exact Hfilter].
Qed.

Lemma recommended_In (res : Server.ResultSlot) (m : Server.RecommendedGroupMember) :
  Server.processSlot allStudentsData allBlocks slot = Some res ->
  In m (Server.recommended_group res) ->
  exists d, In d (Server.candidatesForSlot allStudentsData allBlocks slot)
            /\ m = Server.toMember d.
Proof.
  unfold Server.processSlot. destruct (_ <=? 0); [discriminate|]. intros [= <-].
  cbn [Server.recommended_group]. intros Hm.
  apply list_elem_of_In in Hm.
  eapply elem_of_sublist in Hm; [|apply recommend_sublist].
  apply list_elem_of_In, in_map_iff in Hm as (d & <- & Hd).
  exists d. split; [|reflexivity].
  apply list_elem_of_In. rewrite <- (sortByOwed_perm _). apply list_elem_of_In. exact Hd.
Qed.

End Members.

(** X1. Every member of a recommendation is a student of the roster who
    is owed lessons according to a row with that id, is not an original
    occupant of the slot, is available on the slot's day at its time, and
    is not blocked on the slot's date. *)
Theorem recommended_members_are_eligible
    (allStudentsData : list Roster.Student) (allBlocks : list DailyBlock)
    (slot : Server.SlotInfo) (res : Server.ResultSlot)
    (m : Server.RecommendedGroupMember) :
  Server.processSlot allStudentsData allBlocks slot = Some res ->
  In m (Server.recommended_group res) ->
  exists row d,
    In row allStudentsData
    /\ Server.owesLessons row = true
    /\ Roster.id row = Server.student_id m
    /\ Server.getStudentDetails (Server.student_id m) allStudentsData = Some d
    /\ m = Server.toMember d
    /\ Server.isOriginal slot (Server.student_id m) = false
    /\ Server.isStudentAvailable (Server.availability_string d)
         (Server.day_of_week slot) (Server.start_time slot) = true
    /\ Server.isStudentBlocked (Some d) (Server.slot_date slot) (Server.coach_id slot)
         (Some allBlocks) = false.
Proof.
  intros Hres Hm.
  destruct (recommended_In _ _ _ _ _ Hres Hm) as (d & Hd & ->).
  apply candidatesForSlot_In in Hd as (row & Hrow & Howes & Hget & Hfilter).
  pose proof (server_lookup_id _ _ _ Hget) as Hid.
  exists row, d. cbn [Server.toMember Server.student_id].
  split; [exact Hrow|]. split; [exact Howes|]. split; [symmetry; exact Hid|].
  split; [rewrite Hid; exact Hget|]. split; [reflexivity|].
  unfold Server.candidateFilter in Hfilter.
  destruct (Server.isOriginal slot (Server.id d)); [discriminate|].
  destruct (Server.isStudentAvailable _ _ _); [|discriminate].
  cbn [negb] in Hfilter.
  destruct (Server.subGroupMismatch _ _); [discriminate|].
  destruct (Server.isStudentBlocked _ _ _ _); [discriminate|].
  repeat split; reflexivity.
Qed.

Lemma recommended_members_are_eligible_witness :
  exists row d,
    In row owedRoster
    /\ Server.owesLessons row = true
    /\ Roster.id row = 2
    /\ Server.getStudentDetails 2 owedRoster = Some d
    /\ Server.toMember (detailsOf 2 3 5 (Some "A")) = Server.toMember d
    /\ Server.isOriginal openSlot 2 = false
    /\ Server.isStudentAvailable (Server.availability_string d) "Monday" "09:00:00" = true
    /\ Server.isStudentBlocked (Some d) (Val "2025-03-03") 7 (Some otherClassAway) = false.
Proof.
  apply (recommended_members_are_eligible owedRoster otherClassAway openSlot owedResult
           (Server.toMember (detailsOf 2 3 5 (Some "A")))).
  - vm_compute. reflexivity.
  - left. reflexivity.
Defined.

Section Distinct.

Variable allStudentsData : list Roster.Student.

Lemma find_unique_id (l : list Roster.Student) (row : Roster.Student) :
  NoDup (map Roster.id l) ->
  In row l ->
  List.find (fun s => Roster.id s =? Roster.id row) l = Some row.
Proof.
  induction l as [|a l IH]; intros Hnd Hin; [destruct Hin|].
  cbn [map] in Hnd. apply NoDup_cons in Hnd as [Hnotin Hnd].
  cbn [List.find]. destruct (Z.eqb_spec (Roster.id a) (Roster.id row)) as [Heq|Hne].
  - destruct Hin as [->|Hin]; [reflexivity|].
    exfalso. apply Hnotin. rewrite Heq. apply list_elem_of_In, in_map. exact Hin.
  - destruct Hin as [->|Hin]; [congruence|]. apply IH; assumption.
Qed.

Lemma server_lookup_owed (row : Roster.Student) (d : Server.StudentDetails) :
  NoDup (map Roster.id allStudentsData) ->
  In row allStudentsData ->
  Server.owesLessons row = true ->
  Server.getStudentDetails (Roster.id row) allStudentsData = Some d ->
  0 < Server.lessons_owed d
  /\ Roster.lessons_owed row = Val (Server.lessons_owed d).
Proof.
  intros Hnd Hin Howes. unfold Server.getStudentDetails.
  rewrite (find_unique_id _ _ Hnd Hin). intros [= <-]. cbn [Server.lessons_owed].
  unfold Server.owesLessons in Howes.
  destruct (Roster.lessons_owed row) as [| |n]; try discriminate.
  apply Z.ltb_lt in Howes. split; [exact Howes|reflexivity].
Qed.

Lemma candidate_ids_sublist (allBlocks : list DailyBlock) (slot : Server.SlotInfo)
    (target : option string) (l : list Roster.Student) :
  sublist
    (map Server.id
       (omap (fun candDetails =>
                if Server.candidateFilter slot allBlocks target candDetails
                then candDetails else None)
          (map (fun cand => Server.getStudentDetails (Roster.id cand) allStudentsData)
             (List.filter Server.owesLessons l))))
    (map Roster.id l).
Proof.
  induction l as [|a l IH]; [constructor|].
  cbn [List.filter map]. destruct (Server.owesLessons a); [|apply sublist_cons; exact IH].
  cbn [map omap list_omap].
  destruct (Server.candidateFilter slot allBlocks target
              (Server.getStudentDetails (Roster.id a) allStudentsData)) eqn:Hf;
    [|apply sublist_cons; exact IH].
  destruct (Server.getStudentDetails (Roster.id a) allStudentsData) as [d|] eqn:Hget;
    [|apply sublist_cons; exact IH].
  cbn [map]. rewrite (server_lookup_id _ _ _ Hget). apply sublist_skip. exact IH.
Qed.

End Distinct.

(** X2. In a roster whose ids are pairwise distinct, every member of a
    recommendation is owed at least one lesson, as the roster row of that
    id records it, and no student is recommended twice for a slot. *)
Theorem recommended_owe_lessons_and_are_distinct
    (allStudentsData : list Roster.Student) (allBlocks : list DailyBlock)
    (slot : Server.SlotInfo) (res : Server.ResultSlot) :
  NoDup (map Roster.id allStudentsData) ->
  Server.processSlot allStudentsData allBlocks slot = Some res ->
  (forall m, In m (Server.recommended_group res) ->
     0 < Server.member_lessons_owed m
     /\ exists row, In row allStudentsData
                    /\ Roster.id row = Server.student_id m
                    /\ Roster.lessons_owed row = Val (Server.member_lessons_owed m))
  /\ NoDup (map Server.student_id (Server.recommended_group res)).
Proof.
  intros Hnd Hres. split.
  - intros m Hm.
    destruct (recommended_In _ _ _ _ _ Hres Hm) as (d & Hd & ->).
    apply candidatesForSlot_In in Hd as (row & Hrow & Howes & Hget & _).
    destruct (server_lookup_owed _ _ _ Hnd Hrow Howes Hget) as [Hpos Hrec].
    cbn [Server.toMember Server.member_lessons_owed Server.student_id].
    split; [exact Hpos|]. exists row. split; [exact Hrow|].
    split; [symmetry; apply (server_lookup_id _ _ _ Hget)|exact Hrec].
  - revert Hres. unfold Server.processSlot. destruct (_ <=? 0); [discriminate|].
    intros [= <-]. cbn [Server.recommended_group].
    eapply sublist_NoDup;
      [|apply (fmap_sublist Server.student_id), recommend_sublist].
    change (NoDup (map Server.student_id
                     (map Server.toMember
                        (Server.sortByOwed
                           (Server.candidatesForSlot allStudentsData allBlocks slot))))).
    rewrite map_map. cbn [Server.toMember Server.student_id].
    change (NoDup (Server.id <$>
                     Server.sortByOwed
                       (Server.candidatesForSlot allStudentsData allBlocks slot))).
    rewrite sortByOwed_perm.
    eapply sublist_NoDup; [exact Hnd|]. apply candidate_ids_sublist.
Qed.

Lemma recommended_owe_lessons_and_are_distinct_witness :
  (forall m, In m (Server.recommended_group owedResult) ->
     0 < Server.member_lessons_owed m
     /\ exists row, In row owedRoster
                    /\ Roster.id row = Server.student_id m
                    /\ Roster.lessons_owed row = Val (Server.member_lessons_owed m))
  /\ NoDup (map Server.student_id (Server.recommended_group owedResult)).
Proof.
  apply (recommended_owe_lessons_and_are_distinct owedRoster otherClassAway openSlot
           owedResult).
  - apply (bool_decide_unpack _). vm_compute. exact I.
  - vm_compute. reflexivity.
Defined.

(** ** The order of a recommendation *)

Section Order.

Lemma sublist_Forall_of {A : Type} (P : A -> Prop) (l1 l2 : list A) :
  sublist l1 l2 -> Forall P l2 -> Forall P l1.
Proof.
  induction 1 as [|x l1 l2 _ IH|x l1 l2 _ IH]; intros HP.
  - constructor.
  - apply Forall_cons_iff in HP as [Hx HP]. constructor; [exact Hx|apply IH; exact HP].
  - apply Forall_cons_iff in HP as [_ HP]. apply IH; exact HP.
Qed.

Lemma sublist_StronglySorted {A : Type} (R : A -> A -> Prop) (l1 l2 : list A) :
  sublist l1 l2 -> StronglySorted R l2 -> StronglySorted R l1.
Proof.
  induction 1 as [|x l1 l2 Hsub IH|x l1 l2 Hsub IH]; intros Hs.
  - constructor.
  - apply StronglySorted_inv in Hs as [Hs Hx]. constructor; [apply IH; exact Hs|].
    eapply sublist_Forall_of; eassumption.
  - apply StronglySorted_inv in Hs as [Hs _]. apply IH; exact Hs.
Qed.

Lemma owesAtLeast_trans : Relations_1.Transitive owesAtLeast.
Proof. intros a b c. unfold owesAtLeast. lia. Qed.

Lemma toMember_sorted (l : list Server.StudentDetails) :
  StronglySorted owesAtLeast l ->
  StronglySorted memberOwesAtLeast (map Server.toMember l).
Proof.
  induction 1 as [|a l Hs IH Ha]; cbn [map]; constructor; [exact IH|].
  apply List.Forall_forall. intros m Hm. apply in_map_iff in Hm as (d & <- & Hd).
  rewrite List.Forall_forall in Ha. exact (Ha d Hd).
Qed.

End Order.

(** X3. The members of a recommendation appear in descending order of
    lessons owed: nobody is listed after a student who is owed less. *)
Theorem recommended_in_priority_order
    (allStudentsData : list Roster.Student) (allBlocks : list DailyBlock)
    (slot : Server.SlotInfo) (res : Server.ResultSlot) :
  Server.processSlot allStudentsData allBlocks slot = Some res ->
  StronglySorted memberOwesAtLeast (Server.recommended_group res).
Proof.
  unfold Server.processSlot. destruct (_ <=? 0); [discriminate|]. intros [= <-].
  cbn [Server.recommended_group].
  eapply sublist_StronglySorted; [apply recommend_sublist|].
  apply toMember_sorted, Sorted_StronglySorted;
    [exact owesAtLeast_trans|apply sortByOwed_sorted].
Qed.

Lemma recommended_in_priority_order_witness :
  StronglySorted memberOwesAtLeast (Server.recommended_group owedResult).
Proof.
  apply (recommended_in_priority_order owedRoster otherClassAway openSlot owedResult).
  vm_compute. reflexivity.
Defined.

(** ** The sub-group of a recommendation *)

Section SubGroupLock.

Variables (neededCount capacity : Z).

Lemma greedy_locked (cands : list Server.StudentDetails) :
  forall rec occ comp,
    locked rec comp ->
    exists comp',
      locked (Server.greedy neededCount capacity cands rec occ comp) comp'
      /\ (forall t, comp = Some t -> comp' = Some t).
Proof.
  induction cands as [|c cands IH]; intros rec occ comp Hinv; cbn [Server.greedy].
  - exists comp. split; [exact Hinv|auto].
  - destruct (neededCount <=? Z.of_nat (length rec)).
    { exists comp. split; [exact Hinv|auto]. }
    destruct (Server.subGroupMismatch comp (Server.subGroup c)) eqn:Hgate;
      [apply IH; exact Hinv|].
    destruct (negb _); [|apply IH; exact Hinv].
    destruct Hinv as [Hall Hhead].
    match goal with
    | |- context [Server.greedy _ _ _ ?r ?o ?k] =>
        destruct (IH r o k) as (comp' & Hinv' & Hkeep)
    end.
    + destruct comp as [t|].
      * apply server_subgroup_gate in Hgate. cbn match. split.
        -- intros g [= <-]. apply Forall_app. split; [apply Hall; reflexivity|].
           repeat constructor. exact Hgate.
        -- intros first g Hfirst Hg. destruct rec as [|m rec].
           ++ cbn in Hfirst. injection Hfirst as <-. cbn in Hg. congruence.
           ++ cbn in Hfirst. apply (Hhead first g); [exact Hfirst|exact Hg].
      * destruct rec as [|m rec].
        -- cbn [app length Nat.eqb]. split.
           ++ intros g Hg. destruct (Server.subGroup c) as [g'|] eqn:Hsub; [|discriminate].
              injection Hg as <-. repeat constructor. exact Hsub.
           ++ intros first g Hfirst Hg. cbn in Hfirst. injection Hfirst as <-.
              cbn in Hg. rewrite Hg. reflexivity.
        -- assert (Hnone : match Server.subGroup c with
                           | Some g =>
                               if Nat.eqb (length ((m :: rec) ++ [Server.toMember c])) 1
                               then Some g else None
                           | None => None
                           end = None).
           { destruct (Server.subGroup c); [|reflexivity].
             cbn [app length]. rewrite length_app. cbn [length].
             replace (length rec + 1)%nat with (S (length rec)) by lia. reflexivity. }
           rewrite Hnone. split; [discriminate|].
           intros first g Hfirst Hg. cbn in Hfirst.
           specialize (Hhead first g Hfirst Hg). discriminate.
    + exists comp'. split; [exact Hinv'|].
      intros t ->. apply Hkeep. reflexivity.
Qed.

End SubGroupLock.

(** X4. The sub-group lock of the recommender: when the first original
    occupant of the slot has a sub-group, every recommended member has
    exactly that sub-group; and when the first recommended member has a
    sub-group, so have all members recommended after it. *)
Theorem recommended_share_locked_subgroup
    (allStudentsData : list Roster.Student) (allBlocks : list DailyBlock)
    (slot : Server.SlotInfo) (res : Server.ResultSlot) :
  Server.processSlot allStudentsData allBlocks slot = Some res ->
  (forall t,
     Server.targetSubGroup (Server.existingStudentsDetails allStudentsData slot) = Some t ->
     Forall (fun m => Server.member_subGroup m = Some t) (Server.recommended_group res))
  /\ (forall first rest g,
        Server.recommended_group res = first :: rest ->
        Server.member_subGroup first = Some g ->
        Forall (fun m => Server.member_subGroup m = Some g) rest).
Proof.
  unfold Server.processSlot. destruct (_ <=? 0); [discriminate|]. intros [= <-].
  cbn [Server.recommended_group]. unfold Server.recommend.
  match goal with
  | |- context [Server.greedy ?n ?k ?cs ?r ?o ?t] =>
      destruct (greedy_locked n k cs r o t) as (comp' & [Hall Hhead] & Hkeep)
  end.
  { split; [intros g _; constructor|intros first g Hfirst; discriminate Hfirst]. }
  split.
  - intros t Ht. apply Hall, Hkeep, Ht.
  - intros first rest g Hrec Hg. rewrite Hrec in Hall, Hhead.
    specialize (Hhead first g eq_refl Hg).
    specialize (Hall g Hhead). apply Forall_cons_iff in Hall as [_ Hall]. exact Hall.
Qed.

Lemma recommended_share_locked_subgroup_witness :
  Forall (fun m => Server.member_subGroup m = Some "A")
    [Server.toMember (detailsOf 3 3 3 (Some "A"))].
Proof.
  apply (proj2 (recommended_share_locked_subgroup mixedRoster [] openSlot mixedResult
                  ltac:(vm_compute; reflexivity))
           (Server.toMember (detailsOf 1 3 5 (Some "A"))) _ "A");
    reflexivity.
Defined.

(** ** Solo and paired members of a recommendation *)

Section GroupTypes.

Variables (neededCount capacity : Z) (existing : list Server.StudentDetails).

Lemma accepted_exclusive (c : Server.StudentDetails) (occupants : list Server.StudentDetails) :
  serverAccepts c (map Some occupants) capacity = true ->
  exclusive (occupants ++ [c]).
Proof.
  unfold serverAccepts, exclusive. intros H.
  apply andb_true_iff in H as [H Hpair]. apply andb_true_iff in H as [H Hsolo].
  rewrite length_map in Hsolo, Hpair. rewrite map_app, length_app. cbn [map length].
  destruct (existsb isSolo (map Some occupants ++ [Some c])).
  - cbn [negb orb] in Hsolo. apply Nat.eqb_eq in Hsolo. split; intros _; lia.
  - split; [discriminate|]. intros Hp. rewrite Hp in Hpair. cbn [negb orb] in Hpair.
    apply Nat.leb_le in Hpair. lia.
Qed.

Lemma greedy_exclusive (cands : list Server.StudentDetails) :
  forall rec extra comp,
    rec = map Server.toMember extra ->
    extra = [] \/ exclusive (existing ++ extra) ->
    exists extra',
      Server.greedy neededCount capacity cands rec (existing ++ extra) comp
      = map Server.toMember extra'
      /\ (extra' = [] \/ exclusive (existing ++ extra')).
Proof.
  induction cands as [|c cands IH]; intros rec extra comp Hrec Hinv; cbn [Server.greedy].
  - exists extra. split; assumption.
  - destruct (neededCount <=? Z.of_nat (length rec)); [exists extra; split; assumption|].
    destruct (Server.subGroupMismatch comp (Server.subGroup c)); [apply IH; assumption|].
    rewrite server_check_violation, negb_involutive.
    destruct (serverAccepts c (map Some (existing ++ extra)) capacity) eqn:Hacc;
      [|apply IH; assumption].
    rewrite <- app_assoc. apply IH.
    + rewrite Hrec, map_app. reflexivity.
    + right. rewrite app_assoc. apply accepted_exclusive. exact Hacc.
Qed.

Lemma member_solo (extra : list Server.StudentDetails) (m : Server.RecommendedGroupMember)
    (n : Z) (kind : option Server.StudentDetails -> bool) :
  (forall d, Server.groupOf d = VNum n -> kind (Some d) = true) ->
  In m (map Server.toMember extra) ->
  Server.member_groupOf m = VNum n ->
  existsb kind (map Some (existing ++ extra)) = true.
Proof.
  intros Hkind Hm Hg. apply in_map_iff in Hm as (d & <- & Hd).
  apply existsb_exists. exists (Some d). split.
  - apply in_map, in_or_app. right. exact Hd.
  - apply Hkind. exact Hg.
Qed.

End GroupTypes.

(** X5. Group types of a recommendation: if a recommended member or an
    original occupant found in the roster is a solo student, the
    recommendation and the original occupants together are one student;
    if one of them is a paired student, they are at most two. *)
Theorem recommended_solo_alone_paired_two
    (allStudentsData : list Roster.Student) (allBlocks : list DailyBlock)
    (slot : Server.SlotInfo) (res : Server.ResultSlot) :
  Server.processSlot allStudentsData allBlocks slot = Some res ->
  Server.recommended_group res <> [] ->
  let existing := Server.existingStudentsDetails allStudentsData slot in
  let group := Server.recommended_group res in
  ((exists m, In m group /\ Server.member_groupOf m = VNum 1)
   \/ existsb isSolo (map Some existing) = true ->
   (length existing + length group = 1)%nat)
  /\ ((exists m, In m group /\ Server.member_groupOf m = VNum 2)
      \/ existsb isPaired (map Some existing) = true ->
      (length existing + length group <= 2)%nat).
Proof.
  unfold Server.processSlot. destruct (_ <=? 0); [discriminate|]. intros [= <-].
  cbn [Server.recommended_group]. unfold Server.recommend. cbn zeta.
  set (existing := Server.existingStudentsDetails allStudentsData slot).
  match goal with
  | |- context [Server.greedy ?n ?k ?cs [] existing ?t] =>
      destruct (greedy_exclusive n k existing cs [] [] t eq_refl (or_introl eq_refl))
        as (extra & Hgreedy & Hinv)
  end.
  rewrite app_nil_r in Hgreedy. rewrite Hgreedy. intros Hne.
  destruct Hinv as [->|[Hsolo Hpair]]; [destruct (Hne eq_refl)|].
  rewrite length_map. rewrite length_app in Hsolo, Hpair. split.
  - intros [(m & Hm & Hg)|Hex]; apply Hsolo.
    + apply (member_solo existing extra m 1); [|exact Hm|exact Hg].
      intros d Hd. unfold isSolo, Server.groupSize. rewrite Hd. reflexivity.
    + rewrite map_app, existsb_app, Hex. reflexivity.
  - intros [(m & Hm & Hg)|Hex]; apply Hpair.
    + apply (member_solo existing extra m 2); [|exact Hm|exact Hg].
      intros d Hd. unfold isPaired, Server.groupSize. rewrite Hd. reflexivity.
    + rewrite map_app, existsb_app, Hex. reflexivity.
Qed.

Lemma recommended_solo_alone_paired_two_witness :
  (length (Server.existingStudentsDetails soloFirstRoster openSlot)
   + length (Server.recommended_group soloFirstResult) = 1)%nat.
Proof.
  apply (recommended_solo_alone_paired_two soloFirstRoster [] openSlot soloFirstResult).
  - vm_compute. reflexivity.
  - discriminate.
  - left. exists (Server.toMember (detailsOf 1 1 5 None)).
    split; [left; reflexivity|reflexivity].
Defined.

(** ** The server-side checker, characterised *)


(** ** The lookup of the edge function *)

(** X7. The edge function's lookup succeeds exactly for the ids of the
    roster. The details it returns carry the id asked for, a numeric
    group size, a name that is not empty and a sub-group that is absent
    rather than empty; availability and class name are those of the
    first row with that id. *)
Theorem server_lookup_normal_form (studentId : Z) (allStudentsData : list Roster.Student) :
  match Server.getStudentDetails studentId allStudentsData with
  | Some d =>
      Server.id d = studentId
      /\ isNumber (Server.groupOf d) = true
      /\ Server.name d <> ""
      /\ Server.subGroup d <> Some ""
      /\ exists before row after,
           allStudentsData = before ++ row :: after
           /\ Roster.id row = studentId
           /\ Forall (fun r => Roster.id r <> studentId) before
           /\ Server.availability_string d = Roster.availability_string row
           /\ Server.class_name d = Roster.class_name row
  | None => Forall (fun r => Roster.id r <> studentId) allStudentsData
  end.
Proof.
  unfold Server.getStudentDetails.
  induction allStudentsData as [|a l IH]; cbn [List.find]; [constructor|].
  destruct (Z.eqb_spec (Roster.id a) studentId) as [Heq|Hne].
  - cbn [Server.id Server.groupOf Server.name Server.subGroup
         Server.availability_string Server.class_name].
    split; [exact Heq|]. split; [destruct (Roster.groupOf a); reflexivity|].
    split.
    { unfold Server.displayName.
      destruct (truthyStr (Roster.Name a)) as [n|] eqn:HN.
      - apply truthyStr_Some in HN as [_ HN]. exact HN.
      - destruct (truthyStr (Roster.name a)) as [n|] eqn:Hn.
        + apply truthyStr_Some in Hn as [_ Hn]. exact Hn.
        + discriminate. }
    split.
    { intros Hs. apply truthyStr_Some in Hs as [_ Hs]. apply Hs. reflexivity. }
    exists [], a, l. repeat split; [exact Heq|constructor].
  - destruct (List.find _ l) as [row|].
    + destruct IH as (Hid & Hnum & Hname & Hsub & before & r & after & -> & Hr & Hb & Hav & Hcl).
      repeat (split; [assumption|]).
      exists (a :: before), r, after. repeat split; try assumption.
      constructor; assumption.
    + constructor; assumption.
Qed.

(** ** The availability query of the edge function *)

Section ServerAvailability.

Lemma pushTime_keys (av : gmap string (list string)) (day timePart k : string) :
  is_Some (Server.pushTime av day timePart !! k) -> k = day \/ is_Some (av !! k).
Proof.
  unfold Server.pushTime.
  destruct (includes _ _); (destruct (decide (k = day)) as [->|Hne];
    [left; reflexivity|rewrite lookup_insert_ne by congruence; right; assumption]).
Qed.

Lemma entryStep_weekdayKeys (st : gmap string (list string) * option string)
    (entry : string) :
  weekdayKeys st -> weekdayKeys (Server.entryStep st entry).
Proof.
  destruct st as [av cur]. intros [Hkeys Hcur]. cbn [fst snd] in *.
  unfold Server.entryStep.
  destruct (String.eqb (trim entry) ""); [split; assumption|].
  destruct (List.find _ Server.validDays) as [foundDay|] eqn:Hfind.
  - apply find_some in Hfind as [Hday _].
    destruct (Server.timeRegex _); split; cbn [fst snd].
    + intros k Hk. apply pushTime_keys in Hk as [->|Hk]; [exact Hday|apply Hkeys, Hk].
    + intros d [= <-]. exact Hday.
    + exact Hkeys.
    + intros d [= <-]. exact Hday.
  - destruct cur as [day|]; [|split; assumption].
    destruct (Server.timeRegex _); [|split; assumption].
    split; cbn [fst snd]; [|exact Hcur].
    intros k Hk. apply pushTime_keys in Hk as [->|Hk];
      [apply Hcur; reflexivity|apply Hkeys, Hk].
Qed.

Lemma fold_entryStep_weekdayKeys (entries : list string) :
  forall st, weekdayKeys st -> weekdayKeys (fold_left Server.entryStep entries st).
Proof.
  induction entries as [|e entries IH]; intros st Hst; [exact Hst|].
  cbn [fold_left]. apply IH, entryStep_weekdayKeys, Hst.
Qed.

Lemma take_take_5 (s : string) : take 5 (take 5 s) = take 5 s.
Proof.
  destruct s as [|a [|b [|c [|d [|e s]]]]]; reflexivity.
Qed.

Lemma take_5_short (s : string) :
  String.eqb (take 5 s) "" = String.eqb s ""
  /\ Nat.ltb (String.length (take 5 s)) 5 = Nat.ltb (String.length s) 5.
Proof.
  destruct s as [|a [|b [|c [|d [|e s]]]]]; split; reflexivity.
Qed.

End ServerAvailability.

(** X8. The edge function finds a student available only on a day that
    is one of the seven capitalised names of the week and at a time
    whose first five characters read HH:MM, and only from an
    availability text that has a colon; of the time it reads the first
    five characters only, so that seconds make no difference. *)
Theorem server_available_only_when_listed
    (availabilityString : field string) (targetDay targetTime : string) :
  (Server.isStudentAvailable availabilityString targetDay targetTime = true ->
   In targetDay Server.validDays
   /\ Server.timeRegex (take 5 targetTime) = true
   /\ exists text, availabilityString = Val text /\ includesChar ":" text = true)
  /\ Server.isStudentAvailable availabilityString targetDay targetTime
     = Server.isStudentAvailable availabilityString targetDay (take 5 targetTime).
Proof.
  split.
  - intros Hav.
    assert (Hcolon : exists text, availabilityString = Val text
                                  /\ includesChar ":" text = true).
    { destruct availabilityString as [| |text]; try discriminate Hav.
      exists text. split; [reflexivity|].
      destruct (includesChar ":" text) eqn:Hc; [reflexivity|].
      unfold Server.isStudentAvailable in Hav.
      destruct (truthyStr (Val text)) as [t|] eqn:Ht; [|discriminate].
      apply truthyStr_Some in Ht as [[= <-] _].
      destruct (_ || _); [discriminate|]. destruct (negb _); [discriminate|].
      unfold Server.availabilityLookup in Hav.
      rewrite (server_parse_without_colon _ Hc) in Hav. cbn [fst] in Hav.
      rewrite server_query_empty in Hav. discriminate. }
    unfold Server.isStudentAvailable in Hav.
    destruct (truthyStr availabilityString) as [text|]; [|discriminate].
    destruct (_ || _); [discriminate|].
    destruct (Server.timeRegex (take 5 targetTime)); [|discriminate].
    cbn [negb] in Hav. split; [|split; [reflexivity|exact Hcolon]].
    unfold Server.availabilityLookup, getProperty in Hav.
    destruct (fold_entryStep_weekdayKeys (split ";" text) (∅, None)) as [Hkeys _].
    { split; cbn [fst snd]; [|discriminate].
      intros k [x Hx]. rewrite lookup_empty in Hx. discriminate. }
    destruct (fst _ !! targetDay) as [times|] eqn:Hlook.
    + apply Hkeys. exists times. exact Hlook.
    + destruct (includes objectPrototypeKeys targetDay); discriminate.
  - unfold Server.isStudentAvailable.
    destruct (take_5_short targetTime) as [-> ->]. rewrite take_take_5. reflexivity.
Qed.

Lemma server_available_only_when_listed_witness :
  In "Monday" Server.validDays
  /\ Server.timeRegex (take 5 "09:00:00") = true
  /\ exists text, Val "Monday: 09:00" = Val text /\ includesChar ":" text = true.
Proof.
  apply (proj1 (server_available_only_when_listed (Val "Monday: 09:00") "Monday" "09:00:00")).
  vm_compute. reflexivity.
Defined.

(** ** The block model, by type *)

Section BlockTypes.

Lemma client_blockApplies_server (c : Client.Student) (coachId : Z) (b : DailyBlock) :
  Client.blockApplies c coachId b
  = Server.blockApplies (pupilDetails (Client.class_name c)) coachId b.
Proof. reflexivity. Qed.

Lemma classAbsence_applies (className : field string) (ident : option string) :
  match ident, truthyStr className with
  | Some i, Some cls => negb (String.eqb i "") && String.eqb cls i
  | _, _ => false
  end = true
  <-> exists i, ident = Some i /\ i <> "" /\ className = Val i.
Proof.
  split.
  - destruct ident as [i|]; [|discriminate].
    destruct (truthyStr className) as [cls|] eqn:Hcls; [|discriminate].
    intros H. apply andb_true_iff in H as [Hi Heq].
    apply negb_true_iff, String.eqb_neq in Hi. apply String.eqb_eq in Heq. subst cls.
    apply truthyStr_Some in Hcls as [-> _].
    exists i. repeat split; [exact Hi].
  - intros (i & -> & Hi & ->). rewrite (truthyStr_Val i Hi).
    apply String.eqb_neq in Hi. rewrite Hi, String.eqb_refl. reflexivity.
Qed.

Lemma coachUnavailable_applies (coachId : Z) (ident : option string) :
  match ident with
  | Some i =>
      negb (String.eqb i "")
      && match parseInt i with Some n => n =? coachId | None => false end
  | None => false
  end = true
  <-> exists i, ident = Some i /\ parseInt i = Some coachId.
Proof.
  split.
  - destruct ident as [i|]; [|discriminate].
    intros H. apply andb_true_iff in H as [_ H].
    destruct (parseInt i) as [n|] eqn:Hn; [|discriminate].
    apply Z.eqb_eq in H. subst n. exists i. split; [reflexivity|exact Hn].
  - intros (i & -> & Hi). rewrite Hi, Z.eqb_refl.
    destruct (String.eqb_spec i "") as [->|_]; [discriminate Hi|reflexivity].
Qed.

Lemma server_blockApplies_matches (s : Server.StudentDetails) (coachId : Z) (b : DailyBlock) :
  Server.blockApplies s coachId b = true
  <-> blockMatches (Server.class_name s) coachId b.
Proof.
  unfold Server.blockApplies, blockMatches.
  destruct (String.eqb_spec (block_type b) "Public Holiday") as [Hph|Hph].
  { split; [intros _; left; exact Hph|reflexivity]. }
  destruct (String.eqb_spec (block_type b) "Year Level Absence") as [Hyl|Hyl].
  { rewrite yearLevel_applies. split.
    - intros H. right. left. split; [exact Hyl|exact H].
    - intros [H|[[_ H]|[[H _]|[H _]]]]; [congruence|exact H|congruence|congruence]. }
  destruct (String.eqb_spec (block_type b) "Class Absence") as [Hca|Hca].
  { rewrite classAbsence_applies. split.
    - intros H. right. right. left. split; [exact Hca|exact H].
    - intros [H|[[H _]|[[_ H]|[H _]]]]; [congruence|congruence|exact H|congruence]. }
  destruct (String.eqb_spec (block_type b) "Coach Unavailable") as [Hcu|Hcu].
  { rewrite coachUnavailable_applies. split.
    - intros H. right. right. right. split; [exact Hcu|exact H].
    - intros [H|[[H _]|[[H _]|[_ H]]]]; [congruence|congruence|congruence|exact H]. }
  split; [discriminate|].
  intros [H|[[H _]|[[H _]|[H _]]]]; congruence.
Qed.

Lemma server_blocked_iff (s : Server.StudentDetails) (date : field string) (coachId : Z)
    (blocks : list DailyBlock) :
  Server.isStudentBlocked (Some s) date coachId (Some blocks) = true
  <-> exists d b, date = Val d /\ d <> "" /\ In b blocks /\ block_date b = d
                  /\ Server.blockApplies s coachId b = true.
Proof.
  unfold Server.isStudentBlocked. split.
  - destruct (truthyStr date) as [d|] eqn:Hd; [|discriminate].
    apply truthyStr_Some in Hd as [-> Hd].
    rewrite server_blockLoop_existsb. intros H.
    apply existsb_exists in H as (b & Hb & H). apply andb_true_iff in H as [Hdate Happ].
    apply String.eqb_eq in Hdate. exists d, b. repeat split; assumption.
  - intros (d & b & -> & Hd & Hb & Hdate & Happ). rewrite (truthyStr_Val d Hd).
    rewrite server_blockLoop_existsb. apply existsb_exists. exists b.
    split; [exact Hb|]. rewrite Happ, andb_true_r. apply String.eqb_eq. exact Hdate.
Qed.

Lemma client_blocked_server (c : Client.Student) (date : field string) (coachId : Z)
    (blocks : option (list DailyBlock)) :
  Client.isStudentBlocked (Some c) date coachId blocks
  = Server.isStudentBlocked (Some (pupilDetails (Client.class_name c))) date coachId blocks.
Proof.
  unfold Client.isStudentBlocked, Server.isStudentBlocked.
  destruct (truthyStr date) as [d|]; [|reflexivity].
  destruct blocks as [blocks|]; [|reflexivity].
  induction blocks as [|b blocks IH]; [reflexivity|].
  cbn [Client.blockLoop Server.blockLoop].
  rewrite IH, client_blockApplies_server. reflexivity.
Qed.

End BlockTypes.

(** X9. The block model, for both copies of [isStudentBlocked]: a student
    is blocked exactly when the date is present and some block of that
    date is a public holiday, a year-level absence whose identifier
    begins the student's class name, a class absence whose identifier is
    the class name, or the unavailability of the slot's coach, whose id
    [parseInt] reads from the identifier, as a double. Blocks of any
    other type never block. *)
Theorem blocked_iff_a_block_matches
    (details : Server.StudentDetails) (student : Client.Student)
    (date : field string) (coachId : Z) (blocks : list DailyBlock) :
  (Server.isStudentBlocked (Some details) date coachId (Some blocks) = true
   <-> exists d b, date = Val d /\ d <> "" /\ In b blocks /\ block_date b = d
                   /\ blockMatches (Server.class_name details) coachId b)
  /\ (Client.isStudentBlocked (Some student) date coachId (Some blocks) = true
      <-> exists d b, date = Val d /\ d <> "" /\ In b blocks /\ block_date b = d
                      /\ blockMatches (Client.class_name student) coachId b).
Proof.
  split; [|rewrite client_blocked_server]; rewrite server_blocked_iff.
  - split; intros (d & b & Hdate & Hd & Hb & Hbd & H); exists d, b;
      repeat (split; [assumption|]); apply server_blockApplies_matches; exact H.
  - split; intros (d & b & Hdate & Hd & Hb & Hbd & H); exists d, b;
      repeat (split; [assumption|]);
      apply (server_blockApplies_matches (pupilDetails (Client.class_name student)));
      exact H.
Qed.

(** X10. A student who is blocked under a list of blocks is blocked under
    every list that contains those blocks: neither the order of the
    blocks nor further blocks can lift a block. *)
Theorem blocked_is_monotone
    (details : Server.StudentDetails) (student : Client.Student)
    (date : field string) (coachId : Z) (blocks blocks' : list DailyBlock) :
  (forall b, In b blocks -> In b blocks') ->
  (Server.isStudentBlocked (Some details) date coachId (Some blocks) = true ->
   Server.isStudentBlocked (Some details) date coachId (Some blocks') = true)
  /\ (Client.isStudentBlocked (Some student) date coachId (Some blocks) = true ->
      Client.isStudentBlocked (Some student) date coachId (Some blocks') = true).
Proof.
  intros Hincl. rewrite !client_blocked_server, !server_blocked_iff.
  split; intros (d & b & Hdate & Hd & Hb & H); exists d, b;
    (split; [exact Hdate|]; split; [exact Hd|]; split; [apply Hincl; exact Hb|exact H]).
Qed.

Lemma blocked_is_monotone_witness :
  Server.isStudentBlocked (Some (pupilDetails (Val "Year 7A"))) (Val "2025-03-03") 7
    (Some (otherClassAway ++ holiday)) = true
  /\ Client.isStudentBlocked (Some (pupil (Val "Year 7A"))) (Val "2025-03-03") 7
       (Some (otherClassAway ++ holiday)) = true.
Proof.
  destruct (blocked_is_monotone (pupilDetails (Val "Year 7A")) (pupil (Val "Year 7A"))
              (Val "2025-03-03") 7 holiday (otherClassAway ++ holiday)) as [Hs Hc].
  - intros b Hb. apply in_or_app. right. exact Hb.
  - split; [apply Hs|apply Hc]; vm_compute; reflexivity.
Defined.

(** X11. The two copies of [isStudentBlocked] agree: for a student with
    the same class name, the same date, coach and blocks, the edge
    function and the log viewer give the same answer. *)
Theorem block_copies_agree
    (details : Server.StudentDetails) (student : Client.Student)
    (date : field string) (coachId : Z) (blocks : option (list DailyBlock)) :
  Server.class_name details = Client.class_name student ->
  Server.isStudentBlocked (Some details) date coachId blocks
  = Client.isStudentBlocked (Some student) date coachId blocks.
Proof.
  intros Hcls. rewrite client_blocked_server, <- Hcls.
  unfold Server.isStudentBlocked.
  destruct (truthyStr date) as [d|]; [|reflexivity].
  destruct blocks as [blocks|]; [|reflexivity].
  induction blocks as [|b blocks IH]; [reflexivity|].
  cbn [Server.blockLoop]. rewrite IH. reflexivity.
Qed.

Lemma block_copies_agree_witness :
  Server.isStudentBlocked (Some (pupilDetails (Val "Year 7A"))) (Val "2025-03-03") 7
    (Some holiday)
  = Client.isStudentBlocked (Some (pupil (Val "Year 7A"))) (Val "2025-03-03") 7
      (Some holiday).
Proof.
  apply (block_copies_agree (pupilDetails (Val "Year 7A")) (pupil (Val "Year 7A"))).
  reflexivity.
Defined.

(** An identifier is read as a double: 9007199254740993 is none, so the
    identifier "9007199254740993" names the coach 9007199254740992 in
    both copies, and a number beyond the doubles is [Infinity]. *)
Example coach_identifier_read_as_double :
  parseInt "9007199254740993" = Some 9007199254740992
  /\ parseInt "9007199254740995" = Some 9007199254740996
  /\ Server.isStudentBlocked (Some (pupilDetails (Val "Year 7A"))) (Val "2025-03-03")
       9007199254740992
       (Some [blockOn "2025-03-03" "Coach Unavailable" (Some "9007199254740993")])
     = true
  /\ Client.isStudentBlocked (Some (pupil (Val "Year 7A"))) (Val "2025-03-03")
       9007199254740992
       (Some [blockOn "2025-03-03" "Coach Unavailable" (Some "9007199254740993")])
     = true
  /\ roundToDouble (10 ^ 309) = infinity.
Proof. repeat split; vm_compute; reflexivity. Qed.

(** ** [parseTime] and [formatTime] *)

Section Times.

Lemma roundTrips_day : forallb roundTrips (seq 0 1440) = true.
Proof. vm_compute. reflexivity. Qed.

Lemma roundTrips_below (m : nat) : (m < 1440)%nat -> roundTrips m = true.
Proof.
  intros Hm. pose proof roundTrips_day as H.
  rewrite forallb_forall in H. apply H. apply in_seq. lia.
Qed.

Lemma formatTime_mod (m : nat) :
  Client.formatTime (Some m) = Client.formatTime (Some (m mod 1440)%nat).
Proof.
  unfold Client.formatTime.
  assert (H1 : ((m / 60) mod 24 = (m mod 1440 / 60) mod 24)%nat).
  { pose proof (Nat.div_mod_eq m 1440) as Hm.
    pose proof (Nat.mod_upper_bound m 1440 ltac:(lia)) as Hr.
    set (q := (m / 1440)%nat) in *. set (r := (m mod 1440)%nat) in *.
    rewrite Hm. replace (1440 * q + r)%nat with (r + (24 * q) * 60)%nat by lia.
    rewrite Nat.div_add by lia.
    replace (r / 60 + 24 * q)%nat with (r / 60 + q * 24)%nat by lia.
    rewrite Nat.Div0.mod_add. reflexivity. }
  assert (H2 : (m mod 60 = (m mod 1440) mod 60)%nat).
  { pose proof (Nat.div_mod_eq m 1440) as Hm.
    set (q := (m / 1440)%nat) in *. set (r := (m mod 1440)%nat) in *.
    rewrite Hm at 1. replace (1440 * q + r)%nat with (r + (24 * q) * 60)%nat by lia.
    rewrite Nat.Div0.mod_add. reflexivity. }
  rewrite H1, H2. reflexivity.
Qed.

Lemma validTime_bound (hours minutes : Z) (m : nat) :
  Client.validTime hours minutes = Some m -> (m < 1440)%nat.
Proof.
  unfold Client.validTime.
  destruct (Z.ltb_spec hours 0); [discriminate|].
  destruct (Z.ltb_spec 23 hours); [discriminate|].
  destruct (Z.ltb_spec minutes 0); [discriminate|].
  destruct (Z.ltb_spec 59 minutes); [discriminate|].
  cbn [orb]. intros [= <-]. lia.
Qed.

Lemma parseTime_bound (s : string) (m : nat) :
  Client.parseTime s = Some m -> (m < 1440)%nat.
Proof.
  unfold Client.parseTime. destruct (String.eqb s ""); [discriminate|].
  destruct (Client.secondsMatch _) as [[[h mi] p]|]; [apply validTime_bound|].
  destruct (Client.colonMatch _) as [[[h mi] p]|]; [apply validTime_bound|].
  destruct (Client.noColonMatch _) as [[h mi]|]; [apply validTime_bound|discriminate].
Qed.

Lemma clockTime_parses (t : string) :
  clockTime t ->
  Server.timeRegex t = true /\ Client.formatTime (Client.parseTime t) = Some t.
Proof.
  intros (m & Hm & Hfmt). pose proof (roundTrips_below m Hm) as H.
  unfold roundTrips in H. rewrite Hfmt in H.
  apply andb_true_iff in H as [Hre H]. split; [exact Hre|].
  destruct (Client.parseTime t) as [m'|]; [|discriminate].
  apply Nat.eqb_eq in H. subst m'. exact Hfmt.
Qed.

End Times.

(** X12. Round trip of the clock: [formatTime] writes every minute count
    as a text of the form HH:MM, and [parseTime] reads that text back as
    the same minute of the day (the count modulo 24 hours). *)
Theorem format_then_parse (minutes : nat) :
  exists t,
    Client.formatTime (Some minutes) = Some t
    /\ Server.timeRegex t = true
    /\ Client.parseTime t = Some (minutes mod 1440)%nat.
Proof.
  pose proof (Nat.mod_upper_bound minutes 1440 ltac:(lia)) as Hr.
  pose proof (roundTrips_below _ Hr) as H. unfold roundTrips in H.
  rewrite <- formatTime_mod in H.
  destruct (Client.formatTime (Some minutes)) as [t|]; [|discriminate].
  exists t. apply andb_true_iff in H as [Hre H]. split; [reflexivity|]. split; [exact Hre|].
  destruct (Client.parseTime t) as [m'|]; [|discriminate].
  apply Nat.eqb_eq in H. rewrite H. reflexivity.
Qed.

(** X13. Whatever text [parseTime] accepts denotes a minute of the day
    below 24 hours, and its normal form [formatTime (parseTime text)] is
    a text HH:MM that parses to the same minute and is its own normal
    form. *)
Theorem parse_then_format (text : string) (minutes : nat) :
  Client.parseTime text = Some minutes ->
  (minutes < 1440)%nat
  /\ exists t,
       Client.formatTime (Client.parseTime text) = Some t
       /\ Server.timeRegex t = true
       /\ Client.parseTime t = Some minutes
       /\ Client.formatTime (Client.parseTime t) = Some t.
Proof.
  intros Hparse. pose proof (parseTime_bound _ _ Hparse) as Hm.
  split; [exact Hm|]. rewrite Hparse.
  pose proof (roundTrips_below _ Hm) as H. unfold roundTrips in H.
  destruct (Client.formatTime (Some minutes)) as [t|] eqn:Hfmt; [|discriminate].
  exists t. apply andb_true_iff in H as [Hre H].
  destruct (Client.parseTime t) as [m'|]; [|discriminate].
  apply Nat.eqb_eq in H. subst m'. repeat split; assumption.
Qed.

Lemma parse_then_format_witness :
  (570 < 1440)%nat
  /\ exists t,
       Client.formatTime (Client.parseTime " 9:30 AM") = Some t
       /\ Server.timeRegex t = true
       /\ Client.parseTime t = Some 570%nat
       /\ Client.formatTime (Client.parseTime t) = Some t.
Proof.
  apply (parse_then_format " 9:30 AM" 570). vm_compute. reflexivity.
Defined.

(** ** The availability object of the browser *)

Section ParsedAvailability.

Lemma formatTime_clock (m : nat) (t : string) :
  (m < 1440)%nat -> Client.formatTime (Some m) = Some t -> clockTime t.
Proof. intros Hm Hfmt. exists m. split; assumption. Qed.

Lemma addTime_clock (times : gset string) (time : string) :
  (forall t, t ∈ times -> clockTime t) ->
  forall t, t ∈ Client.addTime times time -> clockTime t.
Proof.
  intros Hwf t. unfold Client.addTime.
  destruct (includesChar "-" time).
  - destruct (split "-" time) as [|startStr [|endStr rest]]; try apply Hwf.
    destruct (Client.parseTime startStr) as [startTime|]; [|apply Hwf].
    destruct (Client.parseTime endStr) as [endTime|] eqn:Hend; [|apply Hwf].
    destruct (Nat.ltb startTime endTime); [|apply Hwf].
    pose proof (parseTime_bound _ _ Hend) as Hbound.
    rewrite rangeLoop_spec by lia.
    intros [Ht|(k & Hk & Hfmt)]; [apply Hwf; exact Ht|].
    apply (formatTime_clock (startTime + 30 * k)); [lia|exact Hfmt].
  - destruct (Client.parseTime time) as [m|] eqn:Hparse; [|apply Hwf].
    destruct (Client.formatTime (Some m)) as [formatted|] eqn:Hfmt; [|apply Hwf].
    rewrite elem_of_union, elem_of_singleton.
    intros [->|Ht]; [|apply Hwf; exact Ht].
    apply (formatTime_clock m); [apply (parseTime_bound _ _ Hparse)|exact Hfmt].
Qed.

Lemma fold_addTime_clock (tokens : list string) :
  forall times,
    (forall t, t ∈ times -> clockTime t) ->
    forall t, t ∈ fold_left Client.addTime tokens times -> clockTime t.
Proof.
  induction tokens as [|time tokens IH]; intros times Hwf; [exact Hwf|].
  cbn [fold_left]. apply IH, addTime_clock, Hwf.
Qed.

Lemma includes_In (l : list string) (x : string) : includes l x = true -> In x l.
Proof.
  unfold includes. intros H. apply existsb_exists in H as (y & Hy & Heq).
  apply String.eqb_eq in Heq. subst y. exact Hy.
Qed.

Lemma entryStep_wellFormed (availability : gmap string (gset string)) (entry : string) :
  wellFormedAvailability availability ->
  wellFormedAvailability (Client.entryStep availability entry).
Proof.
  intros Hwf. unfold Client.entryStep.
  destruct (Client.splitFirstColon entry) as [[dayPart rest]|]; [|exact Hwf].
  destruct (includes Client.validDays (toLowerCase (trim dayPart))) eqn:Hday;
    [|exact Hwf].
  cbn [negb]. destruct (String.eqb (trim rest) ""); [exact Hwf|].
  intros day times Hlook.
  destruct (decide (day = toLowerCase (trim dayPart))) as [->|Hne].
  - rewrite lookup_insert_eq in Hlook. injection Hlook as <-.
    split; [apply includes_In; exact Hday|].
    apply fold_addTime_clock.
    destruct (availability !! toLowerCase (trim dayPart)) as [old|] eqn:Hold; cbn [default].
    + apply (Hwf _ _ Hold).
    + intros t Ht. apply elem_of_empty in Ht. destruct Ht.
  - rewrite lookup_insert_ne in Hlook by congruence. apply (Hwf _ _ Hlook).
Qed.

Lemma parseAvailability_wellFormed (availabilityString : field string) :
  wellFormedAvailability (Client.parseAvailability availabilityString).
Proof.
  unfold Client.parseAvailability.
  assert (Hempty : wellFormedAvailability ∅).
  { intros day times Hlook. rewrite lookup_empty in Hlook. discriminate. }
  destruct (truthyStr availabilityString) as [text|]; [|exact Hempty].
  generalize (List.filter Client.nonEmpty (map trim (Client.splitEntries text))).
  generalize (∅ : gmap string (gset string)) Hempty.
  intros av Hav entries. revert av Hav.
  induction entries as [|e entries IH]; intros av Hav; [exact Hav|].
  cbn [fold_left]. apply IH, entryStep_wellFormed, Hav.
Qed.

End ParsedAvailability.

(** X14. What [parseAvailability] returns is well formed, whatever the
    text: every day it lists is one of the seven lower-case names of the
    week, and every time of a day is a time of day below 24 hours, written
    HH:MM in its normal form. *)
Theorem parsed_availability_is_well_formed
    (availabilityString : field string) (day : string) (times : gset string) (t : string) :
  Client.parseAvailability availabilityString !! day = Some times ->
  t ∈ times ->
  In day Client.validDays
  /\ (exists m : nat, (m < 1440)%nat /\ Client.formatTime (Some m) = Some t)
  /\ Server.timeRegex t = true
  /\ Client.formatTime (Client.parseTime t) = Some t.
Proof.
  intros Hlook Ht.
  destruct (parseAvailability_wellFormed availabilityString day times Hlook) as [Hday Hclock].
  split; [exact Hday|]. split; [exact (Hclock t Ht)|].
  apply clockTime_parses, Hclock, Ht.
Qed.

Lemma parsed_availability_is_well_formed_witness :
  In "monday" Client.validDays
  /\ (exists m : nat, (m < 1440)%nat /\ Client.formatTime (Some m) = Some "09:30")
  /\ Server.timeRegex "09:30" = true
  /\ Client.formatTime (Client.parseTime "09:30") = Some "09:30".
Proof.
  apply (parsed_availability_is_well_formed (Val "Monday: 09:00-10:00") "monday"
           (default ∅ (Client.parseAvailability (Val "Monday: 09:00-10:00") !! "monday"))
           "09:30").
  - vm_compute. reflexivity.
  - apply (bool_decide_unpack _). vm_compute. exact I.
Defined.



(** ** The browser's checker, characterised *)

Section ClientChecker.

Lemma groupTypes_elem (occupants : list (option Client.Student)) (n : Z) :
  n ∈ (list_to_set (omap Client.numericGroupOf occupants) : gset Z)
  <-> exists o, In o occupants /\ Client.numericGroupOf o = Some n.
Proof.
  rewrite elem_of_list_to_set, list_elem_of_omap.
  split; intros (o & Ho & Hn); exists o; (split; [apply list_elem_of_In; exact Ho|exact Hn]).
Qed.

Lemma groupTypes_size (occupants : list (option Client.Student)) :
  Nat.ltb 0 (size (list_to_set (omap Client.numericGroupOf occupants) : gset Z)) = true
  <-> exists o n, In o occupants /\ Client.numericGroupOf o = Some n.
Proof.
  rewrite Nat.ltb_lt. split.
  - intros Hsize.
    destruct (set_choose_L (list_to_set (omap Client.numericGroupOf occupants) : gset Z))
      as [n Hn].
    { intros Hempty. rewrite Hempty, size_empty in Hsize. lia. }
    apply groupTypes_elem in Hn as (o & Ho & Hn). exists o, n. split; assumption.
  - intros (o & n & Ho & Hn).
    assert (Hin : n ∈ (list_to_set (omap Client.numericGroupOf occupants) : gset Z))
      by (apply groupTypes_elem; exists o; split; assumption).
    apply Nat.neq_0_lt_0. intros Hsize. apply size_empty_inv in Hsize.
    apply (not_elem_of_empty (C := gset Z) n). rewrite <- Hsize. exact Hin.
Qed.

Lemma client_group_types (newStudentGroup : Z) (occupants : list (option Client.Student)) :
  Client.groupTypeViolation newStudentGroup occupants = None
  <-> compatibleGroups newStudentGroup occupants.
Proof.
  unfold Client.groupTypeViolation, compatibleGroups.
  destruct (newStudentGroup =? 1).
  { destruct occupants; cbn; split; congruence. }
  destruct (newStudentGroup =? 2).
  - destruct (bool_decide_reflect
                (1 ∈ (list_to_set (omap Client.numericGroupOf occupants) : gset Z)))
      as [H1|H1].
    { split; [discriminate|]. intros [_ Hall].
      apply groupTypes_elem in H1 as (o & Ho & Hn). specialize (Hall o 1 Ho Hn). lia. }
    destruct (Nat.ltb 0 (size _)) eqn:Hsize;
      destruct (bool_decide_reflect
                  (2 ∈ (list_to_set (omap Client.numericGroupOf occupants) : gset Z)))
        as [H2|H2]; cbn [negb andb].
    + (* some numeric group size, and 2 among them *)
      destruct occupants as [|o1 [|o2 rest]]; cbn [length Nat.ltb Nat.leb andb].
      * split; [intros _|reflexivity]. split; [lia|]. intros o n [].
      * split; [intros _|reflexivity]. split; [lia|].
        intros o n [<-|[]] Hn.
        apply groupTypes_elem in H2 as (o' & [<-|[]] & Hn'). congruence.
      * split; [discriminate|]. intros [Hlen _]. cbn [length] in Hlen. lia.
    + split; [discriminate|]. intros [_ Hall].
      apply groupTypes_size in Hsize as (o & n & Ho & Hn).
      exfalso. apply H2. apply groupTypes_elem. exists o. split; [exact Ho|].
      rewrite Hn. f_equal. apply (Hall o n Ho Hn).
    + apply groupTypes_elem in H2 as (o & Ho & Hn).
      assert (Hpos : Nat.ltb 0 (size (list_to_set (omap Client.numericGroupOf occupants)
                                      : gset Z)) = true)
        by (apply groupTypes_size; exists o, 2; split; assumption).
      congruence.
    + (* no numeric group size at all *)
      assert (Hnone : forall o n, In o occupants -> Client.numericGroupOf o = Some n -> False).
      { intros o n Ho Hn.
        assert (Hpos : Nat.ltb 0 (size (list_to_set (omap Client.numericGroupOf occupants)
                                        : gset Z)) = true)
          by (apply groupTypes_size; exists o, n; split; assumption).
        congruence. }
      destruct occupants as [|o1 [|o2 rest]]; cbn [length Nat.ltb Nat.leb andb].
      * split; [intros _|reflexivity]. split; [lia|]. intros o n [].
      * split; [intros _|reflexivity]. split; [lia|].
        intros o n Ho Hn. destruct (Hnone o n Ho Hn).
      * split; [discriminate|]. intros [Hlen _]. cbn [length] in Hlen. lia.
  - destruct (bool_decide_reflect
                (1 ∈ (list_to_set (omap Client.numericGroupOf occupants) : gset Z)))
      as [H1|H1].
    { split; [discriminate|]. intros Hall.
      apply groupTypes_elem in H1 as (o & Ho & Hn). destruct (Hall o 1 Ho Hn); congruence. }
    destruct (bool_decide_reflect
                (2 ∈ (list_to_set (omap Client.numericGroupOf occupants) : gset Z)))
      as [H2|H2].
    { split; [discriminate|]. intros Hall.
      apply groupTypes_elem in H2 as (o & Ho & Hn). destruct (Hall o 2 Ho Hn); congruence. }
    split; [intros _|reflexivity].
    intros o n Ho Hn. split; intros ->.
    + apply H1, groupTypes_elem. exists o. split; assumption.
    + apply H2, groupTypes_elem. exists o. split; assumption.
Qed.

Lemma client_sub_groups (newStudent : Client.Student)
    (occupants : list (option Client.Student)) :
  Client.subGroupViolation newStudent occupants = None
  <-> compatibleSubGroup newStudent occupants.
Proof.
  unfold compatibleSubGroup. split.
  - intros Hnone established own Hest Hown.
    destruct (String.eqb_spec own established) as [Heq|Hne]; [exact Heq|].
    assert (Hsome : is_Some (Client.subGroupViolation newStudent occupants)).
    { apply client_subgroup_gate. exists established, own. repeat split; assumption. }
    rewrite Hnone in Hsome. destruct Hsome as [x Hx]. discriminate.
  - intros Hcompat.
    destruct (Client.subGroupViolation newStudent occupants) as [why|] eqn:Hv; [|reflexivity].
    assert (Hsome : is_Some (Client.subGroupViolation newStudent occupants))
      by (rewrite Hv; eexists; reflexivity).
    apply client_subgroup_gate in Hsome as (established & own & Hest & Hown & Hne).
    destruct (Hne (Hcompat _ _ Hest Hown)).
Qed.

Lemma client_accepts (newStudent : Client.Student)
    (occupants : list (option Client.Student)) (slotCapacity : JsVal) :
  Client.violation
    (Client.checkPairingRuleViolation (Some newStudent) (Client.Array occupants) slotCapacity)
  = false
  <-> exists g cap,
        Client.groupOf newStudent = VNum g
        /\ slotCapacity = VNum cap
        /\ 1 <= cap
        /\ Z.of_nat (length occupants) + 1 <= cap
        /\ compatibleGroups g occupants
        /\ compatibleSubGroup newStudent occupants.
Proof.
  unfold Client.checkPairingRuleViolation.
  destruct (Client.groupOf newStudent) as [| | |g|];
    try (split; [discriminate|intros (g' & cap' & Hg & _); discriminate Hg]).
  destruct slotCapacity as [| | |cap|]; cbn [isNumberArg isNumber lessThan negb orb];
    try (split; [discriminate|intros (g' & cap' & _ & Hc & _); discriminate Hc]).
  destruct (Z.ltb_spec cap 1) as [Hlow|Hlow].
  { split; [discriminate|]. intros (g' & cap' & _ & [= <-] & Hcap & _). lia. }
  destruct (Z.ltb_spec cap (Z.of_nat (S (length occupants)))) as [Hfull|Hroom].
  { split; [discriminate|]. intros (g' & cap' & _ & [= <-] & _ & Hcount & _). lia. }
  destruct (Client.groupTypeViolation g occupants) as [why|] eqn:Hgroup.
  { split; [discriminate|].
    intros (g' & cap' & [= <-] & _ & _ & _ & Hg & _).
    apply client_group_types in Hg. congruence. }
  destruct (Client.subGroupViolation newStudent occupants) as [why|] eqn:Hsub.
  { split; [discriminate|].
    intros (g' & cap' & _ & _ & _ & _ & _ & Hs).
    apply client_sub_groups in Hs. congruence. }
  split; [intros _|reflexivity].
  exists g, cap. split; [reflexivity|]. split; [reflexivity|]. split; [lia|].
  split; [lia|]. split; [apply client_group_types; exact Hgroup|].
  apply client_sub_groups; exact Hsub.
Qed.

End ClientChecker.


(** ** The two checkers compared *)

Section Stricter.

Lemma occupant_group_size (occupantObjects : list Client.Student)
    (occupantDetails : list Server.StudentDetails) (s : Server.StudentDetails) :
  Forall2 (fun c s => Client.groupOf c = Server.groupOf s) occupantObjects occupantDetails ->
  Forall (fun c => isNumber (Client.groupOf c) = true) occupantObjects ->
  In s occupantDetails ->
  exists c, In (Some c) (map Some occupantObjects)
            /\ Client.numericGroupOf (Some c) = Some (Server.groupSize (Some s)).
Proof.
  induction 1 as [|c s' cs ss Hg _ IH]; intros Hnum; [intros []|].
  apply Forall_cons_iff in Hnum as [Hc Hnum]. intros [<-|Hin].
  - exists c. split; [left; reflexivity|].
    unfold Client.numericGroupOf, Server.groupSize. rewrite <- Hg.
    destruct (Client.groupOf c); try discriminate Hc. reflexivity.
  - destruct (IH Hnum Hin) as (c' & Hc' & Hn). exists c'. split; [right; exact Hc'|exact Hn].
Qed.

Lemma no_occupant_of_size (occupantObjects : list Client.Student)
    (occupantDetails : list Server.StudentDetails) (n : Z) :
  Forall2 (fun c s => Client.groupOf c = Server.groupOf s) occupantObjects occupantDetails ->
  Forall (fun c => isNumber (Client.groupOf c) = true) occupantObjects ->
  (forall o m, In o (map Some occupantObjects) -> Client.numericGroupOf o = Some m -> m <> n) ->
  existsb (fun d => Server.groupSize d =? n) (map Some occupantDetails) = false.
Proof.
  intros Hsame Hnum Hnone. apply not_true_false. intros H.
  apply existsb_exists in H as (d & Hd & Hsize). apply Z.eqb_eq in Hsize.
  apply in_map_iff in Hd as (s & <- & Hs).
  destruct (occupant_group_size _ _ s Hsame Hnum Hs) as (c & Hc & Hn).
  apply (Hnone _ _ Hc Hn). exact Hsize.
Qed.

End Stricter.

(** X17. The browser's checker is at least as strict as the edge
    function's: for occupants with the same numeric group sizes on both
    sides and a new student of the same group size, whatever the
    browser's checker accepts, the edge function's checker accepts. *)
Theorem browser_checker_is_stricter
    (newStudent : Client.Student) (candidate : Server.StudentDetails)
    (occupantObjects : list Client.Student) (occupantDetails : list Server.StudentDetails)
    (capacity : JsVal) :
  Forall2 (fun c s => Client.groupOf c = Server.groupOf s) occupantObjects occupantDetails ->
  Forall (fun c => isNumber (Client.groupOf c) = true) occupantObjects ->
  Client.groupOf newStudent = Server.groupOf candidate ->
  Client.violation
    (Client.checkPairingRuleViolation (Some newStudent)
       (Client.Array (map Some occupantObjects)) capacity) = false ->
  Server.violation
    (Server.checkPairingRuleViolation (Some candidate)
       (Some (map Some occupantDetails)) capacity) = false.
Proof.
  intros Hsame Hnum Hnew Hacc.
  apply client_accepts in Hacc as (g & cap & Hg & -> & Hcap & Hcount & Hgroups & _).
  rewrite Hg in Hnew. symmetry in Hnew.
  rewrite server_check_violation, negb_false_iff. unfold serverAccepts.
  rewrite Hnew. cbn [isNumber andb].
  pose proof (Forall2_length _ _ _ Hsame) as Hlen.
  rewrite !length_map in *. rewrite <- Hlen.
  replace (1 <=? cap) with true by (symmetry; apply Z.leb_le; lia).
  replace (Z.of_nat (length occupantObjects) + 1 <=? cap) with true
    by (symmetry; apply Z.leb_le; lia).
  cbn [andb]. rewrite !existsb_app. cbn [existsb orb].
  assert (Hcs : isSolo (Some candidate) = (g =? 1))
    by (unfold isSolo, Server.groupSize; rewrite Hnew; reflexivity).
  assert (Hcp : isPaired (Some candidate) = (g =? 2))
    by (unfold isPaired, Server.groupSize; rewrite Hnew; reflexivity).
  rewrite Hcs, Hcp, !orb_false_r.
  unfold compatibleGroups in Hgroups.
  destruct (Z.eqb_spec g 1) as [->|Hg1].
  - apply map_eq_nil in Hgroups. subst occupantObjects.
    destruct occupantDetails; [reflexivity|discriminate Hlen].
  - destruct (Z.eqb_spec g 2) as [->|Hg2].
    + destruct Hgroups as [Hle Hall]. rewrite length_map in Hle.
      assert (Hsolo : existsb isSolo (map Some occupantDetails) = false).
      { apply (no_occupant_of_size occupantObjects occupantDetails 1 Hsame Hnum).
        intros o m Ho Hm. specialize (Hall o m Ho Hm). lia. }
      rewrite Hsolo. cbn [orb negb andb].
      replace (Nat.leb (length occupantObjects) 1) with true
        by (symmetry; apply Nat.leb_le; exact Hle).
      rewrite orb_true_r. reflexivity.
    + assert (Hsolo : existsb isSolo (map Some occupantDetails) = false).
      { apply (no_occupant_of_size occupantObjects occupantDetails 1 Hsame Hnum).
        intros o m Ho Hm. apply (Hgroups o m Ho Hm). }
      assert (Hpair : existsb isPaired (map Some occupantDetails) = false).
      { apply (no_occupant_of_size occupantObjects occupantDetails 2 Hsame Hnum).
        intros o m Ho Hm. apply (Hgroups o m Ho Hm). }
      rewrite Hsolo, Hpair. reflexivity.
Qed.

Lemma browser_checker_is_stricter_witness :
  Server.violation
    (Server.checkPairingRuleViolation (Some (detailsOf 2 2 1 None))
       (Some (map Some [detailsOf 1 2 0 None])) (VNum 2)) = false.
Proof.
  apply (browser_checker_is_stricter (ofGroup 2) (detailsOf 2 2 1 None) [ofGroup 2]
           [detailsOf 1 2 0 None] (VNum 2)).
  - repeat constructor.
  - repeat constructor.
  - reflexivity.
  - vm_compute. reflexivity.
Defined.

(** ** Lookups in the browser's roster *)

Section Lookups.

Lemma getStudentDetails_cons (studentId : JsVal) (a : Client.Student)
    (l : list Client.Student) :
  Client.getStudentDetails studentId (Some (a :: l))
  = match studentId with
    | VNull | VUndef => (None, Some (a :: l))
    | _ =>
        match parseIntVal studentId with
        | None => (Some (Client.unknownStudent studentId), Some (a :: l))
        | Some idToFind =>
            match Client.findIndex (Client.hasId idToFind) (a :: l) with
            | None => (Some (Client.unknownStudentWithDefaults studentId), Some (a :: l))
            | Some i =>
                let roster' := alter Client.normalize i (a :: l) in
                match roster' !! i with
                | Some foundStudent =>
                    match Client.Name foundStudent with
                    | Null => (Some (Client.unknownStudentWithDefaults studentId), Some roster')
                    | _ => (Some foundStudent, Some roster')
                    end
                | None => (Some (Client.unknownStudentWithDefaults studentId), Some roster')
                end
            end
        end
    end.
Proof. reflexivity. Qed.

Lemma alter_cons_shape {A : Type} (f : A -> A) (j : nat) (a : A) (l : list A) :
  exists a' l', alter f j (a :: l) = a' :: l'.
Proof. destruct j; eexists; eexists; reflexivity. Qed.

Lemma findIndex_Some {A : Type} (p : A -> bool) (l : list A) (i : nat) :
  Client.findIndex p l = Some i ->
  exists x, l !! i = Some x /\ p x = true
            /\ forall k y, (k < i)%nat -> l !! k = Some y -> p y = false.
Proof.
  revert i. induction l as [|a l IH]; intros i; cbn [Client.findIndex]; [discriminate|].
  destruct (p a) eqn:Ha.
  - intros [= <-]. exists a. repeat split; [exact Ha|]. intros k y Hk. lia.
  - destruct (Client.findIndex p l) as [i'|]; [|discriminate].
    intros [= <-]. destruct (IH i' eq_refl) as (x & Hx & Hp & Hfirst).
    exists x. repeat split; [exact Hx|exact Hp|].
    intros [|k] y Hk Hy.
    + injection Hy as <-. exact Ha.
    + apply (Hfirst k y); [lia|exact Hy].
Qed.

Lemma findIndex_None {A : Type} (p : A -> bool) (l : list A) :
  Client.findIndex p l = None -> forall x, In x l -> p x = false.
Proof.
  induction l as [|a l IH]; cbn [Client.findIndex]; [intros _ x []|].
  destruct (p a) eqn:Ha; [discriminate|].
  destruct (Client.findIndex p l); [discriminate|].
  intros _ x [<-|Hx]; [exact Ha|apply IH; [reflexivity|exact Hx]].
Qed.

Lemma lookup_after_normalize (studentId : JsVal) (roster : list Client.Student) (j : nat) :
  fst (Client.getStudentDetails studentId (Some (alter Client.normalize j roster)))
  = fst (Client.getStudentDetails studentId (Some roster)).
Proof.
  destruct roster as [|a l]; [reflexivity|].
  destruct (alter_cons_shape Client.normalize j a l) as (a' & l' & Heq).
  rewrite Heq, !getStudentDetails_cons, <- Heq. clear Heq a' l'.
  destruct studentId; try reflexivity;
    (destruct (parseIntVal _) as [idToFind|]; [|reflexivity];
     rewrite findIndex_alter by (intros x; apply normalize_hasId);
     destruct (Client.findIndex (Client.hasId idToFind) (a :: l)) as [i|]; [|reflexivity];
     cbn zeta; rewrite !list_lookup_alter_eq;
     assert (Hsame : Client.normalize <$> alter Client.normalize j (a :: l) !! i
                     = Client.normalize <$> (a :: l) !! i)
       by (destruct (decide (j = i)) as [->|Hne];
           [rewrite list_lookup_alter_eq;
            destruct ((a :: l) !! i) as [x|]; [|reflexivity];
            cbn [fmap option_fmap option_map]; rewrite normalize_idempotent; reflexivity
           |rewrite list_lookup_alter_ne by exact Hne; reflexivity]);
     rewrite Hsame;
     destruct (Client.normalize <$> (a :: l) !! i) as [found|]; [|reflexivity];
     destruct (Client.Name found); reflexivity).
Qed.

End Lookups.

(** X18. Lookups in the browser's roster do not interfere: although a
    lookup rewrites the object it finds, the result of any later lookup is
    what it would have been on the roster as it was before. *)
Theorem client_lookups_do_not_interfere
    (earlierId studentId : JsVal) (studentsData : option (list Client.Student)) :
  fst (Client.getStudentDetails studentId
         (snd (Client.getStudentDetails earlierId studentsData)))
  = fst (Client.getStudentDetails studentId studentsData).
Proof.
  destruct studentsData as [roster|]; [|reflexivity].
  destruct (lookup_roster earlierId roster) as [->|(n & i & _ & _ & ->)];
    [reflexivity|apply lookup_after_normalize].
Qed.

(** X19. What a lookup in a roster that is not empty returns: nothing
    exactly for the ids [null] and [undefined]; otherwise one of the two
    placeholder objects, which have no [Name], or the first object of the
    roster whose id is the number the id parses to, completed and with a
    [Name] that is not [null]. *)
Theorem client_lookup_result (studentId : JsVal) (roster : list Client.Student) :
  roster <> [] ->
  let result := fst (Client.getStudentDetails studentId (Some roster)) in
  (result = None <-> studentId = VNull \/ studentId = VUndef)
  /\ forall s,
       result = Some s ->
       (s = Client.unknownStudent studentId /\ parseIntVal studentId = None)
       \/ (s = Client.unknownStudentWithDefaults studentId
           /\ exists n, parseIntVal studentId = Some n)
       \/ exists n i row,
            parseIntVal studentId = Some n
            /\ roster !! i = Some row
            /\ Client.hasId n row = true
            /\ (forall k other, (k < i)%nat -> roster !! k = Some other ->
                  Client.hasId n other = false)
            /\ s = Client.normalize row
            /\ complete s
            /\ Client.Name s <> Null.
Proof.
  destruct roster as [|a l]; [intros H; destruct (H eq_refl)|]. intros _.
  cbn zeta. rewrite getStudentDetails_cons.
  assert (Hfound : forall v,
            v <> VNull -> v <> VUndef ->
            let result :=
              fst match parseIntVal v with
                  | None => (Some (Client.unknownStudent v), Some (a :: l))
                  | Some idToFind =>
                      match Client.findIndex (Client.hasId idToFind) (a :: l) with
                      | None => (Some (Client.unknownStudentWithDefaults v), Some (a :: l))
                      | Some i =>
                          let roster' := alter Client.normalize i (a :: l) in
                          match roster' !! i with
                          | Some foundStudent =>
                              match Client.Name foundStudent with
                              | Null => (Some (Client.unknownStudentWithDefaults v),
                                         Some roster')
                              | _ => (Some foundStudent, Some roster')
                              end
                          | None => (Some (Client.unknownStudentWithDefaults v), Some roster')
                          end
                      end
                  end in
            (result = None <-> v = VNull \/ v = VUndef)
            /\ forall s,
                 result = Some s ->
                 (s = Client.unknownStudent v /\ parseIntVal v = None)
                 \/ (s = Client.unknownStudentWithDefaults v
                     /\ exists n, parseIntVal v = Some n)
                 \/ exists n i row,
                      parseIntVal v = Some n
                      /\ (a :: l) !! i = Some row
                      /\ Client.hasId n row = true
                      /\ (forall k other, (k < i)%nat -> (a :: l) !! k = Some other ->
                            Client.hasId n other = false)
                      /\ s = Client.normalize row
                      /\ complete s
                      /\ Client.Name s <> Null).
  { intros v Hnull Hundef. cbn zeta.
    destruct (parseIntVal v) as [n|] eqn:Hparse.
    - destruct (Client.findIndex (Client.hasId n) (a :: l)) as [i|] eqn:Hfind.
      + destruct (findIndex_Some _ _ _ Hfind) as (row & Hrow & Hid & Hfirst).
        rewrite list_lookup_alter_eq, Hrow. cbn [fmap option_fmap option_map].
        destruct (Client.Name (Client.normalize row)) eqn:HName; cbn [fst].
        * pose proof (normalize_makes_complete row) as [HN _]. congruence.
        * split; [split; [discriminate|intros [?|?]; congruence]|].
          intros s [= <-]. right. left. split; [reflexivity|]. exists n. reflexivity.
        * split; [split; [discriminate|intros [?|?]; congruence]|].
          intros s [= <-]. right. right. exists n, i, row.
          repeat split; try assumption; try reflexivity;
            try apply normalize_makes_complete.
          rewrite HName. discriminate.
      + cbn [fst]. split; [split; [discriminate|intros [?|?]; congruence]|].
        intros s [= <-]. right. left. split; [reflexivity|]. exists n. reflexivity.
    - cbn [fst]. split; [split; [discriminate|intros [?|?]; congruence]|].
      intros s [= <-]. left. split; reflexivity. }
  destruct studentId as [| |b|n|str].
  - cbn [fst]. split; [split; [intros _; right; reflexivity|reflexivity]|discriminate].
  - cbn [fst]. split; [split; [intros _; left; reflexivity|reflexivity]|discriminate].
  - apply (Hfound (VBool b)); discriminate.
  - apply (Hfound (VNum n)); discriminate.
  - apply (Hfound (VStr str)); discriminate.
Qed.

Lemma client_lookup_result_witness :
  (fst (Client.getStudentDetails (VStr "1") (Some [bareStudent])) = None
   <-> VStr "1" = VNull \/ VStr "1" = VUndef)
  /\ forall s,
       fst (Client.getStudentDetails (VStr "1") (Some [bareStudent])) = Some s ->
       (s = Client.unknownStudent (VStr "1") /\ parseIntVal (VStr "1") = None)
       \/ (s = Client.unknownStudentWithDefaults (VStr "1")
           /\ exists n, parseIntVal (VStr "1") = Some n)
       \/ exists n i row,
            parseIntVal (VStr "1") = Some n
            /\ [bareStudent] !! i = Some row
            /\ Client.hasId n row = true
            /\ (forall k other, (k < i)%nat -> [bareStudent] !! k = Some other ->
                  Client.hasId n other = false)
            /\ s = Client.normalize row
            /\ complete s
            /\ Client.Name s <> Null.
Proof.
  apply (client_lookup_result (VStr "1") [bareStudent]). discriminate.
Defined.

(** ** The students a rendered slot shows *)

Section CurrentStudents.

Lemma strictEquals_eq (a b : JsVal) : Client.strictEquals a b = true <-> a = b.
Proof.
  destruct a, b; cbn [Client.strictEquals]; try (split; [discriminate|congruence]);
    try (split; reflexivity).
  - rewrite Bool.eqb_true_iff. split; congruence.
  - rewrite Z.eqb_eq. split; congruence.
  - rewrite String.eqb_eq. split; congruence.
Qed.

Lemma includesId_In (ids : list JsVal) (id : JsVal) :
  Client.includesId ids id = true <-> In id ids.
Proof.
  unfold Client.includesId. rewrite existsb_exists. split.
  - intros (x & Hx & Heq). apply strictEquals_eq in Heq. subst x. exact Hx.
  - intros Hin. exists id. split; [exact Hin|apply strictEquals_eq; reflexivity].
Qed.

Lemma uniqueIds_fold (ids : list JsVal) :
  forall seen,
    NoDup seen ->
    let result :=
      fold_left (fun seen id => if Client.includesId seen id then seen else seen ++ [id])
        ids seen in
    NoDup result /\ forall id, In id result <-> In id seen \/ In id ids.
Proof.
  induction ids as [|x ids IH]; intros seen Hnd; cbn [fold_left].
  - split; [exact Hnd|]. intros id. cbn [In]. tauto.
  - destruct (Client.includesId seen x) eqn:Hx.
    + destruct (IH seen Hnd) as [Hnd' Hin]. split; [exact Hnd'|].
      intros id. rewrite Hin. cbn [In]. apply includesId_In in Hx.
      split; [tauto|]. intros [H|[<-|H]]; tauto.
    + assert (Hnot : ~ In x seen).
      { intros Hin. apply includesId_In in Hin. congruence. }
      destruct (IH (seen ++ [x])) as [Hnd' Hin].
      { apply NoDup_app. split; [exact Hnd|]. split; [|apply NoDup_singleton].
        intros y Hy Hy'. apply list_elem_of_In in Hy.
        apply list_elem_of_singleton in Hy'. subst y. exact (Hnot Hy). }
      split; [exact Hnd'|]. intros id. rewrite Hin, in_app_iff. cbn [In]. tauto.
Qed.

Lemma marked_ids (scheduleId : JsVal) (todaysStatuses : list Client.DailyStatus)
    (kind : string) (id : JsVal) :
  In id (map Client.student_id
           (List.filter (fun s => String.eqb (Client.status s) kind)
              (List.filter (fun s => Client.strictEquals (Client.lesson_schedule_id s) scheduleId)
                 todaysStatuses)))
  <-> markedAs scheduleId todaysStatuses kind id.
Proof.
  unfold markedAs. rewrite in_map_iff. split.
  - intros (s & Hid & Hs). apply filter_In in Hs as [Hs Hkind].
    apply filter_In in Hs as [Hs Hslot].
    apply String.eqb_eq in Hkind. apply strictEquals_eq in Hslot.
    exists s. repeat split; assumption.
  - intros (s & Hs & Hslot & Hkind & Hid). exists s. split; [exact Hid|].
    apply filter_In. split; [|apply String.eqb_eq; exact Hkind].
    apply filter_In. split; [exact Hs|apply strictEquals_eq; exact Hslot].
Qed.

End CurrentStudents.

(** X20. Outside edit mode, the students a slot shows are, without
    repetition, the original students who are not marked absent for the
    slot today and the students assigned to it as fill-ins today; in edit
    mode they are the original students. *)
Theorem current_students_of_slot (scheduleId : JsVal) (originalStudentIds : list JsVal)
    (todaysStatuses : list Client.DailyStatus) :
  let current :=
    Client.currentStudentIds false scheduleId originalStudentIds todaysStatuses in
  NoDup current
  /\ (forall id,
        In id current
        <-> (In id originalStudentIds
             /\ ~ markedAs scheduleId todaysStatuses "marked_absent" id)
            \/ markedAs scheduleId todaysStatuses "assigned_fill_in" id)
  /\ Client.currentStudentIds true scheduleId originalStudentIds todaysStatuses
     = originalStudentIds.
Proof.
  cbn zeta. unfold Client.currentStudentIds, Client.uniqueIds.
  match goal with
  | |- context [fold_left _ ?ids []] =>
      destruct (uniqueIds_fold ids [] (NoDup_nil_2)) as [Hnd Hin]
  end.
  cbn zeta in Hnd, Hin. split; [exact Hnd|]. split; [|reflexivity].
  intros id. rewrite Hin, in_app_iff, filter_In, negb_true_iff, !marked_ids.
  cbn [In].
  assert (Habsent : Client.includesId
                      (map Client.student_id
                         (List.filter
                            (fun s => String.eqb (Client.status s) "marked_absent")
                            (List.filter
                               (fun s => Client.strictEquals (Client.lesson_schedule_id s)
                                           scheduleId) todaysStatuses))) id = false
                    <-> ~ markedAs scheduleId todaysStatuses "marked_absent" id).
  { rewrite <- marked_ids, <- includesId_In. destruct (Client.includesId _ id);
      split; [discriminate|intros H; destruct (H eq_refl)|congruence|reflexivity]. }
  rewrite Habsent. tauto.
Qed.

(** X21. The places of a rendered slot: the capacity shown is at least 1
    and at least the number of students shown, so the number of free
    places is never negative; the slot takes no more students exactly
    when the two are equal. When one of the original students, as looked
    up in the roster, is a solo student, the capacity is 1 unless more
    students are shown; with none solo and one paired it is 2 unless
    more are shown. *)
Theorem slot_places (isEditMode : bool) (scheduleId slotCapacity : JsVal)
    (original_student_ids : option (list JsVal)) (todaysStatuses : list Client.DailyStatus)
    (studentsData : option (list Client.Student)) :
  let '(current, capacity, hasCapacityToAdd, _) :=
    Client.slotOccupancy isEditMode scheduleId slotCapacity original_student_ids
      todaysStatuses studentsData in
  let originals :=
    fst (Client.lookupAll (default [] original_student_ids) studentsData) in
  1 <= capacity
  /\ Z.of_nat (length current) <= capacity
  /\ (hasCapacityToAdd = false <-> capacity = Z.of_nat (length current))
  /\ (studentsData <> None ->
      existsb (Client.hasGroupOf 1) originals = true ->
      capacity = Z.max 1 (Z.of_nat (length current)))
  /\ (studentsData <> None ->
      existsb (Client.hasGroupOf 1) originals = false ->
      existsb (Client.hasGroupOf 2) originals = true ->
      capacity = Z.max 2 (Z.of_nat (length current))).
Proof.
  unfold Client.slotOccupancy, Client.effectiveCapacity. cbn zeta.
  set (current := Client.currentStudentIds _ _ _ _).
  set (valid := match Client.parseInt10 slotCapacity with
                | Some dbCapacity => if 0 <? dbCapacity then dbCapacity else 3
                | None => 3
                end).
  assert (Hvalid : 1 <= valid).
  { subst valid. destruct (Client.parseInt10 slotCapacity) as [n|]; [|lia].
    destruct (Z.ltb_spec 0 n); lia. }
  assert (Hfull : forall c, (Z.of_nat (length current) <? Z.max c (Z.of_nat (length current)))
                            = false
                            <-> Z.max c (Z.of_nat (length current))
                                = Z.of_nat (length current)).
  { intros c. rewrite Z.ltb_ge. lia. }
  assert (Hmax : forall c, 1 <= c ->
                   1 <= Z.max c (Z.of_nat (length current))
                   /\ Z.of_nat (length current) <= Z.max c (Z.of_nat (length current)))
    by (intros c Hc; lia).
  destruct (default [] original_student_ids) as [|id ids] eqn:Hids.
  - cbn [Client.lookupAll fst existsb].
    split; [apply Hmax, Hvalid|]. split; [apply Hmax, Hvalid|]. split; [apply Hfull|].
    split; intros; discriminate.
  - destruct studentsData as [roster|].
    + destruct (Client.lookupAll (id :: ids) (Some roster)) as [details data'] eqn:Hlook.
      cbn [fst].
      destruct (existsb (Client.hasGroupOf 1) details);
        [|destruct (existsb (Client.hasGroupOf 2) details)];
        (split; [apply Hmax; lia|]); (split; [apply Hmax; lia|]);
        (split; [apply Hfull|]);
        (split; intros; first [reflexivity|discriminate]).
    + split; [apply Hmax, Hvalid|]. split; [apply Hmax, Hvalid|]. split; [apply Hfull|].
      split; intros H; destruct (H eq_refl).
Qed.

(** ** Blocks created through the API layer *)

Section CreatedBlocks.

Lemma created_block_request
    (supabaseClient : option (Client.BlockRequest -> option (field string)))
    (isTestMode : bool) (blockDate blockType identifier reason : field string)
    (r : Client.BlockRequest) :
  In r (snd (Client.createDailyBlock supabaseClient isTestMode blockDate blockType
               identifier reason)) ->
  exists rpc,
    supabaseClient = Some rpc
    /\ snd (Client.createDailyBlock supabaseClient isTestMode blockDate blockType
              identifier reason) = [r]
    /\ blockDate = Val (Client.p_block_date r) /\ Client.p_block_date r <> ""
    /\ blockType = Val (Client.p_block_type r) /\ Client.p_block_type r <> ""
    /\ Client.p_identifier r = truthyStr identifier
    /\ Client.p_reason r = truthyStr reason
    /\ (In (Client.p_block_type r) Client.identifierRequired ->
        exists ident, identifier = Val ident /\ trim ident <> "")
    /\ (Client.p_block_type r = "Coach Unavailable" ->
        exists ident n, identifier = Val ident /\ parseInt ident = Some n)
    /\ (Client.success
          (fst (Client.createDailyBlock supabaseClient isTestMode blockDate blockType
                  identifier reason)) = true
        <-> rpc r = None).
Proof.
  unfold Client.createDailyBlock.
  destruct supabaseClient as [rpc|]; [|intros []].
  destruct (truthyStr blockDate) as [date|] eqn:Hdate; [|intros []].
  destruct (truthyStr blockType) as [kind|] eqn:Hkind; [|intros []].
  apply truthyStr_Some in Hdate as [-> Hdate]. apply truthyStr_Some in Hkind as [-> Hkind].
  destruct (includes Client.identifierRequired kind && _) eqn:Hreq; [intros []|].
  destruct (String.eqb kind "Coach Unavailable" && _) eqn:Hcoach; [intros []|].
  assert (Hrest :
    (In kind Client.identifierRequired ->
     exists ident, identifier = Val ident /\ trim ident <> "")
    /\ (kind = "Coach Unavailable" ->
        exists ident n, identifier = Val ident /\ parseInt ident = Some n)).
  { split.
    - intros Hin.
      assert (Hinc : includes Client.identifierRequired kind = true).
      { unfold includes. apply existsb_exists. exists kind.
        split; [exact Hin|apply String.eqb_refl]. }
      rewrite Hinc in Hreq. cbn [andb] in Hreq.
      destruct (truthyStr identifier) as [ident|] eqn:Hident; [|discriminate].
      apply truthyStr_Some in Hident as [-> _]. exists ident. split; [reflexivity|].
      apply String.eqb_neq. exact Hreq.
    - intros ->. cbn [String.eqb Ascii.eqb Bool.eqb andb] in Hcoach.
      destruct identifier as [| |ident]; try discriminate.
      destruct (parseInt ident) as [n|] eqn:Hparse; [|discriminate].
      exists ident, n. split; [reflexivity|exact Hparse]. }
  destruct Hrest as [H3 H4].
  match goal with
  | |- context [rpc ?request] => destruct (rpc request) as [err|] eqn:Hrpc
  end; cbn [snd fst Client.success]; intros [<-|[]]; exists rpc;
    cbn [Client.p_block_date Client.p_block_type Client.p_identifier Client.p_reason];
    (split; [reflexivity|]); (split; [reflexivity|]);
    (split; [reflexivity|]); (split; [exact Hdate|]);
    (split; [reflexivity|]); (split; [exact Hkind|]);
    (split; [reflexivity|]); (split; [reflexivity|]);
    (split; [exact H3|]); (split; [exact H4|]);
    rewrite Hrpc; split; congruence.
Qed.

End CreatedBlocks.

(** X22. [createDailyBlock] sends at most one request, and only a
    validated one: date and type are present, a type that needs an
    identifier comes with one that is more than white space, and a coach's
    unavailability comes with an identifier from which [parseInt] reads a
    number. It reports success exactly when the backend raised no error. *)
Theorem block_requests_are_validated
    (supabaseClient : option (Client.BlockRequest -> option (field string)))
    (isTestMode : bool) (blockDate blockType identifier reason : field string)
    (r : Client.BlockRequest) :
  In r (snd (Client.createDailyBlock supabaseClient isTestMode blockDate blockType
               identifier reason)) ->
  exists rpc,
    supabaseClient = Some rpc
    /\ snd (Client.createDailyBlock supabaseClient isTestMode blockDate blockType
              identifier reason) = [r]
    /\ blockDate = Val (Client.p_block_date r) /\ Client.p_block_date r <> ""
    /\ blockType = Val (Client.p_block_type r) /\ Client.p_block_type r <> ""
    /\ Client.p_identifier r = truthyStr identifier
    /\ Client.p_reason r = truthyStr reason
    /\ (In (Client.p_block_type r) Client.identifierRequired ->
        exists ident, identifier = Val ident /\ trim ident <> "")
    /\ (Client.p_block_type r = "Coach Unavailable" ->
        exists ident n, identifier = Val ident /\ parseInt ident = Some n)
    /\ (Client.success
          (fst (Client.createDailyBlock supabaseClient isTestMode blockDate blockType
                  identifier reason)) = true
        <-> rpc r = None).
Proof. apply created_block_request. Qed.

Lemma block_requests_are_validated_witness :
  exists rpc,
    Some acceptingBackend = Some rpc
    /\ snd (Client.createDailyBlock (Some acceptingBackend) false (Val "2025-03-03")
              (Val "Year Level Absence") (Val "Year 7") Null) = [year7Request]
    /\ Val "2025-03-03" = Val (Client.p_block_date year7Request)
    /\ Client.p_block_date year7Request <> ""
    /\ Val "Year Level Absence" = Val (Client.p_block_type year7Request)
    /\ Client.p_block_type year7Request <> ""
    /\ Client.p_identifier year7Request = truthyStr (Val "Year 7")
    /\ Client.p_reason year7Request = truthyStr Null
    /\ (In (Client.p_block_type year7Request) Client.identifierRequired ->
        exists ident, Val "Year 7" = Val ident /\ trim ident <> "")
    /\ (Client.p_block_type year7Request = "Coach Unavailable" ->
        exists ident n, Val "Year 7" = Val ident /\ parseInt ident = Some n)
    /\ (Client.success
          (fst (Client.createDailyBlock (Some acceptingBackend) false (Val "2025-03-03")
                  (Val "Year Level Absence") (Val "Year 7") Null)) = true
        <-> rpc year7Request = None).
Proof.
  apply (block_requests_are_validated (Some acceptingBackend) false (Val "2025-03-03")
           (Val "Year Level Absence") (Val "Year 7") Null year7Request).
  left. reflexivity.
Defined.

(** X23. A block as [createDailyBlock] requests it blocks on its own date
    by its type alone, with no side condition on the identifier: a public
    holiday blocks every student; a year-level absence, the students whose
    class name begins with the identifier given; a class absence, the
    students of exactly that class; a coach's unavailability, the slots of
    the coach whose id [parseInt] reads from the identifier, as a double;
    any other type, nobody. *)
Theorem created_block_applies
    (supabaseClient : option (Client.BlockRequest -> option (field string)))
    (isTestMode : bool) (blockDate blockType identifier reason : field string)
    (r : Client.BlockRequest) (details : Server.StudentDetails) (coachId : Z) :
  In r (snd (Client.createDailyBlock supabaseClient isTestMode blockDate blockType
               identifier reason)) ->
  Server.isStudentBlocked (Some details) blockDate coachId (Some [requestedBlock r]) = true
  <-> blockType = Val "Public Holiday"
      \/ (blockType = Val "Year Level Absence"
          /\ exists ident cls, identifier = Val ident
                               /\ Server.class_name details = Val cls
                               /\ String.prefix ident cls = true)
      \/ (blockType = Val "Class Absence"
          /\ exists ident, identifier = Val ident /\ Server.class_name details = Val ident)
      \/ (blockType = Val "Coach Unavailable"
          /\ exists ident, identifier = Val ident /\ parseInt ident = Some coachId).
Proof.
  rename identifier into given. intros Hin.
  destruct (created_block_request _ _ _ _ _ _ _ Hin)
    as (rpc & _ & _ & Hdate & Hd & Hkind & Hk & Hident & _ & Hreq & _ & _).
  rewrite server_blocked_iff. rewrite Hdate, Hkind.
  assert (Htrim : forall ident, given = Val ident -> trim ident <> "" ->
                                ident <> "" /\ Client.p_identifier r = Some ident).
  { intros ident -> Hne. assert (Hnonempty : ident <> "") by (intros ->; apply Hne; reflexivity).
    split; [exact Hnonempty|]. rewrite Hident. apply truthyStr_Val, Hnonempty. }
  split.
  - intros (d & b & [= <-] & _ & [<-|[]] & _ & Happ).
    apply server_blockApplies_matches in Happ.
    unfold blockMatches, requestedBlock in Happ.
    cbn [block_type identifier] in Happ.
    destruct Happ as [Hph|[[Hyl (i & cls & Hi & _ & Hcls & Hpre)]
                          |[[Hca (i & Hi & _ & Hcls)]|[Hcu (i & Hi & Hparse)]]]].
    + left. rewrite Hph. reflexivity.
    + right. left. rewrite Hyl. split; [reflexivity|]. exists i, cls.
      rewrite Hident in Hi. apply truthyStr_Some in Hi as [-> _]. repeat split; assumption.
    + right. right. left. rewrite Hca. split; [reflexivity|]. exists i.
      rewrite Hident in Hi. apply truthyStr_Some in Hi as [-> _]. split; [reflexivity|exact Hcls].
    + right. right. right. rewrite Hcu. split; [reflexivity|]. exists i.
      rewrite Hident in Hi. apply truthyStr_Some in Hi as [-> _]. split; [reflexivity|exact Hparse].
  - intros Hmatch. exists (Client.p_block_date r), (requestedBlock r).
    split; [reflexivity|]. split; [exact Hd|]. split; [left; reflexivity|].
    split; [reflexivity|]. apply server_blockApplies_matches.
    unfold blockMatches, requestedBlock. cbn [block_type identifier].
    destruct Hmatch as [[= Hph]|[[[= Hyl] (i & cls & Hi & Hcls & Hpre)]
                                |[[[= Hca] (i & Hi & Hcls)]|[[= Hcu] (i & Hi & Hparse)]]]].
    + left. exact Hph.
    + right. left. split; [exact Hyl|].
      destruct (Hreq ltac:(rewrite Hyl; left; reflexivity)) as (i' & Hi' & Hne).
      destruct (Htrim i' Hi' Hne) as [Hnonempty Hsent].
      assert (i' = i) by congruence. subst i'.
      exists i, cls. repeat split; assumption.
    + right. right. left. split; [exact Hca|].
      destruct (Hreq ltac:(rewrite Hca; right; left; reflexivity)) as (i' & Hi' & Hne).
      destruct (Htrim i' Hi' Hne) as [Hnonempty Hsent].
      assert (i' = i) by congruence. subst i'.
      exists i. repeat split; assumption.
    + right. right. right. split; [exact Hcu|].
      destruct (Hreq ltac:(rewrite Hcu; right; right; left; reflexivity))
        as (i' & Hi' & Hne).
      destruct (Htrim i' Hi' Hne) as [Hnonempty Hsent].
      assert (i' = i) by congruence. subst i'.
      exists i. split; assumption.
Qed.

Lemma created_block_applies_witness :
  Server.isStudentBlocked (Some (pupilDetails (Val "Year 7A"))) (Val "2025-03-03") 7
    (Some [requestedBlock year7Request]) = true
  <-> Val "Year Level Absence" = Val "Public Holiday"
      \/ (Val "Year Level Absence" = Val "Year Level Absence"
          /\ exists ident cls, Val "Year 7" = Val ident
                               /\ Server.class_name (pupilDetails (Val "Year 7A")) = Val cls
                               /\ String.prefix ident cls = true)
      \/ (Val "Year Level Absence" = Val "Class Absence"
          /\ exists ident, Val "Year 7" = Val ident
                           /\ Server.class_name (pupilDetails (Val "Year 7A")) = Val ident)
      \/ (Val "Year Level Absence" = Val "Coach Unavailable"
          /\ exists ident, Val "Year 7" = Val ident /\ parseInt ident = Some 7).
Proof.
  apply (created_block_applies (Some acceptingBackend) false (Val "2025-03-03")
           (Val "Year Level Absence") (Val "Year 7") Null year7Request
           (pupilDetails (Val "Year 7A")) 7).
  left. reflexivity.
Defined.

(** ** The current term and week *)

Section Terms.

Variables (parseDate : string -> option Z) (today : Z).

Lemma week_bounds (termStart todayDateOnly : Z) :
  termStart <= todayDateOnly ->
  let weekNumber := (todayDateOnly - termStart) / Client.msPerDay / 7 + 1 in
  1 <= weekNumber
  /\ termStart + 7 * Client.msPerDay * (weekNumber - 1) <= todayDateOnly
     < termStart + 7 * Client.msPerDay * weekNumber.
Proof.
  intros Hle. cbn zeta.
  assert (Hms : Client.msPerDay = 86400000) by reflexivity.
  rewrite Z.div_div by (rewrite ?Hms; lia). rewrite Hms.
  pose proof (Z.mul_div_le (todayDateOnly - termStart) (86400000 * 7) ltac:(lia)) as Hlow.
  pose proof (Z.mul_succ_div_gt (todayDateOnly - termStart) (86400000 * 7) ltac:(lia)) as Hup.
  pose proof (Z.div_pos (todayDateOnly - termStart) (86400000 * 7) ltac:(lia) ltac:(lia))
    as Hpos.
  set (q := (todayDateOnly - termStart) / (86400000 * 7)) in *. lia.
Qed.

Lemma termLoop_result (terms : list Client.TermDates) :
  let result := Client.termLoop parseDate (Client.utcStartOfDay today) terms in
  (exists before t after termStart termEnd weekNumber,
     terms = before ++ t :: after
     /\ Forall (fun t' => ~ containsToday parseDate today t') before
     /\ Client.termBounds parseDate t = Some (termStart, termEnd)
     /\ termStart <= Client.utcStartOfDay today <= termEnd
     /\ result = {| Client.term := Some (Client.term_number t);
                    Client.week := Some weekNumber;
                    Client.term_error := None |}
     /\ 1 <= weekNumber
     /\ termStart + 7 * Client.msPerDay * (weekNumber - 1)
        <= Client.utcStartOfDay today
        < termStart + 7 * Client.msPerDay * weekNumber)
  \/ (Forall (fun t' => ~ containsToday parseDate today t') terms
      /\ result = {| Client.term := None; Client.week := None; Client.term_error := None |}).
Proof.
  induction terms as [|t terms IH]; cbn zeta; cbn [Client.termLoop].
  - right. split; [constructor|reflexivity].
  - assert (Hskip : ~ containsToday parseDate today t ->
              (exists before t0 after termStart termEnd weekNumber,
                 t :: terms = before ++ t0 :: after
                 /\ Forall (fun t' => ~ containsToday parseDate today t') before
                 /\ Client.termBounds parseDate t0 = Some (termStart, termEnd)
                 /\ termStart <= Client.utcStartOfDay today <= termEnd
                 /\ Client.termLoop parseDate (Client.utcStartOfDay today) terms
                    = {| Client.term := Some (Client.term_number t0);
                         Client.week := Some weekNumber;
                         Client.term_error := None |}
                 /\ 1 <= weekNumber
                 /\ termStart + 7 * Client.msPerDay * (weekNumber - 1)
                    <= Client.utcStartOfDay today
                    < termStart + 7 * Client.msPerDay * weekNumber)
              \/ (Forall (fun t' => ~ containsToday parseDate today t') (t :: terms)
                  /\ Client.termLoop parseDate (Client.utcStartOfDay today) terms
                     = {| Client.term := None; Client.week := None;
                          Client.term_error := None |})).
    { intros Hnot. cbn zeta in IH.
      destruct IH as [(before & t0 & after & s & e & w & -> & Hb & Hrest)|[Hall Hres]].
      - left. exists (t :: before), t0, after, s, e, w.
        split; [reflexivity|]. split; [constructor; assumption|exact Hrest].
      - right. split; [constructor; assumption|exact Hres]. }
    destruct (Client.termBounds parseDate t) as [[termStart termEnd]|] eqn:Hbounds.
    + destruct (Z.leb_spec termStart (Client.utcStartOfDay today)) as [Hs|Hs];
        [destruct (Z.leb_spec (Client.utcStartOfDay today) termEnd) as [He|He]|];
        cbn [andb].
      * left. exists [], t, terms, termStart, termEnd,
          ((Client.utcStartOfDay today - termStart) / Client.msPerDay / 7 + 1).
        split; [reflexivity|]. split; [constructor|]. split; [exact Hbounds|].
        split; [lia|]. split; [reflexivity|]. apply week_bounds. exact Hs.
      * apply Hskip. intros (s & e & Hb & Hin). rewrite Hbounds in Hb.
        injection Hb as <- <-. lia.
      * apply Hskip. intros (s & e & Hb & Hin). rewrite Hbounds in Hb.
        injection Hb as <- <-. lia.
    + apply Hskip. intros (s & e & Hb & _). rewrite Hbounds in Hb. discriminate.
Qed.

End Terms.

(** X24. The current term and week, whatever the runtime makes of the
    date texts: without term data the result is the error; otherwise there
    is no error, and the result is the first term in the list whose two
    dates are valid and contain today's date, with a week number that is
    at least 1 and counts the whole weeks since the start of the term, or
    it is empty when no term contains today. *)
Theorem current_term_and_week (parseDate : string -> option Z) (today : Z)
    (termDatesData : option (list Client.TermDates)) :
  let result := Client.calculateCurrentTermAndWeek parseDate today termDatesData in
  match termDatesData with
  | None | Some [] =>
      result = {| Client.term := None; Client.week := None;
                  Client.term_error := Some "Term dates data is missing or empty." |}
  | Some terms =>
      (exists before t after termStart termEnd weekNumber,
         terms = before ++ t :: after
         /\ Forall (fun t' => ~ containsToday parseDate today t') before
         /\ Client.termBounds parseDate t = Some (termStart, termEnd)
         /\ termStart <= Client.utcStartOfDay today <= termEnd
         /\ result = {| Client.term := Some (Client.term_number t);
                        Client.week := Some weekNumber;
                        Client.term_error := None |}
         /\ 1 <= weekNumber
         /\ termStart + 7 * Client.msPerDay * (weekNumber - 1)
            <= Client.utcStartOfDay today
            < termStart + 7 * Client.msPerDay * weekNumber)
      \/ (Forall (fun t' => ~ containsToday parseDate today t') terms
          /\ result = {| Client.term := None; Client.week := None;
                         Client.term_error := None |})
  end.
Proof.
  destruct termDatesData as [[|t terms]|]; cbn zeta; [reflexivity| |reflexivity].
  apply (termLoop_result parseDate today (t :: terms)).
Qed.

(** On 3 March 2025 at 10:00 UTC, the sixth week of term 1. *)
Example current_term_and_week_example :
  Client.calculateCurrentTermAndWeek sampleParseDate 1740996000000 (Some sampleTerms)
  = {| Client.term := Some 1; Client.week := Some 6; Client.term_error := None |}.
Proof. vm_compute. reflexivity. Qed.

(** ** The candidate filter of the log viewer *)

Section CandidateFilter.

Lemma refines_refl (roster : list Client.Student) : refines roster roster.
Proof. induction roster; constructor; [left; reflexivity|assumption]. Qed.

Lemma refines_normalize (x y : Client.Student) :
  y = x \/ y = Client.normalize x -> Client.normalize y = Client.normalize x.
Proof. intros [->| ->]; [reflexivity|apply normalize_idempotent]. Qed.

Lemma refines_alter (roster roster' : list Client.Student) (i : nat) :
  refines roster roster' -> refines roster (alter Client.normalize i roster').
Proof.
  intros H. revert i. induction H as [|x y l l' Hxy Hl IH]; intros i; [constructor|].
  destruct i as [|i]; cbn.
  - constructor; [|exact Hl]. right. apply refines_normalize. exact Hxy.
  - constructor; [exact Hxy|apply IH].
Qed.

Lemma refines_findIndex (roster roster' : list Client.Student) (n : Z) :
  refines roster roster' ->
  Client.findIndex (Client.hasId n) roster' = Client.findIndex (Client.hasId n) roster.
Proof.
  induction 1 as [|x y l l' Hxy _ IH]; [reflexivity|].
  cbn [Client.findIndex]. rewrite IH.
  assert (Hid : Client.hasId n y = Client.hasId n x)
    by (destruct Hxy as [->| ->]; [reflexivity|apply normalize_hasId]).
  rewrite Hid. reflexivity.
Qed.

Lemma refines_lookup (roster roster' : list Client.Student) (i : nat) (x : Client.Student) :
  refines roster roster' ->
  roster !! i = Some x ->
  exists y, roster' !! i = Some y /\ Client.normalize y = Client.normalize x.
Proof.
  intros H. revert i. induction H as [|a b l l' Hab _ IH]; intros i; [discriminate|].
  destruct i as [|i]; cbn.
  - intros [= <-]. exists b. split; [reflexivity|apply refines_normalize; exact Hab].
  - apply IH.
Qed.

Lemma refines_getStudentDetails (studentId : JsVal) (roster roster' : list Client.Student) :
  refines roster roster' ->
  fst (Client.getStudentDetails studentId (Some roster'))
  = fst (Client.getStudentDetails studentId (Some roster))
  /\ exists roster'',
       snd (Client.getStudentDetails studentId (Some roster')) = Some roster''
       /\ refines roster roster''.
Proof.
  intros Href. split.
  - destruct Href as [|a b l l' Hab Hl]; [reflexivity|].
    assert (Href : refines (a :: l) (b :: l')) by (constructor; assumption).
    rewrite !getStudentDetails_cons.
    destruct studentId as [| |flag|num|str]; try reflexivity;
      (destruct (parseIntVal _) as [n|]; [|reflexivity];
       rewrite (refines_findIndex _ _ n Href);
       destruct (Client.findIndex (Client.hasId n) (a :: l)) as [i|] eqn:Hfind;
         [|reflexivity];
       destruct (findIndex_Some _ _ _ Hfind) as (x & Hx & _);
       destruct (refines_lookup _ _ i x Href Hx) as (y & Hy & Hnorm);
       cbn zeta; rewrite !list_lookup_alter_eq, Hx, Hy;
       cbn [fmap option_fmap option_map]; rewrite Hnorm;
       destruct (Client.Name (Client.normalize x)); reflexivity).
  - destruct (lookup_roster studentId roster') as [->|(n & i & _ & _ & ->)].
    + exists roster'. split; [reflexivity|exact Href].
    + eexists. split; [reflexivity|]. apply refines_alter. exact Href.
Qed.

Lemma refines_lookupAll (ids : list JsVal) :
  forall roster roster',
    refines roster roster' ->
    fst (Client.lookupAll ids (Some roster')) = fst (Client.lookupAll ids (Some roster))
    /\ exists roster'',
         snd (Client.lookupAll ids (Some roster')) = Some roster''
         /\ refines roster roster''.
Proof.
  induction ids as [|id ids IH]; intros roster roster' Href; cbn [Client.lookupAll].
  - split; [reflexivity|]. exists roster'. split; [reflexivity|exact Href].
  - destruct (refines_getStudentDetails id roster roster' Href) as (Hfst & r1 & Hsnd & Hr1).
    destruct (refines_getStudentDetails id roster roster (refines_refl roster))
      as (_ & r2 & Hsnd2 & Hr2).
    destruct (Client.getStudentDetails id (Some roster')) as [d1 data1].
    destruct (Client.getStudentDetails id (Some roster)) as [d2 data2].
    cbn [fst snd] in *. subst d1 data1 data2.
    destruct (IH roster r1 Hr1) as (Hf1 & r1' & Hs1 & Hr1').
    destruct (IH roster r2 Hr2) as (Hf2 & r2' & Hs2 & Hr2').
    destruct (Client.lookupAll ids (Some r1)) as [o1 data1].
    destruct (Client.lookupAll ids (Some r2)) as [o2 data2].
    cbn [fst snd] in *. split; [congruence|]. exists r1'. split; assumption.
Qed.

Lemma found_named (v : JsVal) (a : Client.Student) (l : list Client.Student)
    (s : Client.Student) :
  fst match parseIntVal v with
      | None => (Some (Client.unknownStudent v), Some (a :: l))
      | Some idToFind =>
          match Client.findIndex (Client.hasId idToFind) (a :: l) with
          | None => (Some (Client.unknownStudentWithDefaults v), Some (a :: l))
          | Some i =>
              let roster' := alter Client.normalize i (a :: l) in
              match roster' !! i with
              | Some foundStudent =>
                  match Client.Name foundStudent with
                  | Null => (Some (Client.unknownStudentWithDefaults v), Some roster')
                  | _ => (Some foundStudent, Some roster')
                  end
              | None => (Some (Client.unknownStudentWithDefaults v), Some roster')
              end
          end
      end = Some s ->
  truthyStr (Client.Name s) <> None ->
  exists n i row,
    Client.findIndex (Client.hasId n) (a :: l) = Some i
    /\ (a :: l) !! i = Some row
    /\ s = Client.normalize row
    /\ Client.toKey (Client.id s) = pretty n.
Proof.
  intros Hget Hname.
  assert (Hplace1 : Some (Client.unknownStudent v) = Some s -> False)
    by (intros [= <-]; apply Hname; reflexivity).
  assert (Hplace2 : Some (Client.unknownStudentWithDefaults v) = Some s -> False)
    by (intros [= <-]; apply Hname; reflexivity).
  destruct (parseIntVal v) as [n|]; [|destruct (Hplace1 Hget)].
  destruct (Client.findIndex (Client.hasId n) (a :: l)) as [i|] eqn:Hfind;
    [|destruct (Hplace2 Hget)].
  destruct (findIndex_Some _ _ _ Hfind) as (row & Hrow & Hid & _).
  cbn zeta in Hget. rewrite list_lookup_alter_eq, Hrow in Hget.
  cbn [fmap option_fmap option_map] in Hget.
  assert (Hfound : Some (Client.normalize row) = Some s ->
                   exists n i row,
                     Client.findIndex (Client.hasId n) (a :: l) = Some i
                     /\ (a :: l) !! i = Some row
                     /\ s = Client.normalize row
                     /\ Client.toKey (Client.id s) = pretty n).
  { intros [= <-]. exists n, i, row.
    split; [exact Hfind|]. split; [exact Hrow|]. split; [reflexivity|].
    destruct (normalize_fields row) as (Hidn & _). rewrite Hidn.
    unfold Client.hasId in Hid. destruct (Client.id row); try discriminate Hid.
    apply Z.eqb_eq in Hid. subst. reflexivity. }
  destruct (Client.Name (Client.normalize row)); cbn [fst] in Hget;
    [apply Hfound, Hget|destruct (Hplace2 Hget)|apply Hfound, Hget].
Qed.

(** A student that passes the first test of the loop is a roster object,
    completed, and its key is the decimal numeral of its id. *)
Lemma named_lookup (studentId : JsVal) (roster : list Client.Student) (s : Client.Student) :
  fst (Client.getStudentDetails studentId (Some roster)) = Some s ->
  truthyStr (Client.Name s) <> None ->
  exists n i row,
    Client.findIndex (Client.hasId n) roster = Some i
    /\ roster !! i = Some row
    /\ s = Client.normalize row
    /\ Client.toKey (Client.id s) = pretty n.
Proof.
  intros Hget Hname.
  destruct roster as [|a l]; [injection Hget as <-; destruct Hname; reflexivity|].
  rewrite getStudentDetails_cons in Hget.
  destruct studentId as [| |flag|num|str]; try discriminate Hget.
  - apply (found_named (VBool flag) a l s Hget Hname).
  - apply (found_named (VNum num) a l s Hget Hname).
  - apply (found_named (VStr str) a l s Hget Hname).
Qed.

Lemma query_with_consistent_cache (roster : list Client.Student) (s : Client.Student)
    (n : Z) (i : nat) (row : Client.Student) (day time : field string)
    (cache : gmap string (gmap string (gset string))) :
  Client.findIndex (Client.hasId n) roster = Some i ->
  roster !! i = Some row ->
  s = Client.normalize row ->
  Client.toKey (Client.id s) = pretty n ->
  consistentCache roster cache ->
  fst (Client.isStudentAvailable (Some s) day time cache)
  = fst (Client.isStudentAvailable (Some s) day time ∅)
  /\ consistentCache roster (snd (Client.isStudentAvailable (Some s) day time cache)).
Proof.
  intros Hfind Hrow Hs Hkey Hcache. unfold Client.isStudentAvailable.
  destruct (truthyStr day) as [d|]; [|split; [reflexivity|exact Hcache]].
  destruct (truthyStr time) as [t|]; [|split; [reflexivity|exact Hcache]].
  rewrite Hkey, lookup_empty.
  destruct (cache !! pretty n) as [parsed|] eqn:Hlook.
  - rewrite (Hcache n parsed i row Hlook Hfind Hrow). unfold ownAvailability. rewrite <- Hs.
    destruct (Client.formatTime (Client.parseTime t));
      (split; [reflexivity|exact Hcache]).
  - assert (Hnew : consistentCache roster
                     (<[pretty n := Client.parseAvailability
                                      (orField (Client.availability_string s)
                                         (Client.availability s))]> cache)).
    { intros n' parsed i' row' Hl Hf Hr.
      destruct (decide (pretty n' = pretty n)) as [Heq|Hne].
      - apply (inj pretty) in Heq. subst n'.
        rewrite lookup_insert_eq in Hl. injection Hl as <-.
        assert (i' = i) by congruence. subst i'.
        assert (row' = row) by congruence. subst row'.
        unfold ownAvailability. rewrite <- Hs. reflexivity.
      - rewrite lookup_insert_ne in Hl by congruence. apply (Hcache n' parsed i' row' Hl Hf Hr). }
    destruct (Client.formatTime (Client.parseTime t));
      (split; [reflexivity|exact Hnew]).
Qed.

Lemma candidateStep_independent (slotDay targetTime : field string) (capacity : JsVal)
    (occupants : list (option Client.Student)) (targetDate : field string) (coachId : Z)
    (blocks : list DailyBlock) (candidate : Client.BackendCandidate)
    (roster roster' : list Client.Student)
    (cache : gmap string (gmap string (gset string))) :
  refines roster roster' ->
  consistentCache roster cache ->
  let step :=
    Client.candidateStep slotDay targetTime capacity occupants targetDate coachId blocks
      candidate (Some roster') cache in
  fst (fst step)
  = fst (fst (Client.candidateStep slotDay targetTime capacity occupants targetDate coachId
                blocks candidate (Some roster) ∅))
  /\ exists roster'',
       snd (fst step) = Some roster''
       /\ refines roster roster''
       /\ consistentCache roster (snd step).
Proof.
  intros Href Hcache. cbn zeta. unfold Client.candidateStep.
  destruct (refines_getStudentDetails (Client.candidate_id candidate) roster roster' Href)
    as (Hfst & r1 & Hsnd & Hr1).
  destruct (Client.getStudentDetails (Client.candidate_id candidate) (Some roster'))
    as [details data1].
  destruct (Client.getStudentDetails (Client.candidate_id candidate) (Some roster))
    as [details0 data0] eqn:Hget0.
  cbn [fst snd] in Hfst, Hsnd. subst details data1.
  assert (Hdone : forall (out : completion (option Client.AvailableCandidate))
                         (c0 c1 : gmap string (gmap string (gset string))),
            consistentCache roster c1 ->
            fst (fst (out, Some r1, c1)) = fst (fst (out, data0, c0))
            /\ exists roster'',
                 snd (fst (out, Some r1, c1)) = Some roster''
                 /\ refines roster roster''
                 /\ consistentCache roster (snd (out, Some r1, c1))).
  { intros out c0 c1 Hc1. split; [reflexivity|]. exists r1. repeat split; assumption. }
  destruct details0 as [s|]; [|apply Hdone; exact Hcache].
  destruct (truthyStr (Client.Name s)) as [nm|] eqn:Hname; [|apply Hdone; exact Hcache].
  destruct (Client.isInactive s); [apply Hdone; exact Hcache|].
  destruct (named_lookup (Client.candidate_id candidate) roster s) as (n & i & row & Hf & Hr & Hs & Hk).
  { rewrite Hget0. reflexivity. }
  { rewrite Hname. discriminate. }
  destruct (query_with_consistent_cache roster s n i row slotDay targetTime cache
              Hf Hr Hs Hk Hcache) as [Hq Hc'].
  destruct (Client.isStudentAvailable (Some s) slotDay targetTime cache) as [av c1].
  destruct (Client.isStudentAvailable (Some s) slotDay targetTime ∅) as [av0 c0].
  cbn [fst snd] in Hq, Hc'. subst av0.
  destruct av as [[|]|msg]; try (apply Hdone; exact Hc').
  destruct (Client.violation _); [apply Hdone; exact Hc'|].
  destruct (Client.isStudentBlocked _ _ _ _); apply Hdone; exact Hc'.
Qed.

Lemma candidateLoop_independent (slotDay targetTime : field string) (capacity : JsVal)
    (occupants : list (option Client.Student)) (targetDate : field string) (coachId : Z)
    (blocks : list DailyBlock) (roster : list Client.Student)
    (candidates : list Client.BackendCandidate) :
  forall roster' cache acc,
    refines roster roster' ->
    consistentCache roster cache ->
    fst (Client.candidateLoop slotDay targetTime capacity occupants targetDate coachId blocks
           candidates (Some roster') cache acc)
    = independentLoop slotDay targetTime capacity occupants targetDate coachId blocks
        candidates roster acc.
Proof.
  induction candidates as [|c candidates IH]; intros roster' cache acc Href Hcache;
    cbn [Client.candidateLoop independentLoop]; [reflexivity|].
  destruct (candidateStep_independent slotDay targetTime capacity occupants targetDate
              coachId blocks c roster roster' cache Href Hcache)
    as (Hout & r'' & Hdata & Hr'' & Hc'').
  destruct (Client.candidateStep slotDay targetTime capacity occupants targetDate coachId
              blocks c (Some roster') cache) as [[out data'] cache'].
  cbn [fst snd] in Hout, Hdata, Hc''. rewrite <- Hout. subst data'.
  destruct out as [[a|]|msg]; [apply IH; assumption|apply IH; assumption|reflexivity].
Qed.

Lemma empty_cache_consistent (roster : list Client.Student) : consistentCache roster ∅.
Proof. intros n parsed i row Hl. rewrite lookup_empty in Hl. discriminate. Qed.

End CandidateFilter.

(** X25. The candidate filter of the log viewer judges every candidate on
    its own: although the loop completes roster objects in place and
    remembers parsed availabilities in a cache, its result is what it
    would be if every candidate were looked up in the roster as it was at
    the start and checked with an empty cache. *)
Theorem candidate_filter_is_independent (slotDay targetTime : field string) (capacity : JsVal)
    (currentOccupantDetails : list (option Client.Student)) (targetDate : field string)
    (coachId : Z) (safeBlocksForDate : list DailyBlock)
    (backendCandidates : list Client.BackendCandidate) (roster : list Client.Student) :
  fst (Client.candidateLoop slotDay targetTime capacity currentOccupantDetails targetDate
         coachId safeBlocksForDate backendCandidates (Some roster) ∅ [])
  = independentLoop slotDay targetTime capacity currentOccupantDetails targetDate coachId
      safeBlocksForDate backendCandidates roster [].
Proof.
  apply candidateLoop_independent; [apply refines_refl|apply empty_cache_consistent].
Qed.

Section Suggestions.

Variables (slotDay targetTime : field string) (capacity : JsVal)
  (occupants : list (option Client.Student)) (targetDate : field string) (coachId : Z)
  (blocks : list DailyBlock) (roster : list Client.Student).

Lemma isInactive_false (s : Client.Student) :
  Client.isInactive s = false <-> Client.is_active s <> Val false.
Proof.
  unfold Client.isInactive.
  destruct (Client.is_active s) as [| |[|]]; split; congruence.
Qed.

Lemma step_suggests (candidate : Client.BackendCandidate) (a : Client.AvailableCandidate) :
  fst (fst (Client.candidateStep slotDay targetTime capacity occupants targetDate coachId
              blocks candidate (Some roster) ∅)) = Normal (Some a)
  <-> exists s,
        eligible slotDay targetTime capacity occupants targetDate coachId blocks roster
          candidate s
        /\ a = listed candidate s.
Proof.
  unfold Client.candidateStep, eligible.
  destruct (Client.getStudentDetails (Client.candidate_id candidate) (Some roster))
    as [details data]. cbn [fst].
  destruct details as [s|]; [|split; [discriminate|intros (s & (H & _) & _); discriminate]].
  destruct (truthyStr (Client.Name s)) as [nm|] eqn:Hname.
  2:{ split; [discriminate|]. intros (s' & ([= <-] & Hn & _) & _). congruence. }
  destruct (Client.isInactive s) eqn:Hactive.
  { split; [discriminate|]. intros (s' & ([= <-] & _ & Hact & _) & _).
    apply isInactive_false in Hact. congruence. }
  apply isInactive_false in Hactive.
  destruct (Client.isStudentAvailable (Some s) slotDay targetTime ∅) as [av cache] eqn:Hav.
  destruct av as [[|]|msg].
  - destruct (Client.violation _) eqn:Hviol.
    { split; [discriminate|]. intros (s' & ([= <-] & _ & _ & _ & Hv & _) & _). congruence. }
    destruct (Client.isStudentBlocked _ _ _ _) eqn:Hblk.
    { split; [discriminate|]. intros (s' & ([= <-] & _ & _ & _ & _ & Hb) & _). congruence. }
    cbn [fst]. split.
    + intros [= <-]. exists s. split; [|reflexivity].
      repeat split; try assumption; [rewrite Hname; discriminate|rewrite Hav; reflexivity].
    + intros (s' & ([= <-] & _) & ->). reflexivity.
  - split; [discriminate|]. intros (s' & ([= <-] & _ & _ & Hq & _) & _).
    rewrite Hav in Hq. discriminate.
  - split; [discriminate|]. intros (s' & ([= <-] & _ & _ & Hq & _) & _).
    rewrite Hav in Hq. discriminate.
Qed.

Lemma independentLoop_result (candidates : list Client.BackendCandidate) :
  forall acc out,
    independentLoop slotDay targetTime capacity occupants targetDate coachId blocks
      candidates roster acc = Normal out ->
    exists picked,
      out = acc ++ picked
      /\ sublist (map Client.available_id picked) (map Client.candidate_id candidates)
      /\ forall a,
           In a picked
           <-> exists candidate s,
                 In candidate candidates
                 /\ eligible slotDay targetTime capacity occupants targetDate coachId
                      blocks roster candidate s
                 /\ a = listed candidate s.
Proof.
  induction candidates as [|c candidates IH]; intros acc out; cbn [independentLoop].
  - intros [= <-]. exists []. split; [symmetry; apply app_nil_r|]. split; [constructor|].
    intros a. split; [intros []|intros (cand & s & [] & _)].
  - destruct (fst (fst (Client.candidateStep slotDay targetTime capacity occupants targetDate
                          coachId blocks c (Some roster) ∅))) as [[a0|]|msg] eqn:Hstep;
      [| |discriminate].
    + intros Hloop. destruct (IH _ _ Hloop) as (picked & -> & Hsub & Hin).
      apply step_suggests in Hstep as (s0 & Hel0 & Ha0).
      exists (a0 :: picked). split; [rewrite <- app_assoc; reflexivity|]. split.
      * cbn [map]. rewrite Ha0. cbn [listed Client.available_id].
        apply sublist_skip. exact Hsub.
      * intros a. cbn [In]. rewrite Hin. split.
        -- intros [<-|(cand & s & Hc & Hel & Ha)].
           ++ exists c, s0. split; [left; reflexivity|]. split; assumption.
           ++ exists cand, s. split; [right; exact Hc|]. split; assumption.
        -- intros (cand & s & [<-|Hc] & Hel & Ha).
           ++ left. destruct Hel0 as [Hget0 _]. destruct Hel as [Hget _].
              rewrite Hget0 in Hget. injection Hget as <-. congruence.
           ++ right. exists cand, s. split; [exact Hc|]. split; assumption.
    + intros Hloop. destruct (IH _ _ Hloop) as (picked & -> & Hsub & Hin).
      exists picked. split; [reflexivity|]. split; [apply sublist_cons; exact Hsub|].
      intros a. rewrite Hin. split.
      * intros (cand & s & Hc & Hel & Ha). exists cand, s.
        split; [right; exact Hc|]. split; assumption.
      * intros (cand & s & [<-|Hc] & Hel & Ha).
        -- assert (Hsome : fst (fst (Client.candidateStep slotDay targetTime capacity occupants
                                      targetDate coachId blocks c (Some roster) ∅))
                           = Normal (Some a))
             by (apply step_suggests; exists s; split; assumption).
           congruence.
        -- exists cand, s. split; [exact Hc|]. split; assumption.
Qed.

End Suggestions.

(** X26. What the suggestion box of the log viewer lists: when
    [findAndDisplayAbsenceReplacements] ends with suggestions, these are,
    in the backend's order, exactly the backend's candidates that are
    eligible: the lookup in the roster (as it was before the call) gives a
    student object with a name, which is not inactive, is available on the
    slot's day at its time according to its own availability text, fits
    the current occupants under the pairing rules, and is not blocked on
    the target date. *)
Theorem displayed_suggestions_are_the_eligible_candidates
    (slotDay targetTime : field string) (capacity coachId : option Z)
    (currentStudentIds : list JsVal) (targetDate : field string)
    (blocksForDate : option (list DailyBlock))
    (backendCandidates : option (list Client.BackendCandidate))
    (roster : list Client.Student)
    (availableCandidates : list Client.AvailableCandidate)
    (studentsData' : option (list Client.Student)) :
  Client.findAndDisplayAbsenceReplacements slotDay targetTime capacity coachId
    currentStudentIds targetDate blocksForDate backendCandidates (Some roster)
  = (Client.Suggestions availableCandidates, studentsData') ->
  exists cap coach candidates,
    capacity = Some cap /\ coachId = Some coach /\ backendCandidates = Some candidates
    /\ sublist (map Client.available_id availableCandidates)
         (map Client.candidate_id candidates)
    /\ forall a,
         In a availableCandidates
         <-> exists candidate s,
               In candidate candidates
               /\ eligible slotDay targetTime (VNum cap)
                    (List.filter Client.isObject
                       (fst (Client.lookupAll currentStudentIds (Some roster))))
                    targetDate coach (default [] blocksForDate) roster candidate s
               /\ a = listed candidate s.
Proof.
  unfold Client.findAndDisplayAbsenceReplacements.
  destruct (truthyStr slotDay) as [day|]; [|discriminate].
  destruct (truthyStr targetTime) as [time|]; [|discriminate].
  destruct capacity as [cap|]; [|discriminate].
  destruct coachId as [coach|]; [|discriminate].
  destruct (refines_lookupAll currentStudentIds roster roster (refines_refl roster))
    as (_ & roster1 & Hsnd & Href).
  destruct (Client.lookupAll currentStudentIds (Some roster)) as [details data1].
  cbn [fst snd] in *. subst data1.
  destruct backendCandidates as [candidates|]; [|discriminate].
  destruct (Client.formatTime (Client.parseTime time)); [|discriminate].
  pose proof (candidateLoop_independent slotDay targetTime (VNum cap)
                (List.filter Client.isObject details) targetDate coach
                (default [] blocksForDate) roster candidates roster1 ∅ []
                Href (empty_cache_consistent roster)) as Hloop.
  destruct (Client.candidateLoop _ _ _ _ _ _ _ _ _ _ _) as [[out|msg] data2];
    [|discriminate].
  cbn [fst] in Hloop. intros [= <- <-]. symmetry in Hloop.
  destruct (independentLoop_result _ _ _ _ _ _ _ _ _ _ _ Hloop) as (picked & -> & Hsub & Hin).
  exists cap, coach, candidates. repeat split; try reflexivity; [exact Hsub| |];
    apply Hin.
Qed.

Lemma displayed_suggestions_are_the_eligible_candidates_witness :
  exists cap coach candidates,
    Some 3 = Some cap /\ Some 7 = Some coach /\ Some backendSuggestions = Some candidates
    /\ sublist (map Client.available_id
                  [listed {| Client.candidate_id := VNum 1;
                             Client.candidate_lessons_owed := Val 2 |} annCompleted;
                   listed {| Client.candidate_id := VNum 1;
                             Client.candidate_lessons_owed := Val 2 |} annCompleted])
         (map Client.candidate_id candidates)
    /\ forall a,
         In a [listed {| Client.candidate_id := VNum 1;
                         Client.candidate_lessons_owed := Val 2 |} annCompleted;
               listed {| Client.candidate_id := VNum 1;
                         Client.candidate_lessons_owed := Val 2 |} annCompleted]
         <-> exists candidate s,
               In candidate candidates
               /\ eligible (Val "Monday") (Val "09:30") (VNum cap)
                    (List.filter Client.isObject
                       (fst (Client.lookupAll [] (Some browserRoster))))
                    (Val "2025-03-03") coach (default [] (Some otherClassAway))
                    browserRoster candidate s
               /\ a = listed candidate s.
Proof.
  apply (displayed_suggestions_are_the_eligible_candidates (Val "Monday") (Val "09:30")
           (Some 3) (Some 7) [] (Val "2025-03-03") (Some otherClassAway)
           (Some backendSuggestions) browserRoster _
           (Some [annCompleted;
                  {| Client.id := VNum 2; Client.Name := Val "Ben"; Client.name := Undefined;
                     Client.groupOf := VNum 3; Client.sub_group := Null;
                     Client.class_name := Val "Year 8B";
                     Client.availability_string := Val "Tuesday: 09:00";
                     Client.availability := Undefined; Client.is_active := Val true;
                     Client.lessons_owed := Val 1 |}])).
  vm_compute. reflexivity.
Defined.

(** ** The availability cache *)



(** ** The slots of a response *)

(** X28. The response of the edge function lists, in the order of the
    request, exactly the slots whose stored capacity exceeds their current
    occupants: a slot without a free place is skipped, a slot with one is
    listed even when nobody is recommended for it; and the start time of
    an entry is the first five characters of the slot's. *)
Theorem results_are_the_slots_with_a_free_place
    (allStudentsData : list Roster.Student) (allBlocks : list DailyBlock)
    (slotsNeedingFillins : list Server.SlotInfo) :
  map Server.slot_info (Server.results allStudentsData allBlocks slotsNeedingFillins)
  = List.filter (fun slot => Server.current_occupants slot <? Server.capacity slot)
      slotsNeedingFillins
  /\ Forall (fun res =>
               Server.result_start_time res = take 5 (Server.start_time (Server.slot_info res)))
       (Server.results allStudentsData allBlocks slotsNeedingFillins).
Proof.
  unfold Server.results.
  induction slotsNeedingFillins as [|slot slots [IHmap IHall]];
    [split; [reflexivity|constructor]|].
  cbn [omap list_omap List.filter].
  destruct (Server.processSlot allStudentsData allBlocks slot) as [res|] eqn:Hproc;
    unfold Server.processSlot in Hproc;
    destruct (Z.leb_spec (Server.capacity slot - Server.current_occupants slot) 0)
      as [Hfull|Hfree]; try discriminate Hproc.
  - injection Hproc as <-.
    replace (Server.current_occupants slot <? Server.capacity slot) with true
      by (symmetry; apply Z.ltb_lt; lia).
    cbn [map Server.slot_info]. split; [f_equal; exact IHmap|].
    constructor; [reflexivity|exact IHall].
  - replace (Server.current_occupants slot <? Server.capacity slot) with false
      by (symmetry; apply Z.ltb_ge; lia).
    split; assumption.
Qed.

(* ================================================================== *)
(** * Part IV: the availability model and the time grammar *)
(* ================================================================== *)

(** ** [parseTime] reads the times of the grammar *)

Section TimeGrammar.
















Lemma trim_empty : trim "" = "".
Proof. reflexivity. Qed.






End TimeGrammar.

(** ** The browser's parser and query, by what the text lists *)

Section Listed.






















End Listed.

(** ** The edge function's query, by what the text shows *)

Section EdgeDialect.






End EdgeDialect.

(** ** The edge function on a single entry *)

Section EdgeSingleEntry.








End EdgeSingleEntry.

(** ** The browser's parser on a single entry *)

Section BrowserSingleEntry.
















End BrowserSingleEntry.

(** ** Range expansion (C6) *)




(** ** Fail-closed parsing (C7) *)



